(** * Request orchestration of the Couchbase Python client

    A shallow embedding of the asynchronous wrappers
    ([acouchbase/logic/wrappers.py], [acouchbase/management/logic/wrappers.py]),
    of the N1QL query objects ([couchbase/logic/n1ql.py]), of
    [CollectionLogic.get] ([couchbase/logic/collection.py]) and of the
    [SearchIndex] dataclass
    ([couchbase/management/logic/search_index_logic.py]), with the
    properties of the orchestration layer stated over them.

    Python values are a small inductive type, dictionaries whose iteration
    order matters are association lists, option dictionaries are finite maps,
    exceptions are values of an error monad, and the event loop is an explicit
    state (futures, ready queue, calls made into the native engine). *)

From Stdlib Require Import ZArith QArith String Ascii List Lia.
From stdpp Require Import base option gmap strings list pretty.

Set Warnings "-register-all".
Set Default Proof Using "Type".
Local Open Scope Z_scope.
Local Open Scope string_scope.

(** ** Python values and exceptions *)

Module Py.

(** [QueryScanConsistency] of [couchbase/logic/n1ql.py]. *)
Inductive QueryScanConsistency := NOT_BOUNDED | REQUEST_PLUS | AT_PLUS.

Definition QueryScanConsistency_value (c : QueryScanConsistency) : string :=
  match c with
  | NOT_BOUNDED => "not_bounded"
  | REQUEST_PLUS => "request_plus"
  | AT_PLUS => "at_plus"
  end.

Definition QueryScanConsistency_members : list QueryScanConsistency :=
  [NOT_BOUNDED; REQUEST_PLUS; AT_PLUS].

(** The values that flow through the modelled code.  A float is an exact
    rational, a [timedelta] its total number of microseconds, a dict an
    association list in insertion order (keys are ASCII strings), and
    [VNativeError] an exception object of the native engine with its three
    accessors [err()], [strerror()] and [error_context()]. *)
Inductive pyval :=
| VNone
| VBool (b : bool)
| VInt (n : Z)
| VFloat (q : Q)
| VStr (s : string)
| VTimedelta (microseconds : Z)
| VScanConsistency (c : QueryScanConsistency)
| VQueryStatus (member : string)
| VList (l : list pyval)
| VDict (d : list (string * pyval))
| VMutationState (sv : list pyval)
| VNativeError (err : Z) (strerror : string) (error_context : pyval)
| VInstance (cls : string) (payload : pyval).

(** Exception classes.  Modelled from the spec: the typed exception hierarchy
    of [couchbase.exceptions] is not under src/; the SDK's own classes derive
    from [CouchbaseException], [SDKException name] standing for any other
    class of that module. *)
Inductive exc_class :=
| CouchbaseException
| InternalSDKException
| MissingConnectionException
| InvalidArgumentException
| SDKException (name : string)
| TypeError
| ValueError
| AttributeError
| KeyError
| InvalidStateError
| CancelledError
| OtherException (name : string).

Definition issubclass_CouchbaseException (c : exc_class) : bool :=
  match c with
  | CouchbaseException | InternalSDKException | MissingConnectionException
  | InvalidArgumentException | SDKException _ => true
  | _ => false
  end.

Definition is_TypeError_or_ValueError (c : exc_class) : bool :=
  match c with
  | TypeError | ValueError => true
  | _ => false
  end.

(** [issubclass(c, Exception)]: [asyncio.CancelledError] and the built-in
    [KeyboardInterrupt], [SystemExit] and [GeneratorExit] derive from
    [BaseException] only, so that [except Exception] does not catch them. *)
Definition issubclass_Exception (c : exc_class) : bool :=
  match c with
  | CancelledError => false
  | OtherException name =>
      negb (existsb (String.eqb name)
              ["BaseException"; "KeyboardInterrupt"; "SystemExit"; "GeneratorExit"])
  | _ => true
  end.

(** An exception instance: its class, the [message] it was built with and the
    [exc_info] keyword, [VNone] when not given. *)
Record pyexc := mk_exc {
  exc_type : exc_class;
  exc_message : pyval;
  exc_info_of : pyval
}.

Definition exc (c : exc_class) (msg : string) : pyexc := mk_exc c (VStr msg) VNone.

(** The outcome of a Python call: a value, or a raised exception. *)
Inductive pyresult (A : Type) :=
| Ok (a : A)
| Raise (e : pyexc).
Arguments Ok {A} a.
Arguments Raise {A} e.

#[global] Instance pyresult_ret : MRet pyresult := fun _ a => Ok a.
#[global] Instance pyresult_bind : MBind pyresult := fun _ _ f m =>
  match m with
  | Ok a => f a
  | Raise e => Raise e
  end.

Definition raises {A} (m : pyresult A) : bool :=
  match m with
  | Ok _ => false
  | Raise _ => true
  end.

(** [bool(v)]: Python truthiness. *)
Definition truthy (v : pyval) : bool :=
  match v with
  | VNone => false
  | VBool b => b
  | VInt n => negb (Z.eqb n 0)
  | VFloat q => negb (Qeq_bool q 0)
  | VStr s => negb (String.eqb s "")
  | VTimedelta us => negb (Z.eqb us 0)
  | VList l => match l with [] => false | _ => true end
  | VDict d => match d with [] => false | _ => true end
  | VMutationState _ => true
  | VScanConsistency _ | VQueryStatus _ | VNativeError _ _ _ | VInstance _ _ => true
  end.

Definition is_None (v : pyval) : bool :=
  match v with
  | VNone => true
  | _ => false
  end.

(** [d.get(k, default)] on the association list of a dict. *)
Fixpoint assoc_get (d : list (string * pyval)) (k : string) (default : pyval) : pyval :=
  match d with
  | [] => default
  | (k', v) :: rest => if String.eqb k' k then v else assoc_get rest k default
  end.

(** [v.get(k, default)]: only a dict has the method. *)
Definition py_get (v : pyval) (k : string) (default : pyval) : pyresult pyval :=
  match v with
  | VDict d => Ok (assoc_get d k default)
  | _ => Raise (exc AttributeError "object has no attribute 'get'")
  end.

(** [params.get(k, None)] on an option dictionary. *)
Definition map_get (m : gmap string pyval) (k : string) (default : pyval) : pyval :=
  match m !! k with
  | Some v => v
  | None => default
  end.

(** [timedelta.total_seconds()]. *)
Definition total_seconds (microseconds : Z) : Q := Qmake microseconds 1000000.

(** [s[:-1]] on a string and on a list. *)
Fixpoint str_drop_last (s : string) : string :=
  match s with
  | EmptyString => EmptyString
  | String c EmptyString => EmptyString
  | String c rest => String c (str_drop_last rest)
  end.

(** [v[:-1]]: strings and lists can be sliced; a float, an int or a
    [timedelta] is not subscriptable, and a dict rejects the slice as a key. *)
Definition slice_drop_last (v : pyval) : pyresult pyval :=
  match v with
  | VStr s => Ok (VStr (str_drop_last s))
  | VList l => Ok (VList (removelast l))
  | VFloat _ => Raise (exc TypeError "'float' object is not subscriptable")
  | VInt _ => Raise (exc TypeError "'int' object is not subscriptable")
  | VBool _ => Raise (exc TypeError "'bool' object is not subscriptable")
  | VDict _ => Raise (exc TypeError "unhashable type: 'slice'")
  | _ => Raise (exc TypeError "object is not subscriptable")
  end.

(** [s.upper()] on ASCII strings. *)
Definition ascii_upper (c : ascii) : ascii :=
  let n := nat_of_ascii c in
  if ((97 <=? n)%nat && (n <=? 122)%nat)%bool then ascii_of_nat (n - 32) else c.

Fixpoint upper (s : string) : string :=
  match s with
  | EmptyString => EmptyString
  | String c rest => String (ascii_upper c) (upper rest)
  end.

End Py.
Export Py.

(** The Python built-ins whose result depends on text parsing. *)
Class PyBuiltins := {
  (** [float(s)] on a string: the parsed number, or [None] for [ValueError]. *)
  float_of_str : string → option Q
}.

(** What the modelled code imports from [couchbase.exceptions], which is not
    under src/: the code-to-class table and the two context mappers; and
    [str(e)], which every exception class defines for itself. *)
Class ExceptionsModule := {
  PYCBC_ERROR_MAP : gmap Z exc_class;
  InternalSDKException_value : Z;
  (** [ErrorMapper.parse_error_context(base_exc)]; [None] when it builds nothing. *)
  parse_error_context : pyval → option pyexc;
  (** [ErrorMapperNew.build_exception(exc, mapping=...)]. *)
  build_exception : pyval → option string → pyexc;
  (** [str(e)] of an exception instance: the text of its argument for most
      classes, the [repr] of the key for a [KeyError]. *)
  str_of_exception : pyexc → string
}.

(** [PYCBC_ERROR_MAP.get(code, CouchbaseException)] on an integer code. *)
Definition error_map_get `{ExceptionsModule} (code : Z) : exc_class :=
  default CouchbaseException (PYCBC_ERROR_MAP !! code).

(** What the wrappers import from [couchbase.logic] and
    [couchbase.management.logic], which are not under src/. *)
Class LogicModule := {
  (** [decode_value(transcoder, value, flags, is_subdoc=...)]. *)
  decode_value : pyval → pyval → pyval → bool → pyresult pyval;
  (** [handle_<kind>_mgmt_response(ret, fn.__name__, return_cls)], by the
      position of the kind among the eight the wrapper tests for. *)
  handle_mgmt_response : nat → pyval → string → string → pyval
}.

(** ** [couchbase/logic/n1ql.py] *)

Module N1QL.

(** *** [N1QLQuery] *)

Record N1QLQuery := mk_query {
  _params : gmap string pyval;
  _raw : pyval
}.

(** [N1QLQuery.__init__(query)] with no positional and no named arguments:
    both [if args] and [if kwargs] are skipped. *)
Definition N1QLQuery__init__ (query : string) : N1QLQuery :=
  {| _params := {[ "statement" := VStr query ]}; _raw := VNone |}.

Definition set_option (q : N1QLQuery) (name : string) (value : pyval) : N1QLQuery :=
  {| _params := <[ name := value ]> (_params q); _raw := _raw q |}.

(** [self._params.pop(name, default)], the popped value dropped. *)
Definition params_pop (q : N1QLQuery) (name : string) : N1QLQuery :=
  {| _params := delete name (_params q); _raw := _raw q |}.

Definition has_param (q : N1QLQuery) (name : string) : bool :=
  bool_decide (is_Some (_params q !! name)).

Section Timeout.
Context `{PyBuiltins}.

(** [float(v)] as the [timeout] getter applies it, to the result of a slice. *)
Definition py_float (v : pyval) : pyresult pyval :=
  match v with
  | VStr s =>
      match float_of_str s with
      | Some q => Ok (VFloat q)
      | None => Raise (exc ValueError "could not convert string to float")
      end
  | VFloat q => Ok (VFloat q)
  | VInt n => Ok (VFloat (inject_Z n))
  | VBool b => Ok (VFloat (inject_Z (if b then 1 else 0)))
  | _ => Raise (exc TypeError "float() argument must be a string or a real number")
  end.

(** The [timeout] property. *)
Definition timeout_get (q : N1QLQuery) : pyresult pyval :=
  let value := map_get (_params q) "timeout" VNone in
  if negb (truthy value) then Ok VNone
  else
    value ← slice_drop_last value;
    py_float value.

End Timeout.

(** The [timeout] setter. *)
Definition timeout_set (q : N1QLQuery) (value : pyval) : pyresult N1QLQuery :=
  if negb (truthy value) then Ok (params_pop q "timeout")
  else
    match value with
    | VTimedelta us => Ok (set_option q "timeout" (VFloat (total_seconds us)))
    | VFloat _ => Ok (set_option q "timeout" value)
    | _ => Raise (exc InvalidArgumentException "Excepted timeout to be a timedelta | float")
    end.

(** The [consistency] property; falling off the end of the getter returns
    [None]. *)
Definition consistency_get (q : N1QLQuery) : pyval :=
  let value := map_get (_params q) "scan_consistency" VNone in
  if is_None value && has_param q "mutation_state" then VScanConsistency AT_PLUS
  else if is_None value then VScanConsistency NOT_BOUNDED
  else
    match value with
    | VStr s =>
        if String.eqb s "request_plus" then VScanConsistency REQUEST_PLUS
        else VScanConsistency NOT_BOUNDED
    | _ => VNone
    end.

Definition consistency_type_error : pyexc :=
  exc InvalidArgumentException
    "Excepted consistency to be either of type QueryScanConsistency or str representation of QueryScanConsistency".

Definition consistency_at_plus_error : pyexc :=
  exc InvalidArgumentException
    "Cannot set consistency to AT_PLUS.  Use consistent_with instead or set consistency to NOT_BOUNDED or REQUEST_PLUS".

(** [value in [sc.value for sc in QueryScanConsistency]]. *)
Definition is_consistency_value (s : string) : bool :=
  existsb (fun sc => String.eqb s (QueryScanConsistency_value sc))
          QueryScanConsistency_members.

(** The [consistency] setter.  The pair is the query after the assignments
    made in the first [if] and the [invalid_argument] flag tested after it. *)
Definition consistency_set (q : N1QLQuery) (value : pyval) : pyresult N1QLQuery :=
  r ← (if negb (has_param q "mutation_state") then
         match value with
         | VScanConsistency c =>
             match c with
             | AT_PLUS => Ok (q, true)
             | _ => Ok (set_option q "scan_consistency" (VStr (QueryScanConsistency_value c)), false)
             end
         | VStr s =>
             if is_consistency_value s then
               if String.eqb s (QueryScanConsistency_value AT_PLUS) then Ok (q, true)
               else Ok (set_option q "scan_consistency" value, false)
             else Raise consistency_type_error
         | _ => Raise consistency_type_error
         end
       else Ok (q, false));
  let '(q', invalid_argument) := r in
  if (invalid_argument : bool) then Raise consistency_at_plus_error else Ok q'.

(** [self.consistency != QueryScanConsistency.NOT_BOUNDED]. *)
Definition is_not_bounded (v : pyval) : bool :=
  match v with
  | VScanConsistency NOT_BOUNDED => true
  | _ => false
  end.

(** The [consistent_with] setter. *)
Definition consistent_with_set (q : N1QLQuery) (value : pyval) : pyresult N1QLQuery :=
  if negb (is_not_bounded (consistency_get q)) then
    Raise (exc TypeError "consistent_with not valid with other consistency options")
  else
    match value with
    | VMutationState (tok :: sv) =>
        Ok (set_option (params_pop q "scan_consistency") "mutation_state" (VList (tok :: sv)))
    | _ => Raise (exc TypeError "Passed empty or invalid state")
    end.

(** *** [QueryStatus] and [QueryMetaData] *)

(** The members of [QueryStatus] as declared: every one has the value [()]. *)
Definition QueryStatus_declared : list (string * pyval) :=
  [("RUNNING", VList []); ("SUCCESS", VList []); ("ERRORS", VList []);
   ("COMPLETED", VList []); ("STOPPED", VList []); ("TIMEOUT", VList []);
   ("CLOSED", VList []); ("FATAL", VList []); ("ABORTED", VList []);
   ("UNKNOWN", VList [])].

(** Equality of the declared values, all of them empty tuples. *)
Definition member_value_eqb (a b : pyval) : bool :=
  match a, b with
  | VList [], VList [] => true
  | _, _ => false
  end.

(** [QueryStatus[name]]: [Enum] makes a member whose value equals that of an
    earlier member an alias of it, so a name resolves to the first declared
    member with the same value; an unknown name is a [KeyError]. *)
Definition QueryStatus_getitem (name : string) : pyresult pyval :=
  match find (fun m => String.eqb (fst m) name) QueryStatus_declared with
  | None => Raise (mk_exc KeyError (VStr name) VNone)
  | Some (_, value) =>
      match find (fun m => member_value_eqb (snd m) value) QueryStatus_declared with
      | Some (canonical, _) => Ok (VQueryStatus canonical)
      | None => Raise (mk_exc KeyError (VStr name) VNone)
      end
  end.

Record QueryMetaData := mk_metadata { md_raw : pyval }.

Definition QueryMetaData__init__ (raw : pyval) : pyresult QueryMetaData :=
  if negb (is_None raw) then
    r ← py_get raw "metadata" VNone;
    Ok (mk_metadata r)
  else Ok (mk_metadata VNone).

Definition request_id (m : QueryMetaData) : pyresult pyval :=
  py_get (md_raw m) "request_id" VNone.

Definition status (m : QueryMetaData) : pyresult pyval :=
  s ← py_get (md_raw m) "status" (VStr "unknown");
  match s with
  | VStr s => QueryStatus_getitem (upper s)
  | _ => Raise (exc AttributeError "object has no attribute 'upper'")
  end.

(** *** [QueryRequestLogic] *)

(** The native engine as the request sees it: the keyword arguments of every
    [n1ql_query] call made so far, oldest first. *)
Record engine := mk_engine { n1ql_query_calls : list (gmap string pyval) }.

Record QueryRequestLogic := mk_request {
  _connection : pyval;
  _query_params : gmap string pyval;
  row_factory : pyval → pyval;
  _rows : list pyval;
  _raw_rows : list pyval;
  _query_request_ftr : pyval;
  _ROWS_STOP : pyval;
  _streaming_result : pyval;
  _started_streaming : bool;
  _done_streaming : bool;
  _metadata : option QueryMetaData;
  _serializer : pyval
}.

(** [QueryRequestLogic.__init__(connection, query_params)] with the default
    [row_factory].  It only assigns fields: the engine is not an argument. *)
Definition QueryRequestLogic__init__ (connection : pyval)
    (query_params : gmap string pyval) : QueryRequestLogic :=
  {| _connection := connection;
     _query_params := query_params;
     row_factory := fun x => x;
     _rows := [];
     _raw_rows := [];
     _query_request_ftr := VNone;
     _ROWS_STOP := VInstance "object" VNone;
     _streaming_result := VNone;
     _started_streaming := false;
     _done_streaming := false;
     _metadata := None;
     _serializer := VNone |}.

Definition params (r : QueryRequestLogic) : gmap string pyval := _query_params r.
Definition started_streaming (r : QueryRequestLogic) : bool := _started_streaming r.
Definition done_streaming (r : QueryRequestLogic) : bool := _done_streaming r.

(** [metadata()] returns the field, whatever the state of the stream. *)
Definition metadata (r : QueryRequestLogic) : pyresult (option QueryMetaData) :=
  Ok (_metadata r).

(** [n1ql_query] called with [kwargs]: the engine records the submission and hands back
    a streaming result object. *)
Definition n1ql_query (kwargs : gmap string pyval) (e : engine) : pyval * engine :=
  (VInstance "streamed_result" (VInt (Z.of_nat (length (n1ql_query_calls e)))),
   mk_engine (n1ql_query_calls e ++ [kwargs])).

(** [_submit_query()]: [kwargs = {'conn': ...}] updated with the parameters. *)
Definition _submit_query (r : QueryRequestLogic) (e : engine) : QueryRequestLogic * engine :=
  if done_streaming r then (r, e)
  else
    let kwargs := params r ∪ {[ "conn" := _connection r ]} in
    let '(res, e') := n1ql_query kwargs e in
    ({| _connection := _connection r;
        _query_params := _query_params r;
        row_factory := row_factory r;
        _rows := _rows r;
        _raw_rows := _raw_rows r;
        _query_request_ftr := _query_request_ftr r;
        _ROWS_STOP := _ROWS_STOP r;
        _streaming_result := res;
        _started_streaming := true;
        _done_streaming := _done_streaming r;
        _metadata := _metadata r;
        _serializer := _serializer r |}, e').

Section ErrorMapping.
Context `{ExceptionsModule}.

(** The key of a table lookup: numbers that compare equal hash alike, a list
    or a dict cannot be hashed, anything else is not a code of the table. *)
Definition hash_key (v : pyval) : pyresult (option Z) :=
  match v with
  | VInt n => Ok (Some n)
  | VBool b => Ok (Some (if b then 1 else 0)%Z)
  | VFloat q =>
      Ok (if Z.eqb (Qnum q mod Zpos (Qden q)) 0 then Some (Qnum q / Zpos (Qden q))%Z else None)
  | VList _ => Raise (exc TypeError "unhashable type: 'list'")
  | VDict _ => Raise (exc TypeError "unhashable type: 'dict'")
  | _ => Ok None
  end.

(** The same lookup on a key that is any value. *)
Definition error_map_get_val (key : pyval) : pyresult exc_class :=
  k ← hash_key key;
  Ok (match k with
      | Some code => error_map_get code
      | None => CouchbaseException
      end).

(** [{k: v for k, v in exc_info if k in ['cinfo', 'inner_cause']}]: iterating
    the dict yields its keys, and [k, v = key] unpacks the characters of a
    key, which must be exactly two. *)
Fixpoint filter_exc_info (d : list (string * pyval)) : pyresult (list (string * pyval)) :=
  match d with
  | [] => Ok []
  | (key, _) :: rest =>
      match key with
      | String k (String v EmptyString) =>
          let k := String k EmptyString in
          let v := String v EmptyString in
          rest' ← filter_exc_info rest;
          if existsb (String.eqb k) ["cinfo"; "inner_cause"]
          then Ok ((k, VStr v) :: rest')
          else Ok rest'
      | String _ (String _ (String _ _)) =>
          Raise (exc ValueError "too many values to unpack (expected 2)")
      | String _ EmptyString =>
          Raise (exc ValueError "not enough values to unpack (expected 2, got 1)")
      | EmptyString =>
          Raise (exc ValueError "not enough values to unpack (expected 2, got 0)")
      end
  end.

(** The body of [_handle_query_result_exc] up to its last line: [Ok e] when
    the exception [e] has been built and is about to be raised by
    [raise excptn], [Raise e'] when [e'] escapes before that line. *)
Definition build_query_result_exc (raw_result : pyval) : pyresult pyexc :=
  base_exc ← py_get raw_result "exc" VNone;
  exc_info ← py_get raw_result "exc_info" VNone;
  excptn ← (if is_None base_exc && truthy exc_info then
              code ← py_get exc_info "error_code" VNone;
              exc_cls ← error_map_get_val code;
              new_exc_info ← match exc_info with
                             | VDict d => filter_exc_info d
                             | _ => Raise (exc TypeError "object is not iterable")
                             end;
              message ← py_get exc_info "message" VNone;
              Ok (Some (mk_exc exc_cls message (VDict new_exc_info)))
            else
              match base_exc with
              | VNativeError err strerror err_ctx =>
                  if negb (is_None err_ctx) then Ok (parse_error_context base_exc)
                  else Ok (Some (mk_exc (error_map_get err) (VStr strerror) VNone))
              | VNone =>
                  Raise (exc AttributeError "'NoneType' object has no attribute 'error_context'")
              | _ => Raise (exc AttributeError "object has no attribute 'error_context'")
              end);
  match excptn with
  | Some e => Ok e
  | None => Ok (mk_exc (error_map_get InternalSDKException_value) (VStr "Unknown error.") VNone)
  end.

(** [_handle_query_result_exc(query_response)]: it never returns. *)
Definition _handle_query_result_exc {A} (raw_result : pyval) : pyresult A :=
  match build_query_result_exc raw_result with
  | Ok e => Raise e
  | Raise e' => Raise e'
  end.

(** [_set_metadata(query_response)]. *)
Definition _set_metadata (r : QueryRequestLogic) (raw_result : pyval)
    : pyresult QueryRequestLogic :=
  has_exception ← py_get raw_result "has_exception" VNone;
  _ ← (if truthy has_exception then _handle_query_result_exc raw_result else Ok ());
  value ← py_get raw_result "value" VNone;
  md ← QueryMetaData__init__ value;
  Ok {| _connection := _connection r;
        _query_params := _query_params r;
        row_factory := row_factory r;
        _rows := _rows r;
        _raw_rows := _raw_rows r;
        _query_request_ftr := _query_request_ftr r;
        _ROWS_STOP := _ROWS_STOP r;
        _streaming_result := _streaming_result r;
        _started_streaming := _started_streaming r;
        _done_streaming := _done_streaming r;
        _metadata := Some md;
        _serializer := _serializer r |}.

End ErrorMapping.

End N1QL.

(** ** The event loop and the objects of the connection hierarchy *)

Module Loop.

(** A cluster, bucket, scope or collection object, by the fields the wrappers
    and the logic functions read and write.  [node_parent] is the object the
    connection is copied from: [self._scope] of a collection, the bucket of a
    scope, [self._cluster] of a bucket. *)
Record node := mk_node {
  node_name : string;
  node_bucket_name : string;
  node_connection : pyval;
  node_parent : option nat;
  node_connected : bool;
  node_cluster_info : pyval;
  node_connect_ft : option nat
}.

(** A logic function wrapped by a decorator: its [__name__] and its body,
    which reads the objects and either raises or ends in one call into the
    native engine, given by the name of the native function and its keyword
    arguments (the injected [callback] and [errback] travel apart). *)
Record logic_fn := mk_fn {
  fn__name__ : string;
  fn_call : list node → nat → list pyval → gmap string pyval
            → pyresult (string * gmap string pyval)
}.

(** The [return_cls] argument of a decorator: [None], [True] or a class. *)
Inductive return_cls := RNone | RTrue | RClass (name : string).

(** The decorator a pair of callbacks comes from, with what its closures
    capture besides [self], [ft] and [return_cls]. *)
Inductive wrapper_kind :=
| WConnection
| WClose
| WBucketOpen
| WCluster (set_cluster_info : bool)
| WOp
| WDecode (transcoder : pyval) (fn_name : string)
| WMgmt (mgmt_type : option nat) (fn_name : string) (error_map : option string).

(** The closures [on_ok] and [on_err] built by one call of a wrapped
    function. *)
Record injected := mk_injected {
  inj_kind : wrapper_kind;
  inj_self : nat;
  inj_ft : nat;
  inj_return_cls : return_cls
}.

(** What the loop can be asked to call: [ft.set_result] and
    [ft.set_exception] with their argument, and the two chaining functions
    partially applied, completed by the connect future. *)
Inductive callback :=
| CbSetResult (ft : nat) (v : pyval)
| CbSetException (ft : nat) (e : pyexc)
| CbChainFutures (ft self : nat) (fn : logic_fn) (inj : injected)
    (set_connection : bool) (args : list pyval) (kwargs : gmap string pyval) (cft : nat)
| CbChainConnectFutures (ft self : nat) (fn : logic_fn) (inj : injected)
    (args : list pyval) (kwargs : gmap string pyval) (cft : nat).

(** [asyncio.Future]: its state, its outcome once finished, and the
    callbacks added with [add_done_callback], which receive the future. *)
Inductive fut_state :=
| PENDING
| CANCELLED
| FINISHED (outcome : pyresult pyval).

Record future := mk_future {
  fut_state_of : fut_state;
  fut_callbacks : list (nat → callback)
}.

(** A call received by the native engine. *)
Record native_call := mk_call {
  nc_function : string;
  nc_kwargs : gmap string pyval;
  nc_callbacks : injected
}.

(** The state threaded through the wrappers: the objects, the futures of the
    loop, its queue of ready handles, the calls made into the engine, and the
    exceptions the loop caught in a handle and passed to its exception
    handler. *)
Record world := mk_world {
  nodes : list node;
  futures : list future;
  ready : list callback;
  native_calls : list native_call;
  exception_handler_calls : list pyexc
}.

Definition set_nodes (w : world) (ns : list node) : world :=
  mk_world ns (futures w) (ready w) (native_calls w) (exception_handler_calls w).
Definition set_futures (w : world) (fs : list future) : world :=
  mk_world (nodes w) fs (ready w) (native_calls w) (exception_handler_calls w).
Definition set_ready (w : world) (r : list callback) : world :=
  mk_world (nodes w) (futures w) r (native_calls w) (exception_handler_calls w).
Definition set_native_calls (w : world) (cs : list native_call) : world :=
  mk_world (nodes w) (futures w) (ready w) cs (exception_handler_calls w).
Definition set_exception_handler_calls (w : world) (es : list pyexc) : world :=
  mk_world (nodes w) (futures w) (ready w) (native_calls w) es.

(** Code that runs on the loop: it reads and writes the state and may raise;
    what it wrote before raising stays written. *)
Definition M (A : Type) : Type := world → pyresult A * world.

#[global] Instance M_ret : MRet M := fun _ a w => (Ok a, w).
#[global] Instance M_bind : MBind M := fun _ _ f m w =>
  match m w with
  | (Ok a, w') => f a w'
  | (Raise e, w') => (Raise e, w')
  end.

Definition modify (f : world → world) : M unit := fun w => (Ok (), f w).
Definition raise {A} (e : pyexc) : M A := fun w => (Raise e, w).
Definition lift {A} (r : pyresult A) : M A := fun w => (r, w).

(** The state of a future, [None] for an index that names no future. *)
Definition state_of (w : world) (ft : nat) : option fut_state :=
  fut_state_of <$> futures w !! ft.

Definition dangling {A} : M A :=
  raise (exc (OtherException "ReferenceError") "no such object").

Definition get_future (ft : nat) : M future := fun w =>
  match futures w !! ft with
  | Some f => (Ok f, w)
  | None => dangling w
  end.

Definition get_node (n : nat) : M node := fun w =>
  match nodes w !! n with
  | Some x => (Ok x, w)
  | None => dangling w
  end.

Definition put_node (n : nat) (x : node) : M unit :=
  modify (fun w => set_nodes w (<[ n := x ]> (nodes w))).

(** [loop.create_future()]. *)
Definition create_future : M nat := fun w =>
  (Ok (length (futures w)), set_futures w (futures w ++ [mk_future PENDING []])).

(** [loop.call_soon] and [loop.call_soon_threadsafe]: the handle goes to the
    end of the ready queue. *)
Definition call_soon (cb : callback) : M unit :=
  modify (fun w => set_ready w (ready w ++ [cb])).
Definition call_soon_threadsafe (cb : callback) : M unit := call_soon cb.

(** The state change shared by [set_result], [set_exception] and [cancel]:
    the future takes its final state and its callbacks are scheduled and
    cleared. *)
Definition finish (ft : nat) (f : future) (s : fut_state) : M unit :=
  modify (fun w =>
    set_ready (set_futures w (<[ ft := mk_future s [] ]> (futures w)))
              (ready w ++ map (fun cb => cb ft) (fut_callbacks f))).

Definition invalid_state : pyexc := exc InvalidStateError "invalid state".

(** [ft.set_result(v)]. *)
Definition set_result (ft : nat) (v : pyval) : M unit :=
  f ← get_future ft;
  match fut_state_of f with
  | PENDING => finish ft f (FINISHED (Ok v))
  | _ => raise invalid_state
  end.

(** [ft.set_exception(e)]. *)
Definition set_exception (ft : nat) (e : pyexc) : M unit :=
  f ← get_future ft;
  match fut_state_of f with
  | PENDING => finish ft f (FINISHED (Raise e))
  | _ => raise invalid_state
  end.

(** [ft.cancel()]. *)
Definition cancel (ft : nat) : M bool :=
  f ← get_future ft;
  match fut_state_of f with
  | PENDING => _ ← finish ft f CANCELLED; mret true
  | _ => mret false
  end.

(** [ft.cancelled()]. *)
Definition cancelled (ft : nat) : M bool :=
  f ← get_future ft;
  mret (match fut_state_of f with CANCELLED => true | _ => false end).

(** [ft.exception()]: the exception set on a finished future, [None] when it
    holds a result. *)
Definition exception (ft : nat) : M (option pyexc) :=
  f ← get_future ft;
  match fut_state_of f with
  | FINISHED (Raise e) => mret (Some e)
  | FINISHED (Ok _) => mret None
  | CANCELLED => raise (exc CancelledError "")
  | PENDING => raise (exc InvalidStateError "Exception is not set.")
  end.

(** [ft.add_done_callback(cb)]. *)
Definition add_done_callback (ft : nat) (cb : nat → callback) : M unit :=
  f ← get_future ft;
  match fut_state_of f with
  | PENDING =>
      modify (fun w =>
        set_futures w (<[ ft := mk_future PENDING (fut_callbacks f ++ [cb]) ]> (futures w)))
  | _ => call_soon (cb ft)
  end.

End Loop.

(** ** [couchbase/logic/collection.py] *)

Module Collection.
Import Loop.

(** [operations.GET.value], a constant of the native module. *)
Definition operations_GET_value : pyval := VInstance "operations.GET.value" VNone.

(** [self._get_connection_args()]. *)
Definition _get_connection_args (ns : list node) (self : nat) : pyresult (gmap string pyval) :=
  match ns !! self with
  | Some c =>
      match node_parent c ≫= (fun p => ns !! p) with
      | Some scope =>
          Ok (<[ "conn" := node_connection c ]>
              (<[ "bucket" := VStr (node_bucket_name scope) ]>
              (<[ "scope" := VStr (node_name scope) ]>
              (<[ "collection_name" := VStr (node_name c) ]> ∅))))
      | None => Raise (exc AttributeError "object has no attribute 'bucket_name'")
      end
  | None => Raise (exc (OtherException "ReferenceError") "no such object")
  end.

(** A call that unpacks two dicts into its keywords: a keyword given twice
    is a [TypeError]. *)
Definition merge_keywords (a b : gmap string pyval) : pyresult (gmap string pyval) :=
  if bool_decide (dom a ∩ dom b = (∅ : gset string)) then Ok (a ∪ b)
  else Raise (exc TypeError "got multiple values for keyword argument").

(** [CollectionLogic.get], called with a key and keyword arguments. *)
Definition get (ns : list node) (self : nat) (args : list pyval)
    (kwargs : gmap string pyval) : pyresult (string * gmap string pyval) :=
  match args with
  | [key] =>
      let projections := map_get kwargs "project" VNone in
      _ ← match projections with
          | VList l =>
              if bool_decide (16 < length l)%nat then
                Raise (exc InvalidArgumentException
                         ("Maximum of 16 projects allowed. Provided " ++ pretty (length l)))
              else Ok ()
          | _ => Ok ()
          end;
      let op_type := operations_GET_value in
      conn_args ← _get_connection_args ns self;
      kw ← merge_keywords conn_args kwargs;
      kw ← merge_keywords kw (<[ "key" := key ]> (<[ "op_type" := op_type ]> ∅));
      Ok ("kv_operation", kw)
  | _ => Raise (exc TypeError "get() takes 2 positional arguments")
  end.

Definition get_fn : logic_fn := {| fn__name__ := "get"; fn_call := get |}.

End Collection.

(** ** [acouchbase/logic/wrappers.py] and
       [acouchbase/management/logic/wrappers.py] *)

Module Wrappers.
Import Loop.

Section Wrappers.
Context `{ExceptionsModule} `{LogicModule}.

(** [call_async_fn(ft, self, fn, *args, **kwargs)], the keyword arguments
    carrying the callbacks [inj].  The two handlers are
    [except CouchbaseException] and [except Exception]: an exception that
    derives from [BaseException] only passes both and leaves the function;
    the replacement for any other is built from [str(e)]. *)
Definition call_async_fn (ft self : nat) (fn : logic_fn) (inj : injected)
    (args : list pyval) (kwargs : gmap string pyval) : M unit := fun w =>
  match fn_call fn (nodes w) self args kwargs with
  | Ok (name, kw) => (Ok (), set_native_calls w (native_calls w ++ [mk_call name kw inj]))
  | Raise e =>
      if issubclass_CouchbaseException (exc_type e) then set_exception ft e w
      else if issubclass_Exception (exc_type e) then
        if is_TypeError_or_ValueError (exc_type e) then set_exception ft e w
        else
          let exc_cls := error_map_get InternalSDKException_value in
          let excptn := mk_exc exc_cls (VStr (str_of_exception e)) VNone in
          set_exception ft excptn w
      else raise e w
  end.

(** [self._set_connection()] of a collection,
    [self._connection = self._scope.connection], and the same assignment on
    a scope and on a bucket from the object above it. *)
Definition _set_connection (n : nat) : M unit :=
  x ← get_node n;
  match node_parent x with
  | Some p =>
      px ← get_node p;
      put_node n (mk_node (node_name x) (node_bucket_name x) (node_connection px)
                    (node_parent x) (node_connected x) (node_cluster_info x)
                    (node_connect_ft x))
  | None => raise (exc AttributeError "object has no attribute 'connection'")
  end.

(** Modelled from the spec: [Cluster._set_connection(res)], which is not
    under src/, stores the handle the engine returned as the connection of
    the cluster. *)
Definition _set_connection_to (n : nat) (res : pyval) : M unit :=
  x ← get_node n;
  put_node n (mk_node (node_name x) (node_bucket_name x) res (node_parent x)
                (node_connected x) (node_cluster_info x) (node_connect_ft x)).

(** Modelled from the spec: [Bucket._set_connected(True)], which is not under
    src/, sets the flag of the bucket. *)
Definition _set_connected (n : nat) (b : bool) : M unit :=
  x ← get_node n;
  put_node n (mk_node (node_name x) (node_bucket_name x) (node_connection x)
                (node_parent x) b (node_cluster_info x) (node_connect_ft x)).

(** [self._cluster_info = retval]. *)
Definition _set_cluster_info (n : nat) (v : pyval) : M unit :=
  x ← get_node n;
  put_node n (mk_node (node_name x) (node_bucket_name x) (node_connection x)
                (node_parent x) (node_connected x) v (node_connect_ft x)).

Definition _set_connect_ft (n : nat) (ft : nat) : M unit :=
  x ← get_node n;
  put_node n (mk_node (node_name x) (node_bucket_name x) (node_connection x)
                (node_parent x) (node_connected x) (node_cluster_info x) (Some ft)).

(** The [retval] of [on_ok]: [None], the result, or [return_cls(res)]. *)
Definition retval_of (rc : return_cls) (res : pyval) : pyval :=
  match rc with
  | RNone => VNone
  | RTrue => res
  | RClass c => VInstance c res
  end.

(** [d[k] = v] on the association list of a dict. *)
Fixpoint assoc_set (d : list (string * pyval)) (k : string) (v : pyval)
    : list (string * pyval) :=
  match d with
  | [] => [(k, v)]
  | (k', v') :: rest =>
      if String.eqb k' k then (k, v) :: rest else (k', v') :: assoc_set rest k v
  end.

(** The success callback [on_ok(res)] injected by each decorator; it runs on
    the engine's thread.  For the decoding wrapper [res] stands for
    [res.raw_result]. *)
Definition on_ok (inj : injected) (res : pyval) : M unit :=
  let ft := inj_ft inj in
  let self := inj_self inj in
  match inj_kind inj with
  | WConnection =>
      _ ← _set_connection_to self res;
      call_soon_threadsafe (CbSetResult ft (VBool true))
  | WClose => call_soon_threadsafe (CbSetResult ft (VBool true))
  | WBucketOpen =>
      _ ← _set_connected self true;
      call_soon_threadsafe (CbSetResult ft (VBool true))
  | WCluster set_cluster_info =>
      let retval := retval_of (inj_return_cls inj) res in
      _ ← (if set_cluster_info then _set_cluster_info self retval else mret ());
      call_soon_threadsafe (CbSetResult ft retval)
  | WOp =>
      let retval := retval_of (inj_return_cls inj) res in
      call_soon_threadsafe (CbSetResult ft retval)
  | WDecode transcoder fn_name =>
      value ← lift (py_get res "value" VNone);
      flags ← lift (py_get res "flags" VNone);
      let is_suboc := String.eqb fn_name "_lookup_in_internal" in
      decoded ← lift (decode_value transcoder value flags is_suboc);
      let res := match res with
                 | VDict d => VDict (assoc_set d "value" decoded)
                 | _ => res
                 end in
      let retval := retval_of (inj_return_cls inj) res in
      call_soon_threadsafe (CbSetResult ft retval)
  | WMgmt mgmt_type fn_name _ =>
      let retval :=
        match inj_return_cls inj with
        | RNone => VNone
        | RTrue => res
        | RClass c =>
            match mgmt_type with
            | Some kind => handle_mgmt_response kind res fn_name c
            | None => VNone
            end
        end in
      call_soon_threadsafe (CbSetResult ft retval)
  end.

(** The failure callback [on_err(exc)]. *)
Definition on_err (inj : injected) (e : pyval) : M unit :=
  let mapping := match inj_kind inj with
                 | WMgmt _ _ error_map => error_map
                 | _ => None
                 end in
  let excptn := build_exception e mapping in
  call_soon_threadsafe (CbSetException (inj_ft inj) excptn).

(** [AsyncWrapper.chain_connect_futures(ft, self, fn, cft, **kwargs)]. *)
Definition chain_connect_futures (ft self : nat) (fn : logic_fn) (inj : injected)
    (args : list pyval) (kwargs : gmap string pyval) (cft : nat) : M unit :=
  c ← cancelled cft;
  if (c : bool) then _ ← cancel ft; mret ()
  else
    e ← exception cft;
    match e with
    | Some e => set_exception ft e
    | None =>
        _ ← _set_connection self;
        call_async_fn ft self fn inj args kwargs
    end.

(** The block under [if set_connection is True] of [chain_futures]:
    [self._scope._set_connection()], then [self._set_connection()]. *)
Definition set_scope_and_own_connection (set_connection : bool) (self : nat) : M unit :=
  if set_connection then
    x ← get_node self;
    match node_parent x with
    | Some scope => _ ← _set_connection scope; _set_connection self
    | None => raise (exc AttributeError "object has no attribute '_scope'")
    end
  else mret ().

(** [AsyncWrapper.chain_futures(ft, self, fn, cft, set_connection, **kwargs)]. *)
Definition chain_futures (ft self : nat) (fn : logic_fn) (inj : injected)
    (set_connection : bool) (args : list pyval) (kwargs : gmap string pyval)
    (cft : nat) : M unit :=
  c ← cancelled cft;
  if (c : bool) then _ ← cancel ft; mret ()
  else
    e ← exception cft;
    match e with
    | Some e => set_exception ft e
    | None =>
        _ ← set_scope_and_own_connection set_connection self;
        call_async_fn ft self fn inj args kwargs
    end.

(** The attributes of the class [AsyncWrapper], and [cls.name]. *)
Definition AsyncWrapper_attributes : list string :=
  ["inject_connection_callbacks"; "inject_close_callbacks"; "chain_connect_futures";
   "inject_bucket_open_callbacks"; "chain_futures"; "inject_cluster_callbacks";
   "inject_callbacks"; "inject_callbacks_and_decode"; "datastructure_op"].

Definition cls_getattr (name : string) : M unit :=
  if existsb (String.eqb name) AsyncWrapper_attributes then mret ()
  else raise (exc AttributeError
                ("type object 'AsyncWrapper' has no attribute '" ++ name ++ "'")).

(** [self._connection], tested with [not]. *)
Definition not_connection (self : nat) : M bool :=
  x ← get_node self;
  mret (negb (truthy (node_connection x))).

(** [inject_connection_callbacks()] and [inject_close_callbacks()]: the
    function returned by the decorator. *)
Definition inject_connection_callbacks (fn : logic_fn) (self : nat)
    (args : list pyval) (kwargs : gmap string pyval) : M nat :=
  ft ← create_future;
  let inj := mk_injected WConnection self ft RNone in
  _ ← call_async_fn ft self fn inj args kwargs;
  mret ft.

Definition inject_close_callbacks (fn : logic_fn) (self : nat)
    (args : list pyval) (kwargs : gmap string pyval) : M nat :=
  ft ← create_future;
  let inj := mk_injected WClose self ft RNone in
  _ ← call_async_fn ft self fn inj args kwargs;
  mret ft.

(** A connect future can be handed out again while it is pending or has
    succeeded. *)
Definition reusable (w : world) (n : node) : option nat :=
  ft ← node_connect_ft n;
  match state_of w ft with
  | Some PENDING | Some (FINISHED (Ok _)) => Some ft
  | _ => None
  end.

(** The native connect and open-bucket requests behind [on_connect]. *)
Definition connect_fn : logic_fn :=
  {| fn__name__ := "_connect";
     fn_call := fun _ _ _ kwargs => Ok ("create_connection", kwargs) |}.

Definition open_bucket_fn : logic_fn :=
  {| fn__name__ := "_open_or_close_bucket";
     fn_call := fun _ _ _ kwargs => Ok ("open_or_close_bucket", kwargs) |}.

(** Modelled from the spec: [Cluster.on_connect], which is not under src/.
    The connect step of a node in flight is shared; otherwise the native
    connect is issued through the connection wrapper, and a failed attempt
    is not kept. *)
Definition Cluster_on_connect (c : nat) : M nat :=
  x ← get_node c;
  cached ← (fun w => (Ok (reusable w x), w));
  match cached with
  | Some ft => mret ft
  | None =>
      ft ← inject_connection_callbacks connect_fn c [] ∅;
      _ ← _set_connect_ft c ft;
      mret ft
  end.

(** [inject_bucket_open_callbacks()]: the function returned by the
    decorator. *)
Definition inject_bucket_open_callbacks (fn : logic_fn) (self : nat)
    (args : list pyval) (kwargs : gmap string pyval) : M nat :=
  ft ← create_future;
  let inj := mk_injected WBucketOpen self ft RNone in
  nc ← not_connection self;
  if (nc : bool) then
    x ← get_node self;
    match node_parent x with
    | Some cluster =>
        cluster_conn_ft ← Cluster_on_connect cluster;
        _ ← cls_getattr "chain_connect_futures";
        _ ← add_done_callback cluster_conn_ft
              (CbChainConnectFutures ft self fn inj args kwargs);
        mret ft
    | None => raise (exc AttributeError "object has no attribute '_cluster'")
    end
  else
    _ ← call_async_fn ft self fn inj args kwargs;
    mret ft.

(** Modelled from the spec: [Bucket.on_connect] and [Scope._connect_bucket],
    which are not under src/, as [Cluster_on_connect] one level down. *)
Definition Bucket_on_connect (b : nat) : M nat :=
  x ← get_node b;
  cached ← (fun w => (Ok (reusable w x), w));
  match cached with
  | Some ft => mret ft
  | None =>
      ft ← inject_bucket_open_callbacks open_bucket_fn b [] ∅;
      _ ← _set_connect_ft b ft;
      mret ft
  end.

Definition _connect_bucket (scope : nat) : M nat :=
  x ← get_node scope;
  match node_parent x with
  | Some bucket => Bucket_on_connect bucket
  | None => raise (exc AttributeError "object has no attribute '_bucket'")
  end.

Definition not_connected_error : pyexc :=
  exc MissingConnectionException "Not connected.  Cannot perform operation.".

(** [inject_cluster_callbacks(return_cls, chain_connection, set_cluster_info)]:
    the function returned by the decorator. *)
Definition inject_cluster_callbacks (rc : return_cls)
    (chain_connection set_cluster_info : bool) (fn : logic_fn) (self : nat)
    (args : list pyval) (kwargs : gmap string pyval) : M nat :=
  ft ← create_future;
  let inj := mk_injected (WCluster set_cluster_info) self ft rc in
  nc ← not_connection self;
  if (nc : bool) then
    if chain_connection then
      c_ft ← Cluster_on_connect self;
      _ ← cls_getattr "chain_futures";
      _ ← add_done_callback c_ft (CbChainFutures ft self fn inj false args kwargs);
      mret ft
    else
      _ ← set_exception ft not_connected_error;
      mret ft
  else
    _ ← call_async_fn ft self fn inj args kwargs;
    mret ft.

(** [self._scope._connect_bucket()] from a collection. *)
Definition scope_connect_bucket (self : nat) : M nat :=
  x ← get_node self;
  match node_parent x with
  | Some scope => _connect_bucket scope
  | None => raise (exc AttributeError "object has no attribute '_scope'")
  end.

(** [inject_callbacks(return_cls)]: the function returned by the decorator. *)
Definition inject_callbacks (rc : return_cls) (fn : logic_fn) (self : nat)
    (args : list pyval) (kwargs : gmap string pyval) : M nat :=
  ft ← create_future;
  let inj := mk_injected WOp self ft rc in
  nc ← not_connection self;
  if (nc : bool) then
    bucket_conn_ft ← scope_connect_bucket self;
    _ ← cls_getattr "chain_futures";
    _ ← add_done_callback bucket_conn_ft (CbChainFutures ft self fn inj true args kwargs);
    mret ft
  else
    _ ← call_async_fn ft self fn inj args kwargs;
    mret ft.

(** [inject_callbacks_and_decode(return_cls)]: the function returned by the
    decorator.  The chaining function is looked up as [cls._chain_futures]. *)
Definition inject_callbacks_and_decode (rc : return_cls) (fn : logic_fn) (self : nat)
    (args : list pyval) (kwargs : gmap string pyval) : M nat :=
  ft ← create_future;
  match kwargs !! "transcoder" with
  | None => raise (mk_exc KeyError (VStr "transcoder") VNone)
  | Some transcoder =>
      let kwargs := delete "transcoder" kwargs in
      let inj := mk_injected (WDecode transcoder (fn__name__ fn)) self ft rc in
      nc ← not_connection self;
      if (nc : bool) then
        bucket_conn_ft ← scope_connect_bucket self;
        _ ← cls_getattr "_chain_futures";
        _ ← add_done_callback bucket_conn_ft
              (CbChainFutures ft self fn inj true args kwargs);
        mret ft
      else
        _ ← call_async_fn ft self fn inj args kwargs;
        mret ft
  end.

Definition mgmt_not_connected_error : pyexc :=
  exc MissingConnectionException
    "Not connected.  Cannot perform bucket management operation.".

(** [AsyncMgmtWrapper.inject_callbacks(return_cls, mgmt_type, error_map)]:
    the function returned by the decorator. *)
Definition mgmt_inject_callbacks (rc : return_cls) (mgmt_type : option nat)
    (error_map : option string) (fn : logic_fn) (self : nat)
    (args : list pyval) (kwargs : gmap string pyval) : M nat :=
  ft ← create_future;
  let inj := mk_injected (WMgmt mgmt_type (fn__name__ fn) error_map) self ft rc in
  nc ← not_connection self;
  if (nc : bool) then
    _ ← set_exception ft mgmt_not_connected_error;
    mret ft
  else
    _ ← call_async_fn ft self fn inj args kwargs;
    mret ft.

(** *** Running the loop *)

(** The call a handle makes. *)
Definition run_callback (cb : callback) : M unit :=
  match cb with
  | CbSetResult ft v => set_result ft v
  | CbSetException ft e => set_exception ft e
  | CbChainFutures ft self fn inj set_connection args kwargs cft =>
      chain_futures ft self fn inj set_connection args kwargs cft
  | CbChainConnectFutures ft self fn inj args kwargs cft =>
      chain_connect_futures ft self fn inj args kwargs cft
  end.

(** [Handle._run]: an exception of the callback is caught and given to the
    loop's exception handler. *)
Definition Handle_run (cb : callback) (w : world) : world :=
  match run_callback cb w with
  | (Ok _, w') => w'
  | (Raise e, w') => set_exception_handler_calls w' (exception_handler_calls w' ++ [e])
  end.

(** One handle of the ready queue, and [n] of them. *)
Definition run_once (w : world) : world :=
  match ready w with
  | [] => w
  | cb :: rest => Handle_run cb (set_ready w rest)
  end.

Fixpoint run (n : nat) (w : world) : world :=
  match n with
  | O => w
  | S n' => run n' (run_once w)
  end.

(** An invocation of one of the two injected callbacks by the engine. *)
Inductive invocation :=
| InvokeOk (res : pyval)
| InvokeErr (e : pyval).

Definition invoke (inj : injected) (i : invocation) : M unit :=
  match i with
  | InvokeOk res => on_ok inj res
  | InvokeErr e => on_err inj e
  end.

(** The state an invocation asks the future to take. *)
Definition resolution (inj : injected) (i : invocation) : fut_state :=
  match i with
  | InvokeOk res => FINISHED (Ok (retval_of (inj_return_cls inj) res))
  | InvokeErr e => FINISHED (Raise (build_exception e None))
  end.

End Wrappers.

End Wrappers.

(** ** More of [couchbase/logic/n1ql.py] *)

(** [json.dumps], which the query objects and the search index use to encode
    parameters: the text, or the exception it raises on a value it cannot
    encode. *)
Class JsonModule := {
  json_dumps : pyval → pyresult string;
  json_loads : pyval → pyresult pyval
}.

Module N1QLRest.
Import N1QL.

(** Code that mutates the query and may raise; what it wrote before raising
    stays written. *)
Definition QueryM (A : Type) : Type := N1QLQuery → pyresult A * N1QLQuery.

(** The [scan_wait] property. *)
Definition scan_wait_get `{PyBuiltins} (q : N1QLQuery) : pyresult pyval :=
  let value := map_get (_params q) "scan_wait" VNone in
  if negb (truthy value) then Ok VNone
  else
    value ← slice_drop_last value;
    py_float value.

(** The [scan_wait] setter. *)
Definition scan_wait_set (q : N1QLQuery) (value : pyval) : pyresult N1QLQuery :=
  if negb (truthy value) then Ok (params_pop q "scan_wait")
  else
    match value with
    | VTimedelta us => Ok (set_option q "scan_wait" (VFloat (total_seconds us)))
    | _ => Raise (exc InvalidArgumentException "Excepted scan_wait to be a timedelta")
    end.

(** The [consistent_with] property. *)
Definition consistent_with_get (q : N1QLQuery) : pyval :=
  VDict [("consistency", consistency_get q);
         ("scan_vectors", map_get (_params q) "mutation_state" VNone)].

Section Json.
Context `{JsonModule}.

(** [[json.dumps(arg) for arg in args]]. *)
Fixpoint dumps_all (args : list pyval) : pyresult (list pyval) :=
  match args with
  | [] => Ok []
  | arg :: rest =>
      s ← json_dumps arg;
      rest' ← dumps_all rest;
      Ok (VStr s :: rest')
  end.

(** [_add_pos_args]: the list is fetched, or created empty, before the
    arguments are encoded. *)
Definition _add_pos_args (args : list pyval) : QueryM unit := fun q =>
  let q1 := match _params q !! "positional_parameters" with
            | Some _ => q
            | None => set_option q "positional_parameters" (VList [])
            end in
  let arg_array := map_get (_params q1) "positional_parameters" VNone in
  match dumps_all args with
  | Raise e => (Raise e, q1)
  | Ok json_args =>
      match arg_array with
      | VList l => (Ok (), set_option q1 "positional_parameters" (VList (l ++ json_args)))
      | _ => (Raise (exc AttributeError "object has no attribute 'extend'"), q1)
      end
  end.

(** The dict comprehension of [_set_named_args]: each key with a dollar sign
    in front, each value encoded; a repeated key keeps its first place and
    its last value. *)
Fixpoint named_params (kv : list (string * pyval)) (acc : list (string * pyval))
    : pyresult (list (string * pyval)) :=
  match kv with
  | [] => Ok acc
  | (k, v) :: rest =>
      s ← json_dumps v;
      named_params rest (Wrappers.assoc_set acc ("$" ++ k) (VStr s))
  end.

(** [arg_dict.update(named)]. *)
Definition dict_update (d named : list (string * pyval)) : list (string * pyval) :=
  fold_left (fun d kv => Wrappers.assoc_set d (fst kv) (snd kv)) named d.

(** [_set_named_args]: the arguments are encoded before the dict is fetched,
    or created empty. *)
Definition _set_named_args (kv : list (string * pyval)) : QueryM unit := fun q =>
  match named_params kv [] with
  | Raise e => (Raise e, q)
  | Ok named =>
      let q1 := match _params q !! "named_parameters" with
                | Some _ => q
                | None => set_option q "named_parameters" (VDict [])
                end in
      match map_get (_params q1) "named_parameters" VNone with
      | VDict d => (Ok (), set_option q1 "named_parameters" (VDict (dict_update d named)))
      | _ => (Raise (exc AttributeError "object has no attribute 'update'"), q1)
      end
  end.

End Json.

(** The other accessors of [QueryMetaData]. *)
Definition client_context_id (m : QueryMetaData) : pyresult pyval :=
  py_get (md_raw m) "client_context_id" VNone.
Definition signature (m : QueryMetaData) : pyresult pyval :=
  py_get (md_raw m) "signature" VNone.
Definition profile (m : QueryMetaData) : pyresult pyval :=
  py_get (md_raw m) "profile" VNone.

(** ["metrics" in self._raw], then [QueryMetrics(self._raw.get("metrics", {}))]:
    membership in a dict looks at its keys, in a string it is a substring
    test and in a list a search, and only a dict has [get]. *)
Definition metrics (m : QueryMetaData) : pyresult pyval :=
  let no_get := Raise (exc AttributeError "object has no attribute 'get'") in
  match md_raw m with
  | VDict d =>
      if existsb (fun kv => String.eqb (fst kv) "metrics") d
      then Ok (VInstance "QueryMetrics" (assoc_get d "metrics" (VDict [])))
      else Ok VNone
  | VStr s =>
      match String.index 0 "metrics" s with
      | Some _ => no_get
      | None => Ok VNone
      end
  | VList l =>
      if existsb (fun v => match v with VStr s => String.eqb s "metrics" | _ => false end) l
      then no_get
      else Ok VNone
  | VNone => Raise (exc TypeError "argument of type 'NoneType' is not iterable")
  | _ => Raise (exc TypeError "argument of this type is not iterable")
  end.

End N1QLRest.

(** ** [SearchIndex] of [couchbase/management/logic/search_index_logic.py] *)

Module SearchIndexLogic.
Import Wrappers.

(** The dataclass, its fields in the order of declaration, which is the
    order of the positional arguments of its constructor. *)
Record SearchIndex := mk_index {
  name : pyval;
  source_type : pyval;
  idx_type : pyval;
  source_name : pyval;
  uuid : pyval;
  params : pyval;
  source_uuid : pyval;
  source_params : pyval;
  plan_params : pyval
}.

(** [len(v)] on the values that have a length. *)
Definition py_len (v : pyval) : pyresult nat :=
  match v with
  | VStr s => Ok (String.length s)
  | VList l => Ok (length l)
  | VDict d => Ok (length d)
  | VNone => Raise (exc TypeError "object of type 'NoneType' has no len()")
  | _ => Raise (exc TypeError "object has no len()")
  end.

(** [k in json_data] on a dict. *)
Definition dict_contains (d : list (string * pyval)) (k : string) : bool :=
  existsb (fun kv => String.eqb (fst kv) k) d.

Section Json.
Context `{JsonModule}.

(** [if self.f: output[key] = self.f]. *)
Definition output_if_set (output : list (string * pyval)) (key : string) (v : pyval)
    : list (string * pyval) :=
  if truthy v then assoc_set output key v else output.

(** [if len(self.f) > 0: output[key] = json.dumps(self.f)]. *)
Definition output_json (output : list (string * pyval)) (key : string) (v : pyval)
    : pyresult (list (string * pyval)) :=
  n ← py_len v;
  if (0 <? n)%nat then
    s ← json_dumps v;
    Ok (assoc_set output key (VStr s))
  else Ok output.

Definition as_dict (self : SearchIndex) : pyresult (list (string * pyval)) :=
  let output := [("name", name self);
                 ("type", idx_type self);
                 ("source_type", source_type self)] in
  let output := output_if_set output "uuid" (uuid self) in
  output ← output_json output "params_json" (params self);
  let output := output_if_set output "source_uuid" (source_uuid self) in
  let output := output_if_set output "source_name" (source_name self) in
  output ← output_json output "source_params_json" (source_params self);
  output_json output "plan_params_json" (plan_params self).

(** [None], or [json.loads(json_data.get(key))] when the key is present. *)
Definition loads_if_present (json_data : list (string * pyval)) (key : string)
    : pyresult pyval :=
  if dict_contains json_data key then json_loads (assoc_get json_data key VNone)
  else Ok VNone.

(** [SearchIndex.from_server(json_data)] on a dict: the constructor receives
    its arguments by position. *)
Definition from_server (json_data : list (string * pyval)) : pyresult SearchIndex :=
  params ← loads_if_present json_data "params_json";
  source_params ← loads_if_present json_data "source_params_json";
  plan_params ← loads_if_present json_data "plan_params_json";
  Ok (mk_index (assoc_get json_data "name" VNone)
               (assoc_get json_data "type" VNone)
               (assoc_get json_data "source_type" VNone)
               (assoc_get json_data "source_name" VNone)
               (assoc_get json_data "uuid" VNone)
               params
               (assoc_get json_data "source_uuid" VNone)
               source_params
               plan_params).

End Json.

End SearchIndexLogic.

(** ** Sample instances for concrete runs *)

Module Samples.
Import Loop.

(** A small error table, an internal-error code, context mappers, and
    [str(e)] for the exceptions of the concrete runs, whose argument is a
    text without quotes, an integer or [None]. *)
#[local] Instance sample_exceptions : ExceptionsModule := {|
  PYCBC_ERROR_MAP := {[ 5000%Z := InternalSDKException;
                        101%Z := SDKException "DocumentNotFoundException" ]};
  InternalSDKException_value := 5000%Z;
  parse_error_context := fun _ => None;
  build_exception := fun e _ =>
    match e with
    | VNativeError _ strerror _ => exc CouchbaseException strerror
    | _ => exc CouchbaseException "error"
    end;
  str_of_exception := fun e =>
    match exc_message e with
    | VStr s =>
        match exc_type e with
        | KeyError => "'" ++ s ++ "'"
        | _ => s
        end
    | VInt n => pretty n
    | VNone => "None"
    | _ => "object"
    end
|}.

(** A transcoder that hands the value back. *)
#[local] Instance sample_logic : LogicModule := {|
  decode_value := fun _ value _ _ => Ok value;
  handle_mgmt_response := fun _ ret _ cls => VInstance cls ret
|}.

(** A parser that knows one literal. *)
#[local] Instance sample_builtins : PyBuiltins := {|
  float_of_str := fun s => if String.eqb s "75" then Some (inject_Z 75) else None
|}.

(** Cluster 0, bucket 1, scope 2 and collection 3, none of them connected. *)
Definition disconnected : world :=
  mk_world
    [ mk_node "cluster" "" VNone None false VNone None;
      mk_node "travel-sample" "travel-sample" VNone (Some 0%nat) false VNone None;
      mk_node "inventory" "travel-sample" VNone (Some 1%nat) false VNone None;
      mk_node "airline" "travel-sample" VNone (Some 2%nat) false VNone None ]
    [] [] [] [].

(** The same hierarchy with the connection handle set on every level. *)
Definition conn : pyval := VInstance "connection" VNone.

Definition connected : world :=
  mk_world
    [ mk_node "cluster" "" conn None true VNone None;
      mk_node "travel-sample" "travel-sample" conn (Some 0%nat) true VNone None;
      mk_node "inventory" "travel-sample" conn (Some 1%nat) true VNone None;
      mk_node "airline" "travel-sample" conn (Some 2%nat) true VNone None ]
    [] [] [] [].

(** Seventeen projection paths. *)
Definition seventeen : list pyval := replicate 17 (VStr "name").

Definition transcoder : pyval := VInstance "JSONTranscoder" VNone.

End Samples.

(** An encoder and a decoder for the parameters of the concrete runs. *)

Module JsonSamples.

(** An encoder for numbers, truth values, [None] and quoted text; anything
    else is refused. *)
Definition quote (s : string) : string :=
  String (ascii_of_nat 34) (s ++ String (ascii_of_nat 34) EmptyString).

#[local] Instance sample_json : JsonModule := {|
  json_dumps := fun v =>
    match v with
    | VInt n => Ok (pretty n)
    | VBool b => Ok (if b then "true" else "false")
    | VNone => Ok "null"
    | VStr s => Ok (quote s)
    | VDict [] => Ok "{}"
    | _ => Raise (exc TypeError "Object is not JSON serializable")
    end;
  json_loads := fun v =>
    match v with
    | VStr "{}" => Ok (VDict [])
    | VStr "null" => Ok VNone
    | _ => Raise (exc ValueError "Expecting value")
    end
|}.

End JsonSamples.

(** ** Properties of the N1QL query objects *)

Module N1QLProps.
Import N1QL.

Lemma truthy_total_seconds (us : Z) :
  us ≠ 0%Z → truthy (VFloat (total_seconds us)) = true.
Proof.
  intros Hus. unfold truthy, total_seconds, Qeq_bool. simpl.
  destruct (Z.eqb_spec (us * 1) (0 * 1000000)) as [Heq | Hne]; [lia | reflexivity].
Qed.

Lemma truthy_timedelta (us : Z) : us ≠ 0%Z → truthy (VTimedelta us) = true.
Proof.
  intros Hus. simpl. destruct (Z.eqb_spec us 0); [contradiction | reflexivity].
Qed.

Lemma map_get_insert (m : gmap string pyval) (k : string) (v d : pyval) :
  map_get (<[ k := v ]> m) k d = v.
Proof. unfold map_get. by rewrite lookup_insert_eq. Qed.

(** C10. Assigning a non-zero [timedelta] to [timeout] stores its
    [total_seconds()] as a float, and reading [timeout] back then raises
    [TypeError]: the getter slices the stored value as if it were a string
    with a unit suffix.  The pair does not round-trip. *)
Theorem timeout_set_get_raises `{PyBuiltins} (q : N1QLQuery) (us : Z) :
  us ≠ 0%Z →
  ∃ q', timeout_set q (VTimedelta us) = Ok q'
        ∧ _params q' !! "timeout" = Some (VFloat (total_seconds us))
        ∧ timeout_get q' = Raise (exc TypeError "'float' object is not subscriptable").
Proof.
  intros Hus.
  exists (set_option q "timeout" (VFloat (total_seconds us))).
  split; [| split].
  - unfold timeout_set. by rewrite truthy_timedelta.
  - simpl. apply lookup_insert_eq.
  - unfold timeout_get, set_option; simpl.
    rewrite map_get_insert, truthy_total_seconds by done.
    reflexivity.
Qed.

Lemma timeout_set_get_raises_witness :
  ∃ q', timeout_set (N1QLQuery__init__ "SELECT 1") (VTimedelta 5000000) = Ok q'
        ∧ _params q' !! "timeout" = Some (VFloat (total_seconds 5000000))
        ∧ @timeout_get Samples.sample_builtins q'
          = Raise (exc TypeError "'float' object is not subscriptable").
Proof.
  apply (@timeout_set_get_raises Samples.sample_builtins
           (N1QLQuery__init__ "SELECT 1") 5000000).
  lia.
Defined.

Definition is_at_plus (v : pyval) : Prop :=
  v = VScanConsistency AT_PLUS ∨ v = VStr "at_plus".

Lemma has_param_true (q : N1QLQuery) (k : string) :
  has_param q k = true ↔ is_Some (_params q !! k).
Proof. unfold has_param. apply bool_decide_eq_true. Qed.

Lemma has_param_false (q : N1QLQuery) (k : string) :
  has_param q k = false ↔ _params q !! k = None.
Proof.
  unfold has_param. rewrite bool_decide_eq_false, eq_None_not_Some. done.
Qed.

(** C9, as amended. Without a [mutation_state] parameter, setting
    [consistency] to AT_PLUS (the member or its string value) raises
    [InvalidArgumentException].  With one, the setter never raises and leaves
    the query as it is; the property then reads AT_PLUS when no
    [scan_consistency] option is stored. *)
Theorem consistency_at_plus (q : N1QLQuery) (value : pyval) :
  (is_at_plus value → _params q !! "mutation_state" = None →
     consistency_set q value = Raise consistency_at_plus_error)
  ∧ (is_Some (_params q !! "mutation_state") →
       consistency_set q value = Ok q
       ∧ (_params q !! "scan_consistency" = None →
            consistency_get q = VScanConsistency AT_PLUS)).
Proof.
  split.
  - intros Hv Hms. apply has_param_false in Hms.
    unfold consistency_set. rewrite Hms. simpl.
    destruct Hv as [-> | ->]; reflexivity.
  - intros Hms. apply has_param_true in Hms. split.
    + unfold consistency_set. rewrite Hms. reflexivity.
    + intros Hsc. unfold consistency_get, map_get. rewrite Hsc, Hms. reflexivity.
Qed.

(** A query given a mutation state through [consistent_with]. *)
Definition with_mutation_state : pyresult N1QLQuery :=
  consistent_with_set (N1QLQuery__init__ "SELECT 1") (VMutationState [VStr "token"]).

Lemma consistency_at_plus_witness :
  consistency_set (N1QLQuery__init__ "SELECT 1") (VStr "at_plus")
    = Raise consistency_at_plus_error
  ∧ ∃ q, with_mutation_state = Ok q
         ∧ consistency_set q (VScanConsistency AT_PLUS) = Ok q
         ∧ consistency_get q = VScanConsistency AT_PLUS.
Proof.
  split.
  - apply (consistency_at_plus (N1QLQuery__init__ "SELECT 1") (VStr "at_plus")).
    + right; reflexivity.
    + reflexivity.
  - eexists. split; [reflexivity |].
    match goal with
    | |- consistency_set ?q ?v = _ ∧ _ =>
        destruct (consistency_at_plus q v) as [_ Hset]
    end.
    destruct Hset as [Hok Hget]; [by eexists |].
    split; [exact Hok | apply Hget; reflexivity].
Defined.

(** A query on which REQUEST_PLUS was set through the property and a
    mutation state through [set_option]. *)
Definition request_plus_then_state : pyresult N1QLQuery :=
  q ← consistency_set (N1QLQuery__init__ "SELECT 1") (VScanConsistency REQUEST_PLUS);
  Ok (set_option q "mutation_state" (VList [VStr "token"])).

(** C9, counterexample. With a [mutation_state] parameter present next to a
    stored [scan_consistency], setting AT_PLUS does not raise and the
    property reads back REQUEST_PLUS, not AT_PLUS. *)
Lemma consistency_at_plus_counterexample :
  ∃ q, request_plus_then_state = Ok q
       ∧ is_Some (_params q !! "mutation_state")
       ∧ consistency_set q (VScanConsistency AT_PLUS) = Ok q
       ∧ consistency_get q = VScanConsistency REQUEST_PLUS
       ∧ consistency_get q ≠ VScanConsistency AT_PLUS.
Proof.
  eexists. split; [reflexivity |].
  split; [by eexists |].
  split; [reflexivity |].
  split; [reflexivity | discriminate].
Qed.

End N1QLProps.

(** ** Properties of the streaming query request *)

Module RequestProps.
Import N1QL.

(** A request whose stream an earlier consumer has finished. *)
Definition finished_request : QueryRequestLogic :=
  mk_request Samples.conn {[ "statement" := VStr "SELECT 1" ]} (fun x => x) [] [] VNone
    (VInstance "object" VNone) (VInstance "streamed_result" (VInt 0)) true true None VNone.

(** C4, as amended. Construction only assigns fields: [started_streaming]
    and [done_streaming] are false and no streaming result is held.  The
    first [_submit_query] on the new object makes exactly one [n1ql_query]
    call, with the connection and the parameters, and sets
    [started_streaming].  The method does not test that flag: on any request
    whose stream is not done, started or not, it makes one more call with
    the same arguments.  Once the stream is done, [_submit_query] changes
    neither the request nor the engine. *)
Theorem submit_only_on_trigger (connection : pyval) (query_params : gmap string pyval) :
  let r := QueryRequestLogic__init__ connection query_params in
  (started_streaming r = false ∧ done_streaming r = false ∧ _streaming_result r = VNone)
  ∧ (∀ e, ∃ r',
        _submit_query r e
          = (r', mk_engine (n1ql_query_calls e ++ [query_params ∪ {[ "conn" := connection ]}]))
        ∧ started_streaming r' = true
        ∧ done_streaming r' = false
        ∧ length (n1ql_query_calls (snd (_submit_query r e)))
          = S (length (n1ql_query_calls e)))
  ∧ (∀ r e, done_streaming r = false →
        ∃ r',
          _submit_query r e
            = (r', mk_engine (n1ql_query_calls e ++ [params r ∪ {[ "conn" := _connection r ]}]))
          ∧ started_streaming r' = true
          ∧ done_streaming r' = false
          ∧ params r' = params r
          ∧ _connection r' = _connection r)
  ∧ (∀ r e, done_streaming r = true → _submit_query r e = (r, e)).
Proof.
  intros r. split; [| split; [| split]].
  - by repeat split.
  - intros e. eexists. split; [reflexivity |]. split; [reflexivity |].
    split; [reflexivity |].
    simpl. rewrite length_app. simpl. lia.
  - intros r0 e Hdone. eexists. split.
    + unfold _submit_query. rewrite Hdone. reflexivity.
    + by repeat split.
  - intros r0 e Hdone. unfold _submit_query. by rewrite Hdone.
Qed.

Lemma submit_only_on_trigger_witness :
  done_streaming finished_request = true
  ∧ _submit_query finished_request (mk_engine []) = (finished_request, mk_engine []).
Proof.
  split; [reflexivity |].
  apply (submit_only_on_trigger VNone ∅). reflexivity.
Defined.

(** C4, counterexample. A second [_submit_query] on a request that has
    started and is not done submits the query again: the engine has
    received two calls. *)
Lemma second_trigger_counterexample :
  let r := QueryRequestLogic__init__ Samples.conn {[ "statement" := VStr "SELECT 1" ]} in
  let '(r1, e1) := _submit_query r (mk_engine []) in
  let '(r2, e2) := _submit_query r1 e1 in
  started_streaming r1 = true
  ∧ done_streaming r1 = false
  ∧ length (n1ql_query_calls e1) = 1%nat
  ∧ length (n1ql_query_calls e2) = 2%nat.
Proof. by vm_compute. Qed.

(** C3, counterexample. On a request that has just been built, and whose
    stream is therefore not done, [metadata()] returns [None]: it does not
    raise. *)
Lemma metadata_before_done_counterexample :
  let r := QueryRequestLogic__init__ Samples.conn {[ "statement" := VStr "SELECT 1" ]} in
  done_streaming r = false
  ∧ metadata r = Ok None
  ∧ raises (metadata r) = false.
Proof. by repeat split. Qed.

Section Metadata.
Context `{ExceptionsModule}.

(** C3, as amended. [metadata()] never raises and returns the stored field:
    [None] on a new request, whatever the state of the stream.  After
    [_set_metadata] has processed a response that carries no exception and
    whose value holds a metadata dict, [metadata()] returns the record built
    from that dict; its [request_id()] is the entry the engine supplied, and
    its [status()] is a member of [QueryStatus] when the supplied status
    names one. *)
Theorem metadata_returns_field (r : QueryRequestLogic) :
  metadata r = Ok (_metadata r)
  ∧ (∀ connection query_params,
       metadata (QueryRequestLogic__init__ connection query_params) = Ok None)
  ∧ (∀ d v m,
       truthy (assoc_get d "has_exception" VNone) = false →
       assoc_get d "value" VNone = VDict v →
       assoc_get v "metadata" VNone = VDict m →
       ∃ r', _set_metadata r (VDict d) = Ok r'
             ∧ metadata r' = Ok (Some (mk_metadata (VDict m)))
             ∧ request_id (mk_metadata (VDict m)) = Ok (assoc_get m "request_id" VNone)
             ∧ (∀ s, assoc_get m "status" (VStr "unknown") = VStr s →
                  existsb (fun d => String.eqb (fst d) (upper s)) QueryStatus_declared = true →
                  ∃ member, status (mk_metadata (VDict m)) = Ok (VQueryStatus member))).
Proof.
  split; [reflexivity |]. split; [reflexivity |].
  intros d v m Hexc Hval Hmd.
  eexists. split.
  - unfold _set_metadata. simpl. rewrite Hexc, Hval. simpl. rewrite Hmd. reflexivity.
  - split; [reflexivity |]. split; [reflexivity |].
    intros s Hs Hin. unfold status. simpl. rewrite Hs.
    unfold QueryStatus_getitem.
    destruct (find (λ m0, String.eqb m0.1 (upper s)) QueryStatus_declared) as [[n val] |] eqn:Hfind.
    + apply find_some in Hfind as [Hmem _].
      assert (val = VList []) as ->.
      { simpl in Hmem. repeat destruct Hmem as [Hmem | Hmem]; try congruence; done. }
      simpl. by eexists.
    + exfalso. apply existsb_exists in Hin as [x [Hx1 Hx2]].
      eapply find_none in Hfind; [| exact Hx1]. simpl in Hfind. congruence.
Qed.

End Metadata.

(** A response as the engine delivers it at the end of a stream. *)
Definition final_response : list (string * pyval) :=
  [("has_exception", VBool false);
   ("value", VDict [("metadata",
                     VDict [("request_id", VStr "9f2a"); ("status", VStr "success")])])].

Lemma metadata_returns_field_witness :
  ∃ r', @_set_metadata Samples.sample_exceptions finished_request
          (VDict final_response) = Ok r'
        ∧ metadata r' = Ok (Some (mk_metadata
            (VDict [("request_id", VStr "9f2a"); ("status", VStr "success")])))
        ∧ request_id (mk_metadata
            (VDict [("request_id", VStr "9f2a"); ("status", VStr "success")]))
          = Ok (VStr "9f2a").
Proof.
  destruct (@metadata_returns_field Samples.sample_exceptions finished_request)
    as (_ & _ & Hset).
  destruct (Hset final_response
              [("metadata", VDict [("request_id", VStr "9f2a"); ("status", VStr "success")])]
              [("request_id", VStr "9f2a"); ("status", VStr "success")]
              eq_refl eq_refl eq_refl) as (r' & Hr' & Hmd & Hid & _).
  exists r'. split; [exact Hr' |]. split; [exact Hmd | exact Hid].
Defined.

Section Mapping.
Context `{ExceptionsModule}.

(** A response that reports an error by its code and message only. *)
Definition bare_code_response : pyval :=
  VDict [("has_exception", VBool true);
         ("exc", VNone);
         ("exc_info", VDict [("error_code", VInt 101); ("message", VStr "not found")])].

(** A response that flags an exception and carries neither an exception
    object nor error information. *)
Definition empty_error_response : pyval :=
  VDict [("has_exception", VBool true)].

(** C7. On an error reported by bare code, the mapping step does not reach
    the line that raises the typed exception: unpacking the key
    ['error_code'] into two names raises [ValueError].  On an error that
    comes with no information at all it raises [AttributeError].  Neither is
    a class of the SDK, and [_set_metadata] lets both escape. *)
Theorem mapping_raises_secondary (r : QueryRequestLogic) :
  build_query_result_exc bare_code_response
    = Raise (exc ValueError "too many values to unpack (expected 2)")
  ∧ _set_metadata r bare_code_response
    = Raise (exc ValueError "too many values to unpack (expected 2)")
  ∧ issubclass_CouchbaseException ValueError = false
  ∧ build_query_result_exc empty_error_response
    = Raise (exc AttributeError "'NoneType' object has no attribute 'error_context'")
  ∧ issubclass_CouchbaseException AttributeError = false.
Proof. by repeat split. Qed.

(** Where the mapping does build its exception: an engine exception without
    context maps through the table, with [CouchbaseException] as the
    default. *)
Lemma mapping_of_native_error (err : Z) (strerror : string) :
  build_query_result_exc
    (VDict [("exc", VNativeError err strerror VNone)])
  = Ok (mk_exc (error_map_get err) (VStr strerror) VNone).
Proof. reflexivity. Qed.

End Mapping.

End RequestProps.

(** ** Equations of the future operations *)

Module LoopFacts.
Import Loop.

(** Unfolding of the monad of the loop. *)
Ltac unfold_M :=
  unfold mbind, M_bind, mret, M_ret, modify, raise, lift, dangling in *.

(** The world after a pending future has taken its final state. *)
Definition finished (w : world) (ft : nat) (f : future) (s : fut_state) : world :=
  set_ready (set_futures w (<[ ft := mk_future s [] ]> (futures w)))
            (ready w ++ map (fun cb => cb ft) (fut_callbacks f)).

Lemma state_of_finished w ft f s :
  futures w !! ft = Some f → state_of (finished w ft f s) ft = Some s.
Proof.
  intros Hf. unfold state_of, finished. simpl.
  rewrite list_lookup_insert_eq; [done |]. by eapply lookup_lt_Some.
Qed.

Lemma state_of_finished_ne w ft ft' f s :
  ft ≠ ft' → state_of (finished w ft f s) ft' = state_of w ft'.
Proof.
  intros Hne. unfold state_of, finished. simpl.
  by rewrite list_lookup_insert_ne.
Qed.

Lemma state_of_Some w ft s :
  state_of w ft = Some s ↔ ∃ f, futures w !! ft = Some f ∧ fut_state_of f = s.
Proof.
  unfold state_of. destruct (futures w !! ft) as [f |]; simpl; split.
  - intros [= <-]. by exists f.
  - intros (f' & [= <-] & <-). done.
  - done.
  - by intros (f' & [=] & _).
Qed.

Lemma set_result_pending w ft f v :
  futures w !! ft = Some f → fut_state_of f = PENDING →
  set_result ft v w = (Ok (), finished w ft f (FINISHED (Ok v))).
Proof.
  intros Hf Hs. unfold set_result, get_future, finish. unfold_M.
  by rewrite Hf, Hs.
Qed.

Lemma set_exception_pending w ft f e :
  futures w !! ft = Some f → fut_state_of f = PENDING →
  set_exception ft e w = (Ok (), finished w ft f (FINISHED (Raise e))).
Proof.
  intros Hf Hs. unfold set_exception, get_future, finish. unfold_M.
  by rewrite Hf, Hs.
Qed.

Lemma set_result_resolved w ft f v :
  futures w !! ft = Some f → fut_state_of f ≠ PENDING →
  set_result ft v w = (Raise invalid_state, w).
Proof.
  intros Hf Hs. unfold set_result, get_future. unfold_M.
  rewrite Hf. by destruct (fut_state_of f).
Qed.

Lemma set_exception_resolved w ft f e :
  futures w !! ft = Some f → fut_state_of f ≠ PENDING →
  set_exception ft e w = (Raise invalid_state, w).
Proof.
  intros Hf Hs. unfold set_exception, get_future. unfold_M.
  rewrite Hf. by destruct (fut_state_of f).
Qed.

Lemma cancel_pending w ft f :
  futures w !! ft = Some f → fut_state_of f = PENDING →
  cancel ft w = (Ok true, finished w ft f CANCELLED).
Proof.
  intros Hf Hs. unfold cancel, get_future, finish. unfold_M.
  by rewrite Hf, Hs.
Qed.

Lemma cancelled_eq w ft f :
  futures w !! ft = Some f →
  cancelled ft w = (Ok (match fut_state_of f with CANCELLED => true | _ => false end), w).
Proof. intros Hf. unfold cancelled, get_future. unfold_M. by rewrite Hf. Qed.

Lemma exception_finished w ft f o :
  futures w !! ft = Some f → fut_state_of f = FINISHED o →
  exception ft w = (Ok (match o with Raise e => Some e | Ok _ => None end), w).
Proof.
  intros Hf Hs. unfold exception, get_future. unfold_M.
  rewrite Hf, Hs. by destruct o.
Qed.

Lemma create_future_eq w :
  create_future w
  = (Ok (length (futures w)), set_futures w (futures w ++ [mk_future PENDING []])).
Proof. reflexivity. Qed.

Lemma lookup_created w :
  futures (set_futures w (futures w ++ [mk_future PENDING []])) !! length (futures w)
  = Some (mk_future PENDING []).
Proof. simpl. by apply list_lookup_middle. Qed.

End LoopFacts.

(** ** Properties of the completion bridge *)

Module BridgeProps.
Import Loop Wrappers LoopFacts.

Section Bridge.
Context `{ExceptionsModule} `{LogicModule}.

Lemma not_connection_eq w self x :
  nodes w !! self = Some x →
  not_connection self w = (Ok (negb (truthy (node_connection x))), w).
Proof. intros Hx. unfold not_connection, get_node. unfold_M. by rewrite Hx. Qed.

(** C5. An operation through [inject_cluster_callbacks] without connect
    chaining, or through the management wrapper, on an object whose
    connection is unset returns a new future that already holds a
    [MissingConnectionException], and the engine receives no call. *)
Theorem missing_connection (w : world) (rc : return_cls) (set_cluster_info : bool)
    (mgmt_type : option nat) (error_map : option string) (fn : logic_fn)
    (self : nat) (args : list pyval) (kwargs : gmap string pyval) (x : node) :
  nodes w !! self = Some x →
  truthy (node_connection x) = false →
  let ft := length (futures w) in
  (∃ w', inject_cluster_callbacks rc false set_cluster_info fn self args kwargs w
           = (Ok ft, w')
         ∧ state_of w' ft = Some (FINISHED (Raise not_connected_error))
         ∧ native_calls w' = native_calls w)
  ∧ (∃ w', mgmt_inject_callbacks rc mgmt_type error_map fn self args kwargs w
             = (Ok ft, w')
           ∧ state_of w' ft = Some (FINISHED (Raise mgmt_not_connected_error))
           ∧ native_calls w' = native_calls w)
  ∧ exc_type not_connected_error = MissingConnectionException
  ∧ exc_type mgmt_not_connected_error = MissingConnectionException.
Proof.
  intros Hx Hc ft.
  pose (w1 := set_futures w (futures w ++ [mk_future PENDING []])).
  assert (Hnc : not_connection self w1 = (Ok true, w1)).
  { rewrite (not_connection_eq w1 self x) by done. by rewrite Hc. }
  assert (Hft : futures w1 !! ft = Some (mk_future PENDING [])) by apply lookup_created.
  split; [| split; [| done]].
  - exists (finished w1 ft (mk_future PENDING []) (FINISHED (Raise not_connected_error))).
    split; [| split].
    + unfold inject_cluster_callbacks. unfold mbind at 1, M_bind at 1.
      rewrite create_future_eq. fold w1. fold ft.
      unfold mbind at 1, M_bind at 1. rewrite Hnc.
      unfold mbind at 1, M_bind at 1.
      by rewrite (set_exception_pending w1 ft (mk_future PENDING [])).
    + by apply state_of_finished.
    + reflexivity.
  - exists (finished w1 ft (mk_future PENDING []) (FINISHED (Raise mgmt_not_connected_error))).
    split; [| split].
    + unfold mgmt_inject_callbacks. unfold mbind at 1, M_bind at 1.
      rewrite create_future_eq. fold w1. fold ft.
      unfold mbind at 1, M_bind at 1. rewrite Hnc.
      unfold mbind at 1, M_bind at 1.
      by rewrite (set_exception_pending w1 ft (mk_future PENDING [])).
    + by apply state_of_finished.
    + reflexivity.
Qed.

(** The steps that copy a connection touch the objects only. *)
Definition same_loop (w w1 : world) : Prop :=
  futures w1 = futures w ∧ ready w1 = ready w ∧ native_calls w1 = native_calls w
  ∧ exception_handler_calls w1 = exception_handler_calls w.

Lemma _set_connection_frame n w r w1 :
  _set_connection n w = (r, w1) → same_loop w w1.
Proof.
  unfold _set_connection, get_node, put_node. unfold_M.
  destruct (nodes w !! n) as [x |]; [| by intros [= _ <-]].
  destruct (node_parent x) as [p |]; [| by intros [= _ <-]].
  destruct (nodes w !! p) as [px |]; by intros [= _ <-].
Qed.

Lemma same_loop_trans w w1 w2 : same_loop w w1 → same_loop w1 w2 → same_loop w w2.
Proof. unfold same_loop. intros (-> & -> & -> & ->) (-> & -> & -> & ->). done. Qed.

Lemma set_scope_and_own_connection_frame sc n w r w1 :
  set_scope_and_own_connection sc n w = (r, w1) → same_loop w w1.
Proof.
  unfold set_scope_and_own_connection. destruct sc; [| by intros [= _ <-]].
  unfold get_node. unfold_M.
  destruct (nodes w !! n) as [x |]; [| by intros [= _ <-]].
  destruct (node_parent x) as [scope |]; [| by intros [= _ <-]].
  destruct (_set_connection scope w) as [[[] | e] w'] eqn:Hs.
  - intros Hown. apply _set_connection_frame in Hs, Hown.
    by eapply same_loop_trans.
  - intros [= _ <-]. by apply _set_connection_frame in Hs.
Qed.

Lemma call_async_fn_invokes ft self fn inj args kwargs w name kw :
  fn_call fn (nodes w) self args kwargs = Ok (name, kw) →
  call_async_fn ft self fn inj args kwargs w
  = (Ok (), set_native_calls w (native_calls w ++ [mk_call name kw inj])).
Proof. intros Hfn. unfold call_async_fn. by rewrite Hfn. Qed.

(** C2. When a chaining callback runs for an operation future that is still
    pending: a connect future that holds the exception [E] gives the
    operation future the same [E], and a cancelled one cancels it, in both
    cases without a call into the engine; a connect future that holds a
    result lets the wrapped function run, and its native call is made. *)
Theorem chained_connect_outcome (w : world) (ft self : nat) (fn : logic_fn)
    (inj : injected) (set_connection : bool) (args : list pyval)
    (kwargs : gmap string pyval) (cft : nat) :
  state_of w ft = Some PENDING →
  (∀ E, state_of w cft = Some (FINISHED (Raise E)) →
     ∃ w', chain_futures ft self fn inj set_connection args kwargs cft w = (Ok (), w')
           ∧ chain_connect_futures ft self fn inj args kwargs cft w = (Ok (), w')
           ∧ state_of w' ft = Some (FINISHED (Raise E))
           ∧ native_calls w' = native_calls w)
  ∧ (state_of w cft = Some CANCELLED →
     ∃ w', chain_futures ft self fn inj set_connection args kwargs cft w = (Ok (), w')
           ∧ chain_connect_futures ft self fn inj args kwargs cft w = (Ok (), w')
           ∧ state_of w' ft = Some CANCELLED
           ∧ native_calls w' = native_calls w)
  ∧ (∀ v, state_of w cft = Some (FINISHED (Ok v)) →
     (∀ w1 name kw,
        set_scope_and_own_connection set_connection self w = (Ok (), w1) →
        fn_call fn (nodes w1) self args kwargs = Ok (name, kw) →
        ∃ w', chain_futures ft self fn inj set_connection args kwargs cft w = (Ok (), w')
              ∧ native_calls w' = (native_calls w ++ [mk_call name kw inj])%list
              ∧ state_of w' ft = Some PENDING)
     ∧ (∀ w1 name kw,
        _set_connection self w = (Ok (), w1) →
        fn_call fn (nodes w1) self args kwargs = Ok (name, kw) →
        ∃ w', chain_connect_futures ft self fn inj args kwargs cft w = (Ok (), w')
              ∧ native_calls w' = (native_calls w ++ [mk_call name kw inj])%list
              ∧ state_of w' ft = Some PENDING)).
Proof.
  intros Hft. apply state_of_Some in Hft as (f & Hf & Hpending).
  split; [| split].
  - intros E Hcft. apply state_of_Some in Hcft as (c & Hc & Hstate).
    exists (finished w ft f (FINISHED (Raise E))).
    assert (Hset := set_exception_pending w ft f E Hf Hpending).
    repeat split.
    + unfold chain_futures. unfold mbind at 1, M_bind at 1.
      rewrite (cancelled_eq w cft c Hc), Hstate.
      unfold mbind at 1, M_bind at 1.
      by rewrite (exception_finished w cft c (Raise E) Hc Hstate).
    + unfold chain_connect_futures. unfold mbind at 1, M_bind at 1.
      rewrite (cancelled_eq w cft c Hc), Hstate.
      unfold mbind at 1, M_bind at 1.
      by rewrite (exception_finished w cft c (Raise E) Hc Hstate).
    + by apply state_of_finished.
  - intros Hcft. apply state_of_Some in Hcft as (c & Hc & Hstate).
    exists (finished w ft f CANCELLED).
    repeat split.
    + unfold chain_futures. unfold mbind at 1, M_bind at 1.
      rewrite (cancelled_eq w cft c Hc), Hstate.
      unfold mbind at 1, M_bind at 1.
      by rewrite (cancel_pending w ft f Hf Hpending).
    + unfold chain_connect_futures. unfold mbind at 1, M_bind at 1.
      rewrite (cancelled_eq w cft c Hc), Hstate.
      unfold mbind at 1, M_bind at 1.
      by rewrite (cancel_pending w ft f Hf Hpending).
    + by apply state_of_finished.
  - intros v Hcft. apply state_of_Some in Hcft as (c & Hc & Hstate).
    split.
    + intros w1 name kw Hprep Hfn.
      pose proof (set_scope_and_own_connection_frame _ _ _ _ _ Hprep)
        as (Hfut & Hready & Hcalls & Hlog).
      exists (set_native_calls w1 (native_calls w1 ++ [mk_call name kw inj])).
      repeat split.
      * unfold chain_futures. unfold mbind at 1, M_bind at 1.
        rewrite (cancelled_eq w cft c Hc), Hstate.
        unfold mbind at 1, M_bind at 1.
        rewrite (exception_finished w cft c (Ok v) Hc Hstate).
        unfold mbind at 1, M_bind at 1. rewrite Hprep.
        by apply call_async_fn_invokes.
      * simpl. by rewrite Hcalls.
      * unfold state_of. simpl. rewrite Hfut, Hf. simpl. by rewrite Hpending.
    + intros w1 name kw Hprep Hfn.
      pose proof (_set_connection_frame _ _ _ _ Hprep)
        as (Hfut & Hready & Hcalls & Hlog).
      exists (set_native_calls w1 (native_calls w1 ++ [mk_call name kw inj])).
      repeat split.
      * unfold chain_connect_futures. unfold mbind at 1, M_bind at 1.
        rewrite (cancelled_eq w cft c Hc), Hstate.
        unfold mbind at 1, M_bind at 1.
        rewrite (exception_finished w cft c (Ok v) Hc Hstate).
        unfold mbind at 1, M_bind at 1. rewrite Hprep.
        by apply call_async_fn_invokes.
      * simpl. by rewrite Hcalls.
      * unfold state_of. simpl. rewrite Hfut, Hf. simpl. by rewrite Hpending.
Qed.

(** A future that has left [PENDING] keeps its state. *)
Definition finality (w w' : world) : Prop :=
  ∀ ft s, state_of w ft = Some s → s ≠ PENDING → state_of w' ft = Some s.

Lemma finality_refl w : finality w w.
Proof. by intros ft s. Qed.

Lemma finality_trans w w1 w2 : finality w w1 → finality w1 w2 → finality w w2.
Proof. intros H1 H2 ft s Hs Hne. apply H2; [by apply H1 | done]. Qed.

Lemma finality_same_loop w w1 : same_loop w w1 → finality w w1.
Proof. intros (Hf & _) ft s. unfold state_of. by rewrite Hf. Qed.

Lemma finality_finished w ft f s :
  futures w !! ft = Some f → fut_state_of f = PENDING → finality w (finished w ft f s).
Proof.
  intros Hf Hpending ft' s' Hs' Hne.
  destruct (decide (ft = ft')) as [<- | Hneq].
  - apply state_of_Some in Hs' as (f' & Hf' & <-). congruence.
  - by rewrite state_of_finished_ne.
Qed.

Lemma pending_or_resolved (f : future) :
  fut_state_of f = PENDING ∨ fut_state_of f ≠ PENDING.
Proof. destruct (fut_state_of f); [by left | by right | by right]. Qed.

Lemma set_result_finality ft v w r w' :
  set_result ft v w = (r, w') → finality w w'.
Proof.
  destruct (futures w !! ft) as [f |] eqn:Hf.
  - destruct (pending_or_resolved f) as [Hp | Hp].
    + rewrite (set_result_pending w ft f v Hf Hp). intros [= _ <-].
      by apply finality_finished.
    + rewrite (set_result_resolved w ft f v Hf Hp). intros [= _ <-].
      apply finality_refl.
  - unfold set_result, get_future. unfold_M. rewrite Hf. intros [= _ <-].
    apply finality_refl.
Qed.

Lemma set_exception_finality ft e w r w' :
  set_exception ft e w = (r, w') → finality w w'.
Proof.
  destruct (futures w !! ft) as [f |] eqn:Hf.
  - destruct (pending_or_resolved f) as [Hp | Hp].
    + rewrite (set_exception_pending w ft f e Hf Hp). intros [= _ <-].
      by apply finality_finished.
    + rewrite (set_exception_resolved w ft f e Hf Hp). intros [= _ <-].
      apply finality_refl.
  - unfold set_exception, get_future. unfold_M. rewrite Hf. intros [= _ <-].
    apply finality_refl.
Qed.

Lemma cancel_finality ft w r w' : cancel ft w = (r, w') → finality w w'.
Proof.
  destruct (futures w !! ft) as [f |] eqn:Hf.
  - destruct (pending_or_resolved f) as [Hp | Hp].
    + rewrite (cancel_pending w ft f Hf Hp). intros [= _ <-].
      by apply finality_finished.
    + unfold cancel, get_future. unfold_M. rewrite Hf.
      destruct (fut_state_of f); [done | |]; intros [= _ <-]; apply finality_refl.
  - unfold cancel, get_future. unfold_M. rewrite Hf. intros [= _ <-].
    apply finality_refl.
Qed.

Lemma cancelled_same ft w r w' : cancelled ft w = (r, w') → w' = w.
Proof.
  unfold cancelled, get_future. unfold_M.
  destruct (futures w !! ft); by intros [= _ <-].
Qed.

Lemma exception_same ft w r w' : exception ft w = (r, w') → w' = w.
Proof.
  unfold exception, get_future. unfold_M.
  destruct (futures w !! ft) as [f |]; [| by intros [= _ <-]].
  destruct (fut_state_of f) as [| | []]; by intros [= _ <-].
Qed.

Lemma call_async_fn_finality ft self fn inj args kwargs w r w' :
  call_async_fn ft self fn inj args kwargs w = (r, w') → finality w w'.
Proof.
  unfold call_async_fn.
  destruct (fn_call fn (nodes w) self args kwargs) as [[name kw] | e].
  - intros [= _ <-]. by intros ft' s.
  - destruct (issubclass_CouchbaseException (exc_type e));
      [apply set_exception_finality |].
    destruct (issubclass_Exception (exc_type e));
      [| intros [= _ <-]; apply finality_refl].
    destruct (is_TypeError_or_ValueError (exc_type e)); apply set_exception_finality.
Qed.

Lemma chain_futures_finality ft self fn inj sc args kwargs cft w r w' :
  chain_futures ft self fn inj sc args kwargs cft w = (r, w') → finality w w'.
Proof.
  unfold chain_futures. unfold mbind at 1, M_bind at 1.
  destruct (cancelled cft w) as [[c | e] w0] eqn:Hc;
    apply cancelled_same in Hc as ->; [| intros [= _ <-]; apply finality_refl].
  destruct c.
  - unfold mbind at 1, M_bind at 1.
    destruct (cancel ft w) as [[b | e] w1] eqn:Hcancel;
      intros [= _ <-]; by eapply cancel_finality.
  - unfold mbind at 1, M_bind at 1.
    destruct (exception cft w) as [[e | e] w0] eqn:He;
      apply exception_same in He as ->; [| intros [= _ <-]; apply finality_refl].
    destruct e as [e |]; [apply set_exception_finality |].
    unfold mbind at 1, M_bind at 1.
    destruct (set_scope_and_own_connection sc self w) as [[[] | e] w1] eqn:Hprep;
      apply set_scope_and_own_connection_frame, finality_same_loop in Hprep.
    + intros Hcall. apply call_async_fn_finality in Hcall.
      by eapply finality_trans.
    + by intros [= _ <-].
Qed.

Lemma chain_connect_futures_finality ft self fn inj args kwargs cft w r w' :
  chain_connect_futures ft self fn inj args kwargs cft w = (r, w') → finality w w'.
Proof.
  unfold chain_connect_futures. unfold mbind at 1, M_bind at 1.
  destruct (cancelled cft w) as [[c | e] w0] eqn:Hc;
    apply cancelled_same in Hc as ->; [| intros [= _ <-]; apply finality_refl].
  destruct c.
  - unfold mbind at 1, M_bind at 1.
    destruct (cancel ft w) as [[b | e] w1] eqn:Hcancel;
      intros [= _ <-]; by eapply cancel_finality.
  - unfold mbind at 1, M_bind at 1.
    destruct (exception cft w) as [[e | e] w0] eqn:He;
      apply exception_same in He as ->; [| intros [= _ <-]; apply finality_refl].
    destruct e as [e |]; [apply set_exception_finality |].
    unfold mbind at 1, M_bind at 1.
    destruct (_set_connection self w) as [[[] | e] w1] eqn:Hprep;
      apply _set_connection_frame, finality_same_loop in Hprep.
    + intros Hcall. apply call_async_fn_finality in Hcall.
      by eapply finality_trans.
    + by intros [= _ <-].
Qed.

Lemma Handle_run_finality cb w : finality w (Handle_run cb w).
Proof.
  unfold Handle_run.
  destruct (run_callback cb w) as [[[] | e] w'] eqn:Hrun.
  all: assert (finality w w') as Hfin by
    (destruct cb; simpl in Hrun;
     eauto using set_result_finality, set_exception_finality,
       chain_futures_finality, chain_connect_futures_finality).
  - done.
  - intros ft s Hs Hne. by apply Hfin.
Qed.

Lemma set_ready_finality w r : finality w (set_ready w r).
Proof. by intros ft s. Qed.

Lemma run_once_finality w : finality w (run_once w).
Proof.
  unfold run_once. destruct (ready w) as [| cb rest]; [apply finality_refl |].
  eapply finality_trans; [apply (set_ready_finality w rest) | apply Handle_run_finality].
Qed.

Lemma run_finality n w : finality w (run n w).
Proof.
  revert w. induction n as [| n IH]; intros w; simpl; [apply finality_refl |].
  eapply finality_trans; [apply run_once_finality | apply IH].
Qed.

(** What a handle asks of which future, for the two kinds of handle the
    injected callbacks queue. *)
Definition requested (cb : callback) : option (nat * fut_state) :=
  match cb with
  | CbSetResult ft v => Some (ft, FINISHED (Ok v))
  | CbSetException ft e => Some (ft, FINISHED (Raise e))
  | _ => None
  end.

(** The handle an invocation of the callbacks of [inject_callbacks] puts on
    the ready queue. *)
Definition scheduled (inj : injected) (i : invocation) : callback :=
  match i with
  | InvokeOk res => CbSetResult (inj_ft inj) (retval_of (inj_return_cls inj) res)
  | InvokeErr e => CbSetException (inj_ft inj) (build_exception e None)
  end.

Lemma requested_scheduled inj i :
  requested (scheduled inj i) = Some (inj_ft inj, resolution inj i).
Proof. by destruct i. Qed.

Lemma invoke_schedules inj i w :
  inj_kind inj = WOp →
  invoke inj i w = (Ok (), set_ready w (ready w ++ [scheduled inj i])).
Proof. intros Hk. destruct i; unfold invoke, on_ok, on_err; by rewrite Hk. Qed.

(** A step that only writes an object and returns. *)
Lemma put_node_frame n x w r w1 : put_node n x w = (r, w1) → same_loop w w1.
Proof. unfold put_node. unfold_M. by intros [= _ <-]. Qed.

Lemma node_update_frame (g : node → node) n w r w1 :
  (x ← get_node n; put_node n (g x)) w = (r, w1) → same_loop w w1.
Proof.
  unfold get_node. unfold_M.
  destruct (nodes w !! n) as [x |]; [apply put_node_frame | by intros [= _ <-]].
Qed.

(** Whatever the wrapper, an invocation that returns has queued one handle
    for the operation's future and has touched neither the futures nor the
    exception handler. *)
Lemma invoke_queues_one inj i w w' :
  invoke inj i w = (Ok (), w') →
  ∃ cb s, ready w' = (ready w ++ [cb])%list
          ∧ requested cb = Some (inj_ft inj, s)
          ∧ futures w' = futures w
          ∧ exception_handler_calls w' = exception_handler_calls w.
Proof.
  assert (Hsoon : ∀ cb s w0 w1,
             same_loop w w0 → requested cb = Some (inj_ft inj, s) →
             call_soon_threadsafe cb w0 = (Ok (), w1) →
             ∃ cb s, ready w1 = (ready w ++ [cb])%list
                     ∧ requested cb = Some (inj_ft inj, s)
                     ∧ futures w1 = futures w
                     ∧ exception_handler_calls w1 = exception_handler_calls w).
  { intros cb s w0 w1 (Hf & Hr & _ & Hl) Hreq [= <-].
    exists cb, s. simpl. by rewrite Hf, Hr, Hl. }
  assert (Hrefl : same_loop w w) by done.
  destruct i as [res | e]; simpl.
  - unfold on_ok. destruct (inj_kind inj) as [| | | sci | | tr name | mt name em].
    + unfold mbind at 1, M_bind at 1.
      destruct (_set_connection_to (inj_self inj) res w) as [[[] | e] w0] eqn:Hn; [| done].
      apply node_update_frame in Hn. by eapply Hsoon.
    + by eapply Hsoon.
    + unfold mbind at 1, M_bind at 1.
      destruct (_set_connected (inj_self inj) true w) as [[[] | e] w0] eqn:Hn; [| done].
      apply node_update_frame in Hn. by eapply Hsoon.
    + unfold mbind at 1, M_bind at 1. destruct sci.
      * destruct (_set_cluster_info (inj_self inj) _ w) as [[[] | e] w0] eqn:Hn; [| done].
        apply node_update_frame in Hn. by eapply Hsoon.
      * by eapply Hsoon.
    + by eapply Hsoon.
    + unfold lift. unfold mbind at 1, M_bind at 1.
      destruct (py_get res "value" VNone) as [value | e]; [| done].
      unfold mbind at 1, M_bind at 1.
      destruct (py_get res "flags" VNone) as [flags | e]; [| done].
      unfold mbind at 1, M_bind at 1.
      destruct (decode_value tr value flags _) as [decoded | e]; [| done].
      by eapply Hsoon.
    + by eapply Hsoon.
  - unfold on_err. by eapply Hsoon.
Qed.

Lemma Handle_run_pending cb ft s w f :
  requested cb = Some (ft, s) →
  futures w !! ft = Some f → fut_state_of f = PENDING →
  Handle_run cb w = finished w ft f s.
Proof.
  intros Hreq Hf Hp. unfold Handle_run.
  destruct cb; simpl in Hreq; try done; injection Hreq as -> <-; simpl.
  - by rewrite (set_result_pending w _ f _ Hf Hp).
  - by rewrite (set_exception_pending w _ f _ Hf Hp).
Qed.

Lemma Handle_run_resolved cb ft s w f :
  requested cb = Some (ft, s) →
  futures w !! ft = Some f → fut_state_of f ≠ PENDING →
  Handle_run cb w
  = set_exception_handler_calls w (exception_handler_calls w ++ [invalid_state]).
Proof.
  intros Hreq Hf Hp. unfold Handle_run.
  destruct cb; simpl in Hreq; try done; injection Hreq as -> <-; simpl.
  - by rewrite (set_result_resolved w _ f _ Hf Hp).
  - by rewrite (set_exception_resolved w _ f _ Hf Hp).
Qed.

Lemma requested_not_pending cb ft s : requested cb = Some (ft, s) → s ≠ PENDING.
Proof. destruct cb; simpl; try done; by intros [= _ <-]. Qed.

(** Two handles for one pending future, run in turn. *)
Lemma second_handle_is_refused (w : world) (ft : nat) (cb1 cb2 : callback) (s1 s2 : fut_state) :
  state_of w ft = Some PENDING →
  ready w = [cb1; cb2] →
  requested cb1 = Some (ft, s1) →
  requested cb2 = Some (ft, s2) →
  (∀ n, state_of (run (S n) w) ft = Some s1)
  ∧ futures (run 2 w) = futures (run 1 w)
  ∧ exception_handler_calls (run 2 w)
    = (exception_handler_calls w ++ [invalid_state])%list.
Proof.
  intros Hft Hready Hreq1 Hreq2.
  apply state_of_Some in Hft as (f & Hf & Hp).
  assert (Hstep1 : run_once w = finished (set_ready w [cb2]) ft f s1).
  { unfold run_once. rewrite Hready.
    by apply (Handle_run_pending cb1 ft s1 (set_ready w [cb2]) f). }
  assert (Hstate1 : state_of (run_once w) ft = Some s1).
  { rewrite Hstep1. by apply state_of_finished. }
  assert (Hstep2 : run_once (run_once w)
                   = set_exception_handler_calls
                       (set_ready (run_once w) (map (fun cb => cb ft) (fut_callbacks f)))
                       (exception_handler_calls w ++ [invalid_state])).
  { assert (Hready1 : ready (run_once w) = cb2 :: map (fun cb => cb ft) (fut_callbacks f))
      by (by rewrite Hstep1).
    assert (Hlog1 : exception_handler_calls (run_once w) = exception_handler_calls w)
      by (by rewrite Hstep1).
    apply state_of_Some in Hstate1 as (f1 & Hf1 & Hs1).
    unfold run_once at 1. rewrite Hready1.
    rewrite (Handle_run_resolved cb2 ft s2 _ f1).
    - simpl. by rewrite Hlog1.
    - done.
    - done.
    - rewrite Hs1. by eapply requested_not_pending. }
  split; [| split].
  - intros n. simpl.
    apply (run_finality n (run_once w)); [done | by eapply requested_not_pending].
  - simpl. by rewrite Hstep2.
  - simpl. by rewrite Hstep2.
Qed.

(** C1. An operation's future is pending and the loop is idle when the
    engine invokes one of the injected callbacks; the loop then runs [k]
    handles, and the engine invokes a callback again, in any combination of
    success and failure.  For [k = 0] the second invocation comes before the
    first handle has run; for every other [k] it comes after the future has
    been resolved.  Whatever the wrapper, if both invocations return to the
    engine, each has only queued one handle for the future: the second
    invocation changes neither the futures nor what the exception handler
    has received.  The first handle resolves the future; wherever the
    second handle runs it finds the future resolved, [set_result] or
    [set_exception] raises [InvalidStateError] inside the handle, and the
    loop reports it to its exception handler and changes nothing else.  From
    the first handle on the future holds what the first invocation asked
    for, however long the loop runs.  For the callbacks of
    [inject_callbacks] both invocations do return, and the future holds the
    result or the mapped exception of the first. *)
Theorem resolved_exactly_once (w : world) (inj : injected) (i1 i2 : invocation) (k : nat) :
  state_of w (inj_ft inj) = Some PENDING →
  ready w = [] →
  (∀ w1 w2,
     invoke inj i1 w = (Ok (), w1) →
     invoke inj i2 (run k w1) = (Ok (), w2) →
     ∃ cb1 cb2 s1 s2,
       ready w1 = [cb1]
       ∧ requested cb1 = Some (inj_ft inj, s1)
       ∧ ready w2 = (ready (run k w1) ++ [cb2])%list
       ∧ requested cb2 = Some (inj_ft inj, s2)
       ∧ futures w2 = futures (run k w1)
       ∧ exception_handler_calls w2 = exception_handler_calls (run k w1)
       ∧ ((0 < k)%nat → state_of (run k w1) (inj_ft inj) = Some s1)
       ∧ (∀ n, (0 < k + n)%nat → state_of (run n w2) (inj_ft inj) = Some s1)
       ∧ (∀ w', state_of w' (inj_ft inj) = Some s1 →
            Handle_run cb2 w'
            = set_exception_handler_calls w'
                (exception_handler_calls w' ++ [invalid_state])%list)
       ∧ (k = 0%nat →
            futures (run 2 w2) = futures (run 1 w2)
            ∧ exception_handler_calls (run 2 w2)
              = (exception_handler_calls w ++ [invalid_state])%list))
  ∧ (inj_kind inj = WOp →
     ∃ w1 w2,
       invoke inj i1 w = (Ok (), w1)
       ∧ invoke inj i2 (run k w1) = (Ok (), w2)
       ∧ (∀ n, (0 < k + n)%nat →
            state_of (run n w2) (inj_ft inj) = Some (resolution inj i1))).
Proof.
  intros Hft Hready.
  assert (Hgeneral : ∀ w1 w2,
     invoke inj i1 w = (Ok (), w1) →
     invoke inj i2 (run k w1) = (Ok (), w2) →
     ∃ cb1 cb2 s1 s2,
       ready w1 = [cb1]
       ∧ requested cb1 = Some (inj_ft inj, s1)
       ∧ ready w2 = (ready (run k w1) ++ [cb2])%list
       ∧ requested cb2 = Some (inj_ft inj, s2)
       ∧ futures w2 = futures (run k w1)
       ∧ exception_handler_calls w2 = exception_handler_calls (run k w1)
       ∧ ((0 < k)%nat → state_of (run k w1) (inj_ft inj) = Some s1)
       ∧ (∀ n, (0 < k + n)%nat → state_of (run n w2) (inj_ft inj) = Some s1)
       ∧ (∀ w', state_of w' (inj_ft inj) = Some s1 →
            Handle_run cb2 w'
            = set_exception_handler_calls w'
                (exception_handler_calls w' ++ [invalid_state])%list)
       ∧ (k = 0%nat →
            futures (run 2 w2) = futures (run 1 w2)
            ∧ exception_handler_calls (run 2 w2)
              = (exception_handler_calls w ++ [invalid_state])%list)).
  { intros w1 w2 H1 H2.
    apply invoke_queues_one in H1 as (cb1 & s1 & Hr1 & Hreq1 & Hf1 & Hl1).
    apply invoke_queues_one in H2 as (cb2 & s2 & Hr2 & Hreq2 & Hf2 & Hl2).
    assert (Hready1 : ready w1 = [cb1]) by (by rewrite Hr1, Hready).
    assert (Hs1 : s1 ≠ PENDING) by (by eapply requested_not_pending).
    assert (Hft1 : state_of w1 (inj_ft inj) = Some PENDING).
    { unfold state_of in *. by rewrite Hf1. }
    assert (Hrefused : ∀ w', state_of w' (inj_ft inj) = Some s1 →
              Handle_run cb2 w'
              = set_exception_handler_calls w'
                  (exception_handler_calls w' ++ [invalid_state])%list).
    { intros w' Hw'. apply state_of_Some in Hw' as (f' & Hf' & Hs').
      apply (Handle_run_resolved cb2 (inj_ft inj) s2 w' f'); [done | done |].
      by rewrite Hs'. }
    assert (Hlater : (0 < k)%nat → state_of (run k w1) (inj_ft inj) = Some s1).
    { intros Hk. destruct k as [| k']; [lia |].
      change (run (S k') w1) with (run k' (run_once w1)).
      apply (run_finality k' (run_once w1)); [| done].
      apply state_of_Some in Hft1 as (f & Hf & Hp).
      unfold run_once. rewrite Hready1.
      rewrite (Handle_run_pending cb1 (inj_ft inj) s1 (set_ready w1 []) f Hreq1 Hf Hp).
      by apply state_of_finished. }
    assert (Hsecond : k = 0%nat →
              (∀ n, state_of (run (S n) w2) (inj_ft inj) = Some s1)
              ∧ futures (run 2 w2) = futures (run 1 w2)
              ∧ exception_handler_calls (run 2 w2)
                = (exception_handler_calls w ++ [invalid_state])%list).
    { intros ->. change (run 0 w1) with w1 in *.
      assert (Hready2 : ready w2 = [cb1; cb2]) by (by rewrite Hr2, Hready1).
      assert (Hft2 : state_of w2 (inj_ft inj) = Some PENDING).
      { unfold state_of in *. by rewrite Hf2. }
      destruct (second_handle_is_refused w2 (inj_ft inj) cb1 cb2 s1 s2
                  Hft2 Hready2 Hreq1 Hreq2) as (Hfinal & Hsame & Hlog).
      split; [exact Hfinal |]. split; [exact Hsame |].
      by rewrite Hlog, Hl2, Hl1. }
    exists cb1, cb2, s1, s2.
    split; [exact Hready1 |]. split; [exact Hreq1 |]. split; [exact Hr2 |].
    split; [exact Hreq2 |]. split; [exact Hf2 |]. split; [exact Hl2 |].
    split; [exact Hlater |]. split; [| split; [exact Hrefused |]].
    - intros n Hn. destruct k as [| k'].
      + destruct n as [| n]; [lia |]. by apply (proj1 (Hsecond eq_refl)).
      + apply (run_finality n w2); [| done].
        unfold state_of. rewrite Hf2. apply Hlater. lia.
    - intros Hk. by apply (proj2 (Hsecond Hk)). }
  split; [exact Hgeneral |].
  intros Hk.
  pose (w1 := set_ready w (ready w ++ [scheduled inj i1])).
  pose (w2 := set_ready (run k w1) (ready (run k w1) ++ [scheduled inj i2])).
  assert (H1 : invoke inj i1 w = (Ok (), w1)) by (by apply invoke_schedules).
  assert (H2 : invoke inj i2 (run k w1) = (Ok (), w2)) by (by apply invoke_schedules).
  exists w1, w2. split; [done |]. split; [done |].
  destruct (Hgeneral w1 w2 H1 H2)
    as (cb1 & cb2 & s1 & s2 & Hr & Hreq1 & _ & _ & _ & _ & _ & Hfinal & _).
  assert (Hcb1 : cb1 = scheduled inj i1).
  { simpl in Hr. rewrite Hready in Hr. simpl in Hr. congruence. }
  rewrite Hcb1, requested_scheduled in Hreq1. injection Hreq1 as <-.
  exact Hfinal.
Qed.

Definition missing_attribute : pyexc :=
  exc AttributeError "type object 'AsyncWrapper' has no attribute '_chain_futures'".

(** C6. A decoded read through [inject_callbacks_and_decode] on a collection
    whose connection is unset never returns a future: once the bucket
    connect has been requested, the lookup of [cls._chain_futures] raises
    [AttributeError] out of the wrapper, the class having only
    [chain_futures]. *)
Theorem decode_wrapper_raises (w : world) (rc : return_cls) (fn : logic_fn)
    (self : nat) (args : list pyval) (kwargs : gmap string pyval) (x : node)
    (transcoder : pyval) :
  nodes w !! self = Some x →
  truthy (node_connection x) = false →
  kwargs !! "transcoder" = Some transcoder →
  (∃ e w', inject_callbacks_and_decode rc fn self args kwargs w = (Raise e, w'))
  ∧ (∀ cft w1,
       scope_connect_bucket self (set_futures w (futures w ++ [mk_future PENDING []]))
         = (Ok cft, w1) →
       inject_callbacks_and_decode rc fn self args kwargs w = (Raise missing_attribute, w1)).
Proof.
  intros Hx Hc Ht.
  pose (w0 := set_futures w (futures w ++ [mk_future PENDING []])).
  assert (Hnc : not_connection self w0 = (Ok true, w0)).
  { rewrite (not_connection_eq w0 self x) by done. by rewrite Hc. }
  assert (Hunfold : inject_callbacks_and_decode rc fn self args kwargs w
                    = match scope_connect_bucket self w0 with
                      | (Ok _, w1) => (Raise missing_attribute, w1)
                      | (Raise e, w1) => (Raise e, w1)
                      end).
  { unfold inject_callbacks_and_decode. unfold mbind at 1, M_bind at 1.
    rewrite create_future_eq. fold w0. rewrite Ht.
    unfold mbind at 1, M_bind at 1. rewrite Hnc.
    unfold mbind at 1, M_bind at 1.
    destruct (scope_connect_bucket self w0) as [[cft | e] w1]; reflexivity. }
  split.
  - rewrite Hunfold. destruct (scope_connect_bucket self w0) as [[cft | e] w1]; by eexists _, _.
  - intros cft w1 Hconnect. rewrite Hunfold. fold w0 in Hconnect. by rewrite Hconnect.
Qed.

Definition too_many_projections (n : nat) : pyexc :=
  exc InvalidArgumentException ("Maximum of 16 projects allowed. Provided " ++ pretty n).

(** C8, as amended. [CollectionLogic.get] with more than sixteen projections
    raises [InvalidArgumentException] before any call into the engine.
    Called through [call_async_fn], the exception does not propagate to the
    caller: the call returns, and the exception is set on the operation's
    future. *)
Theorem validation_reaches_future (w : world) (ft self : nat) (key : pyval)
    (kwargs : gmap string pyval) (l : list pyval) (inj : injected) :
  kwargs !! "project" = Some (VList l) →
  (16 < length l)%nat →
  state_of w ft = Some PENDING →
  Collection.get (nodes w) self [key] kwargs = Raise (too_many_projections (length l))
  ∧ ∃ w', call_async_fn ft self Collection.get_fn inj [key] kwargs w = (Ok (), w')
          ∧ state_of w' ft = Some (FINISHED (Raise (too_many_projections (length l))))
          ∧ native_calls w' = native_calls w.
Proof.
  intros Hproject Hlen Hft.
  assert (Hget : Collection.get (nodes w) self [key] kwargs
                 = Raise (too_many_projections (length l))).
  { unfold Collection.get, map_get. rewrite Hproject.
    by rewrite bool_decide_eq_true_2. }
  split; [exact Hget |].
  apply state_of_Some in Hft as (f & Hf & Hp).
  exists (finished w ft f (FINISHED (Raise (too_many_projections (length l))))).
  split; [| split].
  - unfold call_async_fn.
    change (fn_call Collection.get_fn) with Collection.get. rewrite Hget.
    by apply set_exception_pending.
  - by apply state_of_finished.
  - reflexivity.
Qed.

End Bridge.

(** *** Concrete runs *)

Import Samples.
#[local] Existing Instances sample_exceptions sample_logic.

Definition get_kwargs : gmap string pyval :=
  <[ "transcoder" := transcoder ]> (<[ "project" := VList seventeen ]> ∅).

(** C8, counterexample. A get with seventeen projections through the
    decoding wrapper on a connected collection returns a future; the
    validation error is held by that future and is not raised at the call
    site. *)
Lemma validation_counterexample :
  Collection.get (nodes connected) 3 [VStr "k"] (delete "transcoder" get_kwargs)
    = Raise (too_many_projections 17)
  ∧ ∃ w', inject_callbacks_and_decode (RClass "GetResult") Collection.get_fn 3
            [VStr "k"] get_kwargs connected = (Ok 0%nat, w')
          ∧ state_of w' 0 = Some (FINISHED (Raise (too_many_projections 17)))
          ∧ native_calls w' = [].
Proof.
  split; [by vm_compute |].
  eexists. split; [by vm_compute |]. split; by vm_compute.
Qed.

(** A cluster-level logic function. *)
Definition ping_fn : logic_fn :=
  {| fn__name__ := "ping";
     fn_call := fun _ _ _ kwargs => Ok ("diagnostics_operation", kwargs) |}.

Lemma missing_connection_witness :
  (∃ w', inject_cluster_callbacks RTrue false false ping_fn 0 [] ∅ disconnected
           = (Ok 0%nat, w')
         ∧ state_of w' 0 = Some (FINISHED (Raise not_connected_error))
         ∧ native_calls w' = [])
  ∧ (∃ w', mgmt_inject_callbacks RTrue (Some 0%nat) None ping_fn 0 [] ∅ disconnected
             = (Ok 0%nat, w')
           ∧ state_of w' 0 = Some (FINISHED (Raise mgmt_not_connected_error))
           ∧ native_calls w' = []).
Proof.
  destruct (missing_connection disconnected RTrue false (Some 0%nat) None ping_fn 0 [] ∅
              (mk_node "cluster" "" VNone None false VNone None) eq_refl eq_refl)
    as (Hcluster & Hmgmt & _).
  split; [exact Hcluster | exact Hmgmt].
Defined.

(** The collection's operation future 0 waiting on the bucket's connect
    future 1, which has failed, has been cancelled, or has succeeded. *)
Definition connect_error : pyexc := exc (SDKException "UnAmbiguousTimeoutException") "timeout".

Definition waiting_on (connect : fut_state) : world :=
  mk_world (nodes connected) [mk_future PENDING []; mk_future connect []] [] [] [].

Definition get_injected : injected := mk_injected WOp 3 0 (RClass "GetResult").

Lemma chained_connect_outcome_witness :
  (∃ w', chain_futures 0 3 Collection.get_fn get_injected true [VStr "k"] ∅ 1
           (waiting_on (FINISHED (Raise connect_error))) = (Ok (), w')
         ∧ state_of w' 0 = Some (FINISHED (Raise connect_error))
         ∧ native_calls w' = [])
  ∧ (∃ w', chain_futures 0 3 Collection.get_fn get_injected true [VStr "k"] ∅ 1
             (waiting_on CANCELLED) = (Ok (), w')
           ∧ state_of w' 0 = Some CANCELLED
           ∧ native_calls w' = []).
Proof.
  split.
  - destruct (chained_connect_outcome (waiting_on (FINISHED (Raise connect_error)))
                0 3 Collection.get_fn get_injected true [VStr "k"] ∅ 1 eq_refl)
      as (Hfail & _).
    destruct (Hfail connect_error eq_refl) as (w' & Hrun & _ & Hstate & Hcalls).
    exists w'. split; [exact Hrun |]. split; [exact Hstate | exact Hcalls].
  - destruct (chained_connect_outcome (waiting_on CANCELLED)
                0 3 Collection.get_fn get_injected true [VStr "k"] ∅ 1 eq_refl)
      as (_ & Hcancel & _).
    destruct (Hcancel eq_refl) as (w' & Hrun & _ & Hstate & Hcalls).
    exists w'. split; [exact Hrun |]. split; [exact Hstate | exact Hcalls].
Defined.

(** One operation in flight on a connected collection. *)
Definition in_flight : world :=
  mk_world (nodes connected) [mk_future PENDING []] [] [] [].

Definition first_result : pyval := VDict [("cas", VInt 42)].
Definition late_error : pyval := VNativeError 101 "document not found" VNone.

Lemma resolved_exactly_once_witness :
  ∃ w1 w2,
    invoke get_injected (InvokeOk first_result) in_flight = (Ok (), w1)
    ∧ invoke get_injected (InvokeErr late_error) (run 1 w1) = (Ok (), w2)
    ∧ state_of (run 1 w1) 0 = Some (FINISHED (Ok (VInstance "GetResult" first_result)))
    ∧ (∀ n, state_of (run n w2) 0
            = Some (FINISHED (Ok (VInstance "GetResult" first_result)))).
Proof.
  destruct (resolved_exactly_once in_flight get_injected
              (InvokeOk first_result) (InvokeErr late_error) 1 eq_refl eq_refl)
    as (_ & Hop).
  destruct (Hop eq_refl) as (w1 & w2 & H1 & H2 & Hfinal).
  exists w1, w2. split; [exact H1 |]. split; [exact H2 |].
  split; [injection H1 as <-; reflexivity |].
  intros n. apply Hfinal. lia.
Defined.

(** A second invocation that arrives after the future has been resolved,
    evaluated: the invocation returns and leaves the future alone, and its
    handle gives the loop's exception handler one [InvalidStateError]. *)
Example late_invocation_run :
  let w1 := run 1 (snd (invoke get_injected (InvokeOk first_result) in_flight)) in
  let '(r, w2) := invoke get_injected (InvokeErr late_error) w1 in
  r = Ok ()
  ∧ futures w2 = futures w1
  ∧ state_of (run 1 w2) 0 = Some (FINISHED (Ok (VInstance "GetResult" first_result)))
  ∧ exception_handler_calls (run 1 w2) = [invalid_state]
  ∧ ready (run 1 w2) = [].
Proof. by vm_compute. Qed.

(** Both invocations before the loop runs, evaluated: the loop's exception
    handler receives one [InvalidStateError] and the future keeps the first
    result. *)
Example double_invocation_run :
  let w1 := snd (invoke get_injected (InvokeOk first_result) in_flight) in
  let w2 := run 2 (snd (invoke get_injected (InvokeErr late_error) w1)) in
  state_of w2 0 = Some (FINISHED (Ok (VInstance "GetResult" first_result)))
  ∧ exception_handler_calls w2 = [invalid_state]
  ∧ ready w2 = [].
Proof. by vm_compute. Qed.

Lemma decode_wrapper_raises_witness :
  ∃ e w', inject_callbacks_and_decode (RClass "GetResult") Collection.get_fn 3
            [VStr "k"] (<[ "transcoder" := transcoder ]> ∅) disconnected = (Raise e, w').
Proof.
  apply (decode_wrapper_raises disconnected (RClass "GetResult") Collection.get_fn 3
           [VStr "k"] (<[ "transcoder" := transcoder ]> ∅)
           (mk_node "airline" "travel-sample" VNone (Some 2%nat) false VNone None)
           transcoder);
    reflexivity.
Defined.

(** The same call evaluated: the attribute error, after the bucket connect
    has been started. *)
Example decode_wrapper_on_disconnected :
  let '(r, w') := inject_callbacks_and_decode (RClass "GetResult") Collection.get_fn 3
                    [VStr "k"] (<[ "transcoder" := transcoder ]> ∅) disconnected in
  r = Raise missing_attribute
  ∧ map nc_function (native_calls w') = ["create_connection"]
  ∧ state_of w' 0 = Some PENDING.
Proof. by vm_compute. Qed.

Lemma validation_reaches_future_witness :
  Collection.get (nodes in_flight) 3 [VStr "k"] (<[ "project" := VList seventeen ]> ∅)
    = Raise (too_many_projections 17)
  ∧ ∃ w', call_async_fn 0 3 Collection.get_fn get_injected [VStr "k"]
            (<[ "project" := VList seventeen ]> ∅) in_flight = (Ok (), w')
          ∧ state_of w' 0 = Some (FINISHED (Raise (too_many_projections 17)))
          ∧ native_calls w' = native_calls in_flight.
Proof.
  apply (validation_reaches_future in_flight 0 3 (VStr "k")
           (<[ "project" := VList seventeen ]> ∅) seventeen get_injected).
  - reflexivity.
  - vm_compute. lia.
  - reflexivity.
Defined.

(** The engine completes its [k]-th call. *)
Definition complete (k : nat) (i : invocation) (w : world) : world :=
  match native_calls w !! k with
  | Some c => snd (invoke (nc_callbacks c) i w)
  | None => w
  end.

(** An operation through [inject_callbacks] on a collection that was never
    connected: one connect, one bucket open, then the operation, and a
    result on the future returned at the start. *)
Example operation_on_disconnected_collection :
  let '(r, w0) := inject_callbacks (RClass "GetResult") Collection.get_fn 3
                    [VStr "k"] ∅ disconnected in
  let w1 := run 2 (complete 0 (InvokeOk conn) w0) in
  let w2 := run 2 (complete 1 (InvokeOk VNone) w1) in
  let w3 := run 1 (complete 2 (InvokeOk first_result) w2) in
  r = Ok 0%nat
  ∧ map nc_function (native_calls w0) = ["create_connection"]
  ∧ map nc_function (native_calls w3)
    = ["create_connection"; "open_or_close_bucket"; "kv_operation"]
  ∧ state_of w3 0 = Some (FINISHED (Ok (VInstance "GetResult" first_result)))
  ∧ exception_handler_calls w3 = [].
Proof. by vm_compute. Qed.

End BridgeProps.

(** ** Properties of the query options *)

Module OptionProps.
Import N1QL N1QLRest N1QLProps.

Lemma map_get_insert_ne (m : gmap string pyval) (k k' : string) (v d : pyval) :
  k ≠ k' → map_get (<[ k := v ]> m) k' d = map_get m k' d.
Proof. intros Hne. unfold map_get. by rewrite lookup_insert_ne. Qed.

(** X1. On a query without a mutation state, setting [consistency] to
    NOT_BOUNDED or REQUEST_PLUS, as a member or as its string value, stores
    the string value as the [scan_consistency] option, and the property then
    reads as the member that was set. *)
Theorem consistency_round_trip (q : N1QLQuery) (c : QueryScanConsistency) (value : pyval) :
  c ≠ AT_PLUS →
  _params q !! "mutation_state" = None →
  value = VScanConsistency c ∨ value = VStr (QueryScanConsistency_value c) →
  ∃ q', consistency_set q value = Ok q'
        ∧ _params q' = <[ "scan_consistency" := VStr (QueryScanConsistency_value c) ]> (_params q)
        ∧ consistency_get q' = VScanConsistency c.
Proof.
  intros Hc Hms Hv. apply has_param_false in Hms.
  exists (set_option q "scan_consistency" (VStr (QueryScanConsistency_value c))).
  assert (Hget : consistency_get
                   (set_option q "scan_consistency" (VStr (QueryScanConsistency_value c)))
                 = VScanConsistency c).
  { unfold consistency_get, set_option; simpl. rewrite map_get_insert.
    destruct c; try done. }
  split; [| split; [reflexivity | exact Hget]].
  unfold consistency_set. rewrite Hms. simpl.
  destruct Hv as [-> | ->]; destruct c; done.
Qed.

Lemma consistency_round_trip_witness :
  ∃ q', consistency_set (N1QLQuery__init__ "SELECT 1") (VStr "request_plus") = Ok q'
        ∧ _params q' = <[ "scan_consistency" := VStr "request_plus" ]>
                         (_params (N1QLQuery__init__ "SELECT 1"))
        ∧ consistency_get q' = VScanConsistency REQUEST_PLUS.
Proof.
  apply (consistency_round_trip (N1QLQuery__init__ "SELECT 1") REQUEST_PLUS
           (VStr "request_plus")).
  - discriminate.
  - reflexivity.
  - right; reflexivity.
Defined.

(** X2. On a query without a mutation state, a [consistency] value that
    is neither a member of [QueryScanConsistency] nor the string value of one
    is rejected with [InvalidArgumentException]. *)
Theorem consistency_rejects (q : N1QLQuery) (value : pyval) :
  _params q !! "mutation_state" = None →
  (∀ c, value ≠ VScanConsistency c) →
  (∀ c, value ≠ VStr (QueryScanConsistency_value c)) →
  consistency_set q value = Raise consistency_type_error.
Proof.
  intros Hms Henum Hstr. apply has_param_false in Hms.
  unfold consistency_set. rewrite Hms. simpl.
  destruct value as [| b | n | x | s | us | c | m | l | d | sv | e se ctx | cls pl];
    try reflexivity.
  - assert (is_consistency_value s = false) as ->; [| reflexivity].
    unfold is_consistency_value. simpl.
    destruct (String.eqb_spec s "not_bounded") as [-> | _]; [by destruct (Hstr NOT_BOUNDED) |].
    destruct (String.eqb_spec s "request_plus") as [-> | _]; [by destruct (Hstr REQUEST_PLUS) |].
    destruct (String.eqb_spec s "at_plus") as [-> | _]; [by destruct (Hstr AT_PLUS) |].
    reflexivity.
  - by destruct (Henum c).
Qed.

Lemma consistency_rejects_witness :
  consistency_set (N1QLQuery__init__ "SELECT 1") (VStr "REQUEST_PLUS")
  = Raise consistency_type_error.
Proof.
  apply consistency_rejects.
  - reflexivity.
  - discriminate.
  - intros []; discriminate.
Defined.

Definition other_consistency_error : pyexc :=
  exc TypeError "consistent_with not valid with other consistency options".
Definition empty_state_error : pyexc := exc TypeError "Passed empty or invalid state".

Lemma is_not_bounded_true v : is_not_bounded v = true ↔ v = VScanConsistency NOT_BOUNDED.
Proof.
  split; [| by intros ->].
  destruct v as [| b | n | x | s | us | c | m | l | d | sv | e se ctx | cls pl]; try done.
  by destruct c.
Qed.

(** X3. On a query whose consistency reads NOT_BOUNDED, setting
    [consistent_with] to a mutation state with at least one token stores the
    tokens as [mutation_state] and removes [scan_consistency]; [consistency]
    then reads AT_PLUS, [consistent_with] reports it with the tokens, and
    every further assignment to [consistent_with] is a [TypeError]. *)
Theorem consistent_with_effect (q : N1QLQuery) (tok : pyval) (sv : list pyval) :
  consistency_get q = VScanConsistency NOT_BOUNDED →
  ∃ q', consistent_with_set q (VMutationState (tok :: sv)) = Ok q'
        ∧ _params q' !! "mutation_state" = Some (VList (tok :: sv))
        ∧ _params q' !! "scan_consistency" = None
        ∧ consistency_get q' = VScanConsistency AT_PLUS
        ∧ consistent_with_get q'
          = VDict [("consistency", VScanConsistency AT_PLUS);
                   ("scan_vectors", VList (tok :: sv))]
        ∧ ∀ value, consistent_with_set q' value = Raise other_consistency_error.
Proof.
  intros Hnb.
  set (q' := set_option (params_pop q "scan_consistency") "mutation_state" (VList (tok :: sv))).
  assert (Hms : _params q' !! "mutation_state" = Some (VList (tok :: sv)))
    by apply lookup_insert_eq.
  assert (Hsc : _params q' !! "scan_consistency" = None).
  { unfold q', set_option, params_pop; simpl.
    rewrite lookup_insert_ne by done. apply lookup_delete_eq. }
  assert (Hget : consistency_get q' = VScanConsistency AT_PLUS).
  { unfold consistency_get, map_get. rewrite Hsc. simpl.
    assert (has_param q' "mutation_state" = true) as ->; [| done].
    apply has_param_true. by rewrite Hms. }
  exists q'. split; [| split; [done | split; [done | split; [done | split]]]].
  - unfold consistent_with_set. by rewrite Hnb.
  - unfold consistent_with_get, map_get. by rewrite Hget, Hms.
  - intros value. unfold consistent_with_set. by rewrite Hget.
Qed.

Lemma consistent_with_effect_witness :
  ∃ q', consistent_with_set (N1QLQuery__init__ "SELECT 1")
          (VMutationState [VStr "token"]) = Ok q'
        ∧ consistency_get q' = VScanConsistency AT_PLUS
        ∧ consistent_with_set q' (VMutationState [VStr "newer"])
          = Raise other_consistency_error.
Proof.
  destruct (consistent_with_effect (N1QLQuery__init__ "SELECT 1") (VStr "token") [] eq_refl)
    as (q' & Hset & _ & _ & Hget & _ & Hagain).
  exists q'. split; [exact Hset |]. split; [exact Hget | apply Hagain].
Defined.

(** X4. The [consistent_with] setter raises [TypeError]: whatever the
    value when the consistency does not read NOT_BOUNDED, and when it does
    for every value that is not a mutation state with at least one token. *)
Theorem consistent_with_rejects (q : N1QLQuery) (value : pyval) :
  (consistency_get q ≠ VScanConsistency NOT_BOUNDED →
     consistent_with_set q value = Raise other_consistency_error)
  ∧ (consistency_get q = VScanConsistency NOT_BOUNDED →
     (∀ tok sv, value ≠ VMutationState (tok :: sv)) →
     consistent_with_set q value = Raise empty_state_error).
Proof.
  split.
  - intros Hne. unfold consistent_with_set.
    destruct (is_not_bounded (consistency_get q)) eqn:Hnb; [| done].
    by apply is_not_bounded_true in Hnb.
  - intros Hnb Hv. unfold consistent_with_set. rewrite Hnb. simpl.
    destruct value as [| b | n | x | s | us | c | m | l | d | sv | e se ctx | cls pl];
      try reflexivity.
    destruct sv as [| tok sv]; [reflexivity | by destruct (Hv tok sv)].
Qed.

Lemma consistent_with_rejects_witness :
  (∃ q, consistency_set (N1QLQuery__init__ "SELECT 1") (VScanConsistency REQUEST_PLUS) = Ok q
        ∧ consistent_with_set q (VMutationState [VStr "token"])
          = Raise other_consistency_error)
  ∧ consistent_with_set (N1QLQuery__init__ "SELECT 1") (VMutationState [])
    = Raise empty_state_error.
Proof.
  split.
  - eexists. split; [reflexivity |].
    match goal with
    | |- consistent_with_set ?q ?v = _ => apply (consistent_with_rejects q v)
    end.
    discriminate.
  - apply (consistent_with_rejects (N1QLQuery__init__ "SELECT 1") (VMutationState [])).
    + reflexivity.
    + discriminate.
Defined.

Definition timeout_type_error : pyexc :=
  exc InvalidArgumentException "Excepted timeout to be a timedelta | float".

(** X5. Assigning a false value ([None], zero, an empty [timedelta]) to
    [timeout] removes the option and touches no other, and the property then
    reads [None]. *)
Theorem timeout_cleared `{PyBuiltins} (q : N1QLQuery) (value : pyval) :
  truthy value = false →
  ∃ q', timeout_set q value = Ok q'
        ∧ _params q' !! "timeout" = None
        ∧ (∀ k, k ≠ "timeout" → _params q' !! k = _params q !! k)
        ∧ timeout_get q' = Ok VNone.
Proof.
  intros Hv. exists (params_pop q "timeout").
  assert (Hnone : _params (params_pop q "timeout") !! "timeout" = None)
    by apply lookup_delete_eq.
  split; [| split; [done | split]].
  - unfold timeout_set. by rewrite Hv.
  - intros k Hk. simpl. by rewrite lookup_delete_ne.
  - unfold timeout_get, map_get. by rewrite Hnone.
Qed.

Lemma timeout_cleared_witness :
  ∃ q', timeout_set (set_option (N1QLQuery__init__ "SELECT 1") "timeout" (VStr "75s"))
          (VTimedelta 0) = Ok q'
        ∧ _params q' !! "timeout" = None
        ∧ @timeout_get Samples.sample_builtins q' = Ok VNone.
Proof.
  destruct (@timeout_cleared Samples.sample_builtins
              (set_option (N1QLQuery__init__ "SELECT 1") "timeout" (VStr "75s"))
              (VTimedelta 0) eq_refl) as (q' & Hset & Hnone & _ & Hget).
  exists q'. split; [exact Hset |]. split; [exact Hnone | exact Hget].
Defined.

(** X6. A true [timeout] value that is neither a [timedelta] nor a float,
    an int for one, is rejected with [InvalidArgumentException]. *)
Theorem timeout_rejects (q : N1QLQuery) (value : pyval) :
  truthy value = true →
  (∀ us, value ≠ VTimedelta us) →
  (∀ x, value ≠ VFloat x) →
  timeout_set q value = Raise timeout_type_error.
Proof.
  intros Hv Htd Hfl. unfold timeout_set. rewrite Hv. simpl.
  destruct value as [| b | n | x | s | us | c | m | l | d | sv | e se ctx | cls pl];
    try reflexivity.
  - by destruct (Hfl x).
  - by destruct (Htd us).
Qed.

Lemma timeout_rejects_witness :
  timeout_set (N1QLQuery__init__ "SELECT 1") (VInt 75) = Raise timeout_type_error.
Proof. apply timeout_rejects; [reflexivity | discriminate | discriminate]. Defined.

Definition scan_wait_type_error : pyexc :=
  exc InvalidArgumentException "Excepted scan_wait to be a timedelta".

(** X7. [scan_wait] set to a non-zero [timedelta] stores the seconds as a
    float, and reading the property then raises [TypeError], the getter
    slicing what it finds; a non-zero float is rejected by the setter. *)
Theorem scan_wait_set_get `{PyBuiltins} (q : N1QLQuery) :
  (∀ us, us ≠ 0%Z →
     ∃ q', scan_wait_set q (VTimedelta us) = Ok q'
           ∧ _params q' !! "scan_wait" = Some (VFloat (total_seconds us))
           ∧ scan_wait_get q' = Raise (exc TypeError "'float' object is not subscriptable"))
  ∧ (∀ x, truthy (VFloat x) = true → scan_wait_set q (VFloat x) = Raise scan_wait_type_error).
Proof.
  split.
  - intros us Hus.
    exists (set_option q "scan_wait" (VFloat (total_seconds us))).
    split; [| split].
    + unfold scan_wait_set. by rewrite truthy_timedelta.
    + apply lookup_insert_eq.
    + unfold scan_wait_get, set_option; simpl.
      rewrite map_get_insert, truthy_total_seconds by done. reflexivity.
  - intros x Hx. unfold scan_wait_set. by rewrite Hx.
Qed.

Lemma scan_wait_set_get_witness :
  (∃ q', scan_wait_set (N1QLQuery__init__ "SELECT 1") (VTimedelta 2500000) = Ok q'
         ∧ @scan_wait_get Samples.sample_builtins q'
           = Raise (exc TypeError "'float' object is not subscriptable"))
  ∧ scan_wait_set (N1QLQuery__init__ "SELECT 1") (VFloat (Qmake 5 2))
    = Raise scan_wait_type_error.
Proof.
  destruct (@scan_wait_set_get Samples.sample_builtins (N1QLQuery__init__ "SELECT 1"))
    as (Htd & Hfl).
  split.
  - destruct (Htd 2500000%Z) as (q' & Hset & _ & Hget); [lia |].
    exists q'. split; [exact Hset | exact Hget].
  - apply Hfl. reflexivity.
Defined.

End OptionProps.

(** ** Facts about dicts as association lists *)

Module DictFacts.
Import Wrappers.

Lemma assoc_get_set_eq d k v default : assoc_get (assoc_set d k v) k default = v.
Proof.
  induction d as [| [k0 v0] d IH]; simpl.
  - by rewrite String.eqb_refl.
  - destruct (String.eqb_spec k0 k) as [-> | Hk0]; simpl.
    + by rewrite String.eqb_refl.
    + by destruct (String.eqb_spec k0 k).
Qed.

Lemma assoc_get_set_ne d k k' v default :
  k ≠ k' → assoc_get (assoc_set d k v) k' default = assoc_get d k' default.
Proof.
  intros Hne. induction d as [| [k0 v0] d IH]; simpl.
  - by destruct (String.eqb_spec k k').
  - destruct (String.eqb_spec k0 k) as [-> | Hk0]; simpl.
    + destruct (String.eqb_spec k k'); [done |].
      by destruct (String.eqb_spec k k').
    + destruct (String.eqb_spec k0 k'); [done | exact IH].
Qed.

Lemma assoc_get_absent d k default :
  ¬ In k (map fst d) → assoc_get d k default = default.
Proof.
  induction d as [| [k0 v0] d IH]; simpl; [done |].
  intros Hk. destruct (String.eqb_spec k0 k) as [-> | _]; [| apply IH]; tauto.
Qed.

Lemma assoc_set_keys d k v x :
  In x (map fst (assoc_set d k v)) → x = k ∨ In x (map fst d).
Proof.
  induction d as [| [k0 v0] d IH]; simpl.
  - intros [<- | []]. by left.
  - destruct (String.eqb_spec k0 k) as [-> | _]; simpl.
    + intros [<- | Hx]; [by left | right; by right].
    + intros [<- | Hx]; [right; by left |].
      destruct (IH Hx) as [-> | Hd]; [by left | right; by right].
Qed.

Lemma assoc_set_NoDup d k v :
  NoDup (map fst d) → NoDup (map fst (assoc_set d k v)).
Proof.
  induction d as [| [k0 v0] d IH]; simpl.
  - intros _. apply NoDup_cons_2; [apply not_elem_of_nil | apply NoDup_nil_2].
  - intros Hd. apply NoDup_cons in Hd as [Hk0 Hd].
    destruct (String.eqb_spec k0 k) as [-> | Hne]; simpl.
    + by apply NoDup_cons_2.
    + apply NoDup_cons_2; [| by apply IH].
      intros Hin. apply list_elem_of_In in Hin.
      destruct (assoc_set_keys d k v k0 Hin) as [-> | Hin']; [done |].
      apply Hk0. by apply list_elem_of_In.
Qed.

End DictFacts.

(** ** Properties of query parameters, metadata and submission *)

Module ParameterProps.
Import N1QL N1QLRest Wrappers DictFacts.
Local Open Scope list_scope.

Section Parameters.
Context `{JsonModule}.

Lemma dumps_all_app a1 a2 j1 j2 :
  dumps_all a1 = Ok j1 → dumps_all a2 = Ok j2 → dumps_all (a1 ++ a2) = Ok (j1 ++ j2).
Proof.
  revert j1. induction a1 as [| a a1 IH]; intros j1 H1 H2; simpl in *.
  - by injection H1 as <-.
  - destruct (json_dumps a) as [s |]; [| done]. simpl in *.
    destruct (dumps_all a1) as [r |] eqn:Hr; [| done]. simpl in *.
    injection H1 as <-. by rewrite (IH r eq_refl H2).
Qed.

Lemma set_option_twice q k v1 v2 :
  set_option (set_option q k v1) k v2 = set_option q k v2.
Proof. unfold set_option; simpl. by rewrite insert_insert_eq. Qed.

Lemma _add_pos_args_stored q args l json_args :
  _params q !! "positional_parameters" = Some (VList l) →
  dumps_all args = Ok json_args →
  _add_pos_args args q
  = (Ok (), set_option q "positional_parameters" (VList (l ++ json_args))).
Proof.
  intros Hl Hd. unfold _add_pos_args, map_get. rewrite Hl. simpl. by rewrite Hl, Hd.
Qed.

(** X8. Positional arguments accumulate: on a query without any,
    adding [args1] and then [args2] leaves the encodings of [args1] followed
    by those of [args2], the same as adding them in one call. *)
Theorem positional_arguments_accumulate (q : N1QLQuery) (args1 args2 json1 json2 : list pyval) :
  _params q !! "positional_parameters" = None →
  dumps_all args1 = Ok json1 →
  dumps_all args2 = Ok json2 →
  ∃ q1 q2,
    _add_pos_args args1 q = (Ok (), q1)
    ∧ _add_pos_args args2 q1 = (Ok (), q2)
    ∧ _params q2 !! "positional_parameters" = Some (VList (json1 ++ json2))
    ∧ _add_pos_args (args1 ++ args2) q = (Ok (), q2).
Proof.
  intros Hnone H1 H2.
  set (q0 := set_option q "positional_parameters" (VList [])).
  assert (H0 : _params q0 !! "positional_parameters" = Some (VList []))
    by apply lookup_insert_eq.
  assert (Hfirst : ∀ args json, dumps_all args = Ok json →
            _add_pos_args args q
            = (Ok (), set_option q "positional_parameters" (VList json))).
  { intros args json Hd. unfold _add_pos_args. rewrite Hnone. fold q0.
    unfold map_get. rewrite H0, Hd. simpl. unfold q0. by rewrite set_option_twice. }
  exists (set_option q "positional_parameters" (VList json1)),
         (set_option q "positional_parameters" (VList (json1 ++ json2))).
  split; [by apply Hfirst |]. split; [| split].
  - rewrite (_add_pos_args_stored _ args2 json1 json2); [| apply lookup_insert_eq | done].
    by rewrite set_option_twice.
  - apply lookup_insert_eq.
  - apply Hfirst. by apply dumps_all_app.
Qed.

Lemma dumps_all_raises args a e :
  In a args → json_dumps a = Raise e → ∃ e', dumps_all args = Raise e'.
Proof.
  intros Hin Ha. induction args as [| b args IH]; [done |]. simpl.
  destruct Hin as [-> | Hin].
  - rewrite Ha. by exists e.
  - destruct (json_dumps b) as [s | e0]; [| by exists e0]. simpl.
    destruct (IH Hin) as (e' & ->). by exists e'.
Qed.

Lemma named_params_raises kv acc k v e :
  In (k, v) kv → json_dumps v = Raise e → ∃ e', named_params kv acc = Raise e'.
Proof.
  intros Hin Hv. revert acc. induction kv as [| [k0 v0] kv IH]; intros acc; [done |].
  simpl. destruct Hin as [[= -> ->] | Hin].
  - rewrite Hv. by exists e.
  - destruct (json_dumps v0) as [s | e0]; [| by exists e0]. simpl. by apply IH.
Qed.

(** X9. When one positional argument cannot be encoded,
    [_add_pos_args] raises and appends nothing, but a query that had no
    [positional_parameters] keeps the empty list that was created before the
    encoding; no other option changes. *)
Theorem unencodable_positional_argument (q : N1QLQuery) (args : list pyval) (a : pyval)
    (e : pyexc) :
  In a args →
  json_dumps a = Raise e →
  ∃ e' q', _add_pos_args args q = (Raise e', q')
           ∧ _params q' !! "positional_parameters"
             = Some (default (VList []) (_params q !! "positional_parameters"))
           ∧ (∀ k, k ≠ "positional_parameters" → _params q' !! k = _params q !! k).
Proof.
  intros Hin Ha. destruct (dumps_all_raises args a e Hin Ha) as (e' & Hd).
  exists e'. unfold _add_pos_args. rewrite Hd.
  destruct (_params q !! "positional_parameters") as [l |] eqn:Hl.
  - exists q. by rewrite Hl.
  - exists (set_option q "positional_parameters" (VList [])). split; [done |]. split.
    + apply lookup_insert_eq.
    + intros k Hk. simpl. by rewrite lookup_insert_ne.
Qed.

(** X10. When the value of one named argument cannot be encoded,
    [_set_named_args] raises and leaves the query as it was: the encoding
    comes before [named_parameters] is created. *)
Theorem unencodable_named_argument (q : N1QLQuery) (kv : list (string * pyval))
    (k : string) (v : pyval) (e : pyexc) :
  In (k, v) kv →
  json_dumps v = Raise e →
  ∃ e', _set_named_args kv q = (Raise e', q).
Proof.
  intros Hin Hv. destruct (named_params_raises kv [] k v e Hin Hv) as (e' & Hn).
  exists e'. unfold _set_named_args. by rewrite Hn.
Qed.

(** Every entry of the dict built by [_set_named_args] comes from one of the
    keyword arguments. *)
Definition from_keywords (kv : list (string * pyval)) (entry : string * pyval) : Prop :=
  ∃ k v s, In (k, v) kv ∧ json_dumps v = Ok s ∧ entry = ("$" ++ k, VStr s)%string.

Lemma assoc_set_Forall (P : string * pyval → Prop) d k v :
  Forall P d → P (k, v) → Forall P (Wrappers.assoc_set d k v).
Proof.
  intros Hd Hkv. induction d as [| [k' v'] d IH]; simpl.
  - by constructor.
  - inversion Hd as [| ? ? Hhead Htail]; subst.
    destruct (String.eqb k' k); constructor; auto.
Qed.

Lemma named_params_from_keywords kv0 kv acc named :
  (∀ entry, In entry kv → In entry kv0) →
  Forall (from_keywords kv0) acc →
  named_params kv acc = Ok named →
  Forall (from_keywords kv0) named.
Proof.
  revert acc. induction kv as [| [k v] kv IH]; intros acc Hsub Hacc Hnamed; simpl in *.
  - by injection Hnamed as <-.
  - destruct (json_dumps v) as [s |] eqn:Hs; [| done]. simpl in Hnamed.
    apply (IH (Wrappers.assoc_set acc ("$" ++ k)%string (VStr s))); [| | done].
    + intros entry Hin. apply Hsub. by right.
    + apply assoc_set_Forall; [done |].
      exists k, v, s. split; [apply Hsub; by left | done].
Qed.

Lemma dict_update_Forall (P : string * pyval → Prop) d named :
  Forall P d → Forall P named → Forall P (dict_update d named).
Proof.
  unfold dict_update. revert d.
  induction named as [| [k v] named IH]; intros d Hd Hn; simpl; [done |].
  inversion Hn as [| ? ? Hhead Htail]; subst.
  apply IH; [| done]. by apply assoc_set_Forall.
Qed.

Lemma named_params_NoDup kv acc named :
  NoDup (map fst acc) → named_params kv acc = Ok named → NoDup (map fst named).
Proof.
  revert acc. induction kv as [| [k v] kv IH]; intros acc Hacc Hnamed; simpl in *.
  - by injection Hnamed as <-.
  - destruct (json_dumps v) as [s |]; [| done]. simpl in Hnamed.
    apply (IH _ (assoc_set_NoDup acc ("$" ++ k)%string (VStr s) Hacc) Hnamed).
Qed.

Lemma named_params_other kv acc named key default :
  (∀ k v, In (k, v) kv → key ≠ ("$" ++ k)%string) →
  named_params kv acc = Ok named →
  assoc_get named key default = assoc_get acc key default.
Proof.
  revert acc. induction kv as [| [k v] kv IH]; intros acc Hkey Hnamed; simpl in *.
  - by injection Hnamed as <-.
  - destruct (json_dumps v) as [s |]; [| done]. simpl in Hnamed.
    rewrite (IH _ (fun k' v' Hin => Hkey k' v' (or_intror Hin)) Hnamed).
    apply assoc_get_set_ne. intros Heq. by apply (Hkey k v (or_introl eq_refl)).
Qed.

Lemma named_params_stored kv acc named k v :
  NoDup (map fst kv) →
  named_params kv acc = Ok named →
  In (k, v) kv →
  ∃ s, json_dumps v = Ok s ∧ assoc_get named ("$" ++ k)%string VNone = VStr s.
Proof.
  revert acc. induction kv as [| [k0 v0] kv IH]; intros acc Hnodup Hnamed Hin; [done |].
  simpl in *. apply NoDup_cons in Hnodup as [Hk0 Hnodup].
  destruct (json_dumps v0) as [s0 |] eqn:Hs0; [| done]. simpl in Hnamed.
  destruct Hin as [[= -> ->] | Hin].
  - exists s0. split; [done |].
    rewrite (named_params_other kv (assoc_set acc ("$" ++ k)%string (VStr s0)) named
               ("$" ++ k)%string VNone); [| | done].
    + apply assoc_get_set_eq.
    + intros k' v' Hin' Heq.
      assert (Hkk : k = k') by (cbv [String.append] in Heq; congruence).
      apply Hk0. rewrite Hkk.
      apply list_elem_of_In. apply (in_map fst _ _ Hin').
  - by apply (IH _ Hnodup Hnamed Hin).
Qed.

Lemma dict_update_get d named key default :
  NoDup (map fst named) →
  assoc_get (dict_update d named) key default
  = assoc_get named key (assoc_get d key default).
Proof.
  unfold dict_update. revert d.
  induction named as [| [k v] named IH]; intros d Hnodup; simpl; [done |].
  apply NoDup_cons in Hnodup as [Hk Hnodup].
  rewrite (IH _ Hnodup).
  destruct (String.eqb_spec k key) as [-> | Hne].
  - rewrite assoc_get_set_eq. apply assoc_get_absent.
    intros Hin. apply Hk. by apply list_elem_of_In.
  - by rewrite assoc_get_set_ne.
Qed.

(** X11. On a query without named parameters, a [_set_named_args] that
    returns has stored a dict under [named_parameters] in which every
    keyword is found, with a dollar sign in front, holding the encoding of
    that keyword's value; the dict has no other entries, and no other option
    changes.  The keywords of a call are distinct. *)
Theorem named_arguments_prefixed (q : N1QLQuery) (kv : list (string * pyval)) (q' : N1QLQuery) :
  _params q !! "named_parameters" = None →
  NoDup (map fst kv) →
  _set_named_args kv q = (Ok (), q') →
  ∃ d, _params q' !! "named_parameters" = Some (VDict d)
       ∧ (∀ k v, In (k, v) kv →
            ∃ s, json_dumps v = Ok s ∧ assoc_get d ("$" ++ k)%string VNone = VStr s)
       ∧ Forall (from_keywords kv) d
       ∧ (∀ k, k ≠ "named_parameters" → _params q' !! k = _params q !! k).
Proof.
  intros Hnone Hnodup. unfold _set_named_args.
  destruct (named_params kv []) as [named |] eqn:Hnamed; [| done].
  rewrite Hnone. unfold map_get, set_option; simpl.
  rewrite lookup_insert_eq. intros [= <-].
  exists (dict_update [] named). split; [apply lookup_insert_eq |]. split; [| split].
  - intros k v Hin.
    destruct (named_params_stored kv [] named k v Hnodup Hnamed Hin) as (s & Hs & Hget).
    exists s. split; [done |].
    rewrite dict_update_get; [| by apply (named_params_NoDup kv []); [apply NoDup_nil_2 |]].
    exact Hget.
  - apply dict_update_Forall; [constructor |].
    by apply (named_params_from_keywords kv kv []).
  - intros k Hk. simpl. by rewrite !lookup_insert_ne.
Qed.

End Parameters.

Section Metadata.
Context `{ExceptionsModule}.

Definition no_get : pyexc := exc AttributeError "object has no attribute 'get'".

(** X12. A final response without an exception whose value is absent,
    or holds no [metadata] entry, still gives the request a metadata object;
    every accessor of that object raises, [request_id], [client_context_id],
    [status], [signature] and [profile] with [AttributeError]. *)
Theorem accessors_without_metadata (r : QueryRequestLogic) (d : list (string * pyval)) :
  truthy (assoc_get d "has_exception" VNone) = false →
  (assoc_get d "value" VNone = VNone
   ∨ ∃ v, assoc_get d "value" VNone = VDict v ∧ assoc_get v "metadata" VNone = VNone) →
  ∃ r', _set_metadata r (VDict d) = Ok r'
        ∧ metadata r' = Ok (Some (mk_metadata VNone))
        ∧ request_id (mk_metadata VNone) = Raise no_get
        ∧ client_context_id (mk_metadata VNone) = Raise no_get
        ∧ status (mk_metadata VNone) = Raise no_get
        ∧ signature (mk_metadata VNone) = Raise no_get
        ∧ profile (mk_metadata VNone) = Raise no_get
        ∧ metrics (mk_metadata VNone)
          = Raise (exc TypeError "argument of type 'NoneType' is not iterable").
Proof.
  intros Hexc Hvalue.
  exists (mk_request (_connection r) (_query_params r) (row_factory r) (_rows r)
            (_raw_rows r) (_query_request_ftr r) (_ROWS_STOP r) (_streaming_result r)
            (_started_streaming r) (_done_streaming r) (Some (mk_metadata VNone))
            (_serializer r)).
  split; [| by repeat split].
  unfold _set_metadata. simpl. rewrite Hexc. simpl.
  destruct Hvalue as [-> | (v & -> & Hmd)]; simpl; [reflexivity |].
  by rewrite Hmd.
Qed.

(** X13. A response whose [has_exception] entry is true makes
    [_set_metadata] raise, whatever else the response holds: no metadata is
    stored for it. *)
Theorem flagged_response_always_raises (r : QueryRequestLogic) (d : list (string * pyval)) :
  truthy (assoc_get d "has_exception" VNone) = true →
  ∃ e, _set_metadata r (VDict d) = Raise e.
Proof.
  intros Hexc. unfold _set_metadata. simpl. rewrite Hexc. simpl.
  unfold _handle_query_result_exc.
  destruct (build_query_result_exc (VDict d)) as [e | e]; by exists e.
Qed.

(** X14. For a response that carries an exception object of the engine,
    the mapping builds a typed exception and nothing escapes before it:
    without an error context the class the table gives for the engine's
    code ([CouchbaseException] for a code it does not list) with the
    engine's message; with one, what [parse_error_context] builds, or the
    internal error [Unknown error.] when it builds nothing. *)
Theorem engine_error_mapping (d : list (string * pyval)) (err : Z) (strerror : string)
    (err_ctx : pyval) :
  assoc_get d "exc" VNone = VNativeError err strerror err_ctx →
  (err_ctx = VNone →
     build_query_result_exc (VDict d)
     = Ok (mk_exc (default CouchbaseException (PYCBC_ERROR_MAP !! err)) (VStr strerror) VNone))
  ∧ (err_ctx ≠ VNone →
     build_query_result_exc (VDict d)
     = Ok (default
             (mk_exc (default CouchbaseException (PYCBC_ERROR_MAP !! InternalSDKException_value))
                (VStr "Unknown error.") VNone)
             (parse_error_context (VNativeError err strerror err_ctx)))).
Proof.
  intros Hexc. unfold build_query_result_exc. simpl. rewrite Hexc. simpl. split.
  - by intros ->.
  - intros Hctx.
    assert (is_None err_ctx = false) as -> by (by destruct err_ctx).
    simpl. by destruct (parse_error_context _).
Qed.

End Metadata.

(** X15. [_submit_query] has no guard of its own while the stream is not
    done: called twice, it calls the engine twice with the same arguments. *)
Theorem every_trigger_submits (r : QueryRequestLogic) (e : engine) :
  done_streaming r = false →
  let kwargs := _query_params r ∪ {[ "conn" := _connection r ]} in
  ∃ r1 e1 r2 e2,
    _submit_query r e = (r1, e1)
    ∧ _submit_query r1 e1 = (r2, e2)
    ∧ n1ql_query_calls e2 = n1ql_query_calls e ++ [kwargs; kwargs]
    ∧ started_streaming r2 = true
    ∧ done_streaming r2 = false.
Proof.
  intros Hdone kwargs.
  eexists _, _, _, _.
  split; [unfold _submit_query; rewrite Hdone; reflexivity |].
  split; [unfold _submit_query; simpl; unfold done_streaming in Hdone; rewrite Hdone; reflexivity |].
  split; [| by split].
  simpl. by rewrite <- app_assoc.
Qed.

(** X16. The keywords of the engine call are the query parameters and
    the connection under [conn]; a parameter named [conn] takes the place of
    the connection. *)
Theorem submitted_arguments (r : QueryRequestLogic) (e : engine) :
  done_streaming r = false →
  ∃ kwargs, n1ql_query_calls (snd (_submit_query r e)) = n1ql_query_calls e ++ [kwargs]
            ∧ (∀ k v, _query_params r !! k = Some v → kwargs !! k = Some v)
            ∧ (_query_params r !! "conn" = None → kwargs !! "conn" = Some (_connection r))
            ∧ (∀ k, k ≠ "conn" → kwargs !! k = _query_params r !! k).
Proof.
  intros Hdone.
  exists (_query_params r ∪ {[ "conn" := _connection r ]}).
  split; [unfold _submit_query; by rewrite Hdone |]. split; [| split].
  - intros k v Hk. by apply lookup_union_Some_l.
  - intros Hnone. rewrite lookup_union_r by done. apply lookup_singleton_eq.
  - intros k Hk. rewrite lookup_union.
    rewrite lookup_singleton_ne by done.
    by destruct (_query_params r !! k).
Qed.

End ParameterProps.

(** *** Concrete runs of the properties above *)

Module ParameterRuns.
Import N1QL N1QLRest ParameterProps JsonSamples.
Local Open Scope list_scope.
#[local] Existing Instances sample_json Samples.sample_exceptions.

Definition fresh : N1QLQuery := N1QLQuery__init__ "SELECT $1, $2, $name".

Lemma positional_arguments_accumulate_witness :
  ∃ q1 q2,
    _add_pos_args [VInt 1] fresh = (Ok (), q1)
    ∧ _add_pos_args [VStr "a"; VNone] q1 = (Ok (), q2)
    ∧ _params q2 !! "positional_parameters"
      = Some (VList ([VStr "1"] ++ [VStr (quote "a"); VStr "null"]))
    ∧ _add_pos_args ([VInt 1] ++ [VStr "a"; VNone]) fresh = (Ok (), q2).
Proof.
  apply (positional_arguments_accumulate fresh [VInt 1] [VStr "a"; VNone]
           [VStr "1"] [VStr (quote "a"); VStr "null"]); reflexivity.
Defined.

Definition unencodable : pyexc := exc TypeError "Object is not JSON serializable".

Lemma unencodable_positional_argument_witness :
  ∃ e' q', _add_pos_args [VInt 2; VTimedelta 5] fresh = (Raise e', q')
           ∧ _params q' !! "positional_parameters" = Some (VList [])
           ∧ (∀ k, k ≠ "positional_parameters" → _params q' !! k = _params fresh !! k).
Proof.
  apply (unencodable_positional_argument fresh [VInt 2; VTimedelta 5] (VTimedelta 5)
           unencodable).
  - right; left; reflexivity.
  - reflexivity.
Defined.

Lemma unencodable_named_argument_witness :
  ∃ e', _set_named_args [("limit", VInt 3); ("within", VTimedelta 5)] fresh
        = (Raise e', fresh).
Proof.
  apply (unencodable_named_argument fresh [("limit", VInt 3); ("within", VTimedelta 5)]
           "within" (VTimedelta 5) unencodable).
  - right; left; reflexivity.
  - reflexivity.
Defined.

Definition keywords : list (string * pyval) := [("name", VStr "x"); ("limit", VInt 3)].

Lemma named_arguments_prefixed_witness :
  ∃ d, _params (snd (_set_named_args keywords fresh)) !! "named_parameters" = Some (VDict d)
       ∧ assoc_get d "$name" VNone = VStr (quote "x")
       ∧ assoc_get d "$limit" VNone = VStr "3"
       ∧ Forall (from_keywords keywords) d.
Proof.
  destruct (named_arguments_prefixed fresh keywords (snd (_set_named_args keywords fresh))
              eq_refl) as (d & Hd & Hstored & Hall & _).
  - apply (bool_decide_unpack (NoDup (map fst keywords))). vm_compute. exact I.
  - reflexivity.
  - exists d. split; [exact Hd |].
    destruct (Hstored "name" (VStr "x")) as (s1 & Hs1 & Hget1); [left; reflexivity |].
    destruct (Hstored "limit" (VInt 3)) as (s2 & Hs2 & Hget2);
      [right; left; reflexivity |].
    injection Hs1 as <-. injection Hs2 as <-.
    split; [exact Hget1 |]. split; [exact Hget2 | exact Hall].
Defined.

Definition response_without_value : list (string * pyval) :=
  [("has_exception", VBool false); ("value", VNone)].

Lemma accessors_without_metadata_witness :
  ∃ r', _set_metadata RequestProps.finished_request (VDict response_without_value) = Ok r'
        ∧ metadata r' = Ok (Some (mk_metadata VNone))
        ∧ request_id (mk_metadata VNone) = Raise no_get.
Proof.
  destruct (accessors_without_metadata RequestProps.finished_request response_without_value
              eq_refl (or_introl eq_refl)) as (r' & Hset & Hmd & Hid & _).
  exists r'. split; [exact Hset |]. split; [exact Hmd | exact Hid].
Defined.

Definition flagged_response : list (string * pyval) :=
  [("has_exception", VBool true);
   ("exc", VNativeError 101 "document not found" VNone)].

Lemma flagged_response_always_raises_witness :
  ∃ e, _set_metadata RequestProps.finished_request (VDict flagged_response) = Raise e.
Proof.
  apply (flagged_response_always_raises RequestProps.finished_request flagged_response).
  reflexivity.
Defined.

Lemma engine_error_mapping_witness :
  build_query_result_exc (VDict flagged_response)
  = Ok (mk_exc (default CouchbaseException (PYCBC_ERROR_MAP !! 101%Z))
          (VStr "document not found") VNone)
  ∧ build_query_result_exc
      (VDict [("exc", VNativeError 9999 "unknown" (VDict [("message", VStr "m")]))])
    = Ok (default
            (mk_exc (default CouchbaseException (PYCBC_ERROR_MAP !! InternalSDKException_value))
               (VStr "Unknown error.") VNone)
            (parse_error_context
               (VNativeError 9999 "unknown" (VDict [("message", VStr "m")])))).
Proof.
  split.
  - apply (engine_error_mapping flagged_response 101 "document not found" VNone eq_refl).
    reflexivity.
  - apply (engine_error_mapping
             [("exc", VNativeError 9999 "unknown" (VDict [("message", VStr "m")]))]
             9999 "unknown" (VDict [("message", VStr "m")]) eq_refl).
    discriminate.
Defined.

Definition new_request : QueryRequestLogic :=
  QueryRequestLogic__init__ Samples.conn {[ "statement" := VStr "SELECT 1" ]}.

Lemma every_trigger_submits_witness :
  ∃ r1 e1 r2 e2,
    _submit_query new_request (mk_engine []) = (r1, e1)
    ∧ _submit_query r1 e1 = (r2, e2)
    ∧ n1ql_query_calls e2
      = [] ++ [_query_params new_request ∪ {[ "conn" := Samples.conn ]};
               _query_params new_request ∪ {[ "conn" := Samples.conn ]}]
    ∧ started_streaming r2 = true
    ∧ done_streaming r2 = false.
Proof. apply (every_trigger_submits new_request (mk_engine [])). reflexivity. Defined.

Lemma submitted_arguments_witness :
  ∃ kwargs, n1ql_query_calls (snd (_submit_query new_request (mk_engine []))) = [] ++ [kwargs]
            ∧ (∀ k v, _query_params new_request !! k = Some v → kwargs !! k = Some v)
            ∧ (_query_params new_request !! "conn" = None →
                 kwargs !! "conn" = Some (_connection new_request))
            ∧ (∀ k, k ≠ "conn" → kwargs !! k = _query_params new_request !! k).
Proof. apply (submitted_arguments new_request (mk_engine [])). reflexivity. Defined.

End ParameterRuns.

(** ** More properties of the completion bridge *)

Module BridgeEdges.
Import Loop Wrappers LoopFacts BridgeProps.
Local Open Scope list_scope.

Section Bridge.
Context `{ExceptionsModule} `{LogicModule}.



(** X18. A future that holds a result or an exception, or was
    cancelled, keeps that state however many handles the loop runs. *)
Theorem resolved_future_is_final (w : world) (ft : nat) (s : fut_state) (n : nat) :
  state_of w ft = Some s →
  s ≠ PENDING →
  state_of (run n w) ft = Some s.
Proof. intros Hs Hne. by apply (run_finality n w). Qed.

(** X19. When the caller has cancelled the operation
    future while the connect was pending, [chain_futures] does not look at
    it: after a successful connect the wrapped function is still called and
    the engine receives the call; after a failed one [ft.set_exception]
    raises [InvalidStateError] inside the handle, which the loop hands to its
    exception handler. *)
Theorem cancelled_operation_is_still_invoked (w : world) (ft self : nat) (fn : logic_fn)
    (inj : injected) (set_connection : bool) (args : list pyval)
    (kwargs : gmap string pyval) (cft : nat) :
  state_of w ft = Some CANCELLED →
  (∀ v w1 name kw,
     state_of w cft = Some (FINISHED (Ok v)) →
     set_scope_and_own_connection set_connection self w = (Ok (), w1) →
     fn_call fn (nodes w1) self args kwargs = Ok (name, kw) →
     ∃ w', chain_futures ft self fn inj set_connection args kwargs cft w = (Ok (), w')
           ∧ native_calls w' = native_calls w ++ [mk_call name kw inj]
           ∧ state_of w' ft = Some CANCELLED)
  ∧ (∀ E,
     state_of w cft = Some (FINISHED (Raise E)) →
     chain_futures ft self fn inj set_connection args kwargs cft w = (Raise invalid_state, w)
     ∧ Handle_run (CbChainFutures ft self fn inj set_connection args kwargs cft) w
       = set_exception_handler_calls w (exception_handler_calls w ++ [invalid_state])).
Proof.
  intros Hft. apply state_of_Some in Hft as (f & Hf & Hcancelled).
  split.
  - intros v w1 name kw Hcft Hprep Hfn.
    apply state_of_Some in Hcft as (c & Hc & Hstate).
    pose proof (set_scope_and_own_connection_frame _ _ _ _ _ Hprep)
      as (Hfut & Hready & Hcalls & Hlog).
    exists (set_native_calls w1 (native_calls w1 ++ [mk_call name kw inj])).
    split; [| split].
    + unfold chain_futures. unfold mbind at 1, M_bind at 1.
      rewrite (cancelled_eq w cft c Hc), Hstate.
      unfold mbind at 1, M_bind at 1.
      rewrite (exception_finished w cft c (Ok v) Hc Hstate).
      unfold mbind at 1, M_bind at 1. rewrite Hprep.
      by apply call_async_fn_invokes.
    + simpl. by rewrite Hcalls.
    + unfold state_of. simpl. rewrite Hfut, Hf. simpl. by rewrite Hcancelled.
  - intros E Hcft. apply state_of_Some in Hcft as (c & Hc & Hstate).
    assert (Hrun : chain_futures ft self fn inj set_connection args kwargs cft w
                   = (Raise invalid_state, w)).
    { unfold chain_futures. unfold mbind at 1, M_bind at 1.
      rewrite (cancelled_eq w cft c Hc), Hstate.
      unfold mbind at 1, M_bind at 1.
      rewrite (exception_finished w cft c (Raise E) Hc Hstate).
      apply (set_exception_resolved w ft f E Hf). by rewrite Hcancelled. }
    split; [exact Hrun |].
    unfold Handle_run. simpl. by rewrite Hrun.
Qed.

(** X20. On an object whose connection is set, the operation, the
    cluster and the management wrapper each create one future, call the
    wrapped function once and return the future pending, with nothing queued
    on the loop. *)
Theorem connected_object_calls_once (w : world) (rc : return_cls) (fn : logic_fn)
    (self : nat) (args : list pyval) (kwargs : gmap string pyval) (x : node)
    (name : string) (kw : gmap string pyval) :
  nodes w !! self = Some x →
  truthy (node_connection x) = true →
  fn_call fn (nodes w) self args kwargs = Ok (name, kw) →
  let ft := length (futures w) in
  let after inj :=
    set_native_calls (set_futures w (futures w ++ [mk_future PENDING []]))
      (native_calls w ++ [mk_call name kw inj]) in
  inject_callbacks rc fn self args kwargs w
    = (Ok ft, after (mk_injected WOp self ft rc))
  ∧ (∀ chain info, inject_cluster_callbacks rc chain info fn self args kwargs w
       = (Ok ft, after (mk_injected (WCluster info) self ft rc)))
  ∧ (∀ mgmt_type error_map, mgmt_inject_callbacks rc mgmt_type error_map fn self args kwargs w
       = (Ok ft, after (mk_injected (WMgmt mgmt_type (fn__name__ fn) error_map) self ft rc)))
  ∧ (∀ inj, state_of (after inj) ft = Some PENDING ∧ ready (after inj) = ready w).
Proof.
  intros Hx Hc Hfn ft after.
  pose (w1 := set_futures w (futures w ++ [mk_future PENDING []])).
  assert (Hnc : not_connection self w1 = (Ok false, w1)).
  { rewrite (not_connection_eq w1 self x) by done. by rewrite Hc. }
  assert (Hcall : ∀ inj, call_async_fn ft self fn inj args kwargs w1 = (Ok (), after inj)).
  { intros inj. exact (call_async_fn_invokes ft self fn inj args kwargs w1 name kw Hfn). }
  split; [| split; [| split]].
  - unfold inject_callbacks. unfold mbind at 1, M_bind at 1.
    rewrite create_future_eq. fold w1. fold ft.
    unfold mbind at 1, M_bind at 1. rewrite Hnc.
    unfold mbind at 1, M_bind at 1. by rewrite Hcall.
  - intros chain info. unfold inject_cluster_callbacks. unfold mbind at 1, M_bind at 1.
    rewrite create_future_eq. fold w1. fold ft.
    unfold mbind at 1, M_bind at 1. rewrite Hnc.
    unfold mbind at 1, M_bind at 1. by rewrite Hcall.
  - intros mgmt_type error_map. unfold mgmt_inject_callbacks. unfold mbind at 1, M_bind at 1.
    rewrite create_future_eq. fold w1. fold ft.
    unfold mbind at 1, M_bind at 1. rewrite Hnc.
    unfold mbind at 1, M_bind at 1. by rewrite Hcall.
  - intros inj. split; [| done].
    unfold state_of, after. simpl. by rewrite list_lookup_middle.
Qed.

(** X21. When [decode_value] raises inside the success
    callback of the decoding wrapper, the exception escapes into the engine's
    thread and no handle is queued: on an idle loop the future stays pending
    for ever. *)
Theorem decoding_failure_leaves_future_pending (w : world) (inj : injected)
    (transcoder : pyval) (fn_name : string) (d : list (string * pyval)) (e : pyexc) :
  inj_kind inj = WDecode transcoder fn_name →
  decode_value transcoder (assoc_get d "value" VNone) (assoc_get d "flags" VNone)
    (String.eqb fn_name "_lookup_in_internal") = Raise e →
  invoke inj (InvokeOk (VDict d)) w = (Raise e, w)
  ∧ ∀ n, state_of w (inj_ft inj) = Some PENDING → ready w = [] →
         state_of (run n (snd (invoke inj (InvokeOk (VDict d)) w))) (inj_ft inj)
         = Some PENDING.
Proof.
  intros Hk Hdecode.
  assert (Hok : invoke inj (InvokeOk (VDict d)) w = (Raise e, w)).
  { unfold invoke, on_ok. rewrite Hk. unfold lift. simpl.
    unfold mbind at 1, M_bind at 1. simpl.
    unfold mbind at 1, M_bind at 1. simpl.
    unfold mbind at 1, M_bind at 1. by rewrite Hdecode. }
  split; [exact Hok |]. intros n Hpending Hready. rewrite Hok. simpl.
  assert (Hidle : ∀ k, run k w = w).
  { induction k as [| k IH]; [done |]. simpl. unfold run_once. by rewrite Hready. }
  by rewrite Hidle.
Qed.

(** The object [self] with the connection of the object [px]. *)
Definition with_connection_of (x px : node) : node :=
  mk_node (node_name x) (node_bucket_name x) (node_connection px) (node_parent x)
    (node_connected x) (node_cluster_info x) (node_connect_ft x).

(** X22. After a successful cluster connect,
    [chain_connect_futures] first copies the connection of the parent object
    into [self] and then calls the wrapped function, which sees the copy; no
    other object changes. *)
Theorem bucket_open_takes_cluster_connection (w : world) (ft self : nat) (fn : logic_fn)
    (inj : injected) (args : list pyval) (kwargs : gmap string pyval) (cft : nat)
    (v : pyval) (x px : node) (p : nat) :
  state_of w cft = Some (FINISHED (Ok v)) →
  nodes w !! self = Some x →
  node_parent x = Some p →
  nodes w !! p = Some px →
  let w1 := set_nodes w (<[ self := with_connection_of x px ]> (nodes w)) in
  chain_connect_futures ft self fn inj args kwargs cft w
  = call_async_fn ft self fn inj args kwargs w1
  ∧ nodes w1 !! self = Some (with_connection_of x px)
  ∧ (∀ n, n ≠ self → nodes w1 !! n = nodes w !! n)
  ∧ not_connection self w1 = (Ok (negb (truthy (node_connection px))), w1).
Proof.
  intros Hcft Hx Hp Hpx w1.
  apply state_of_Some in Hcft as (c & Hc & Hstate).
  assert (Hself : nodes w1 !! self = Some (with_connection_of x px)).
  { simpl. apply list_lookup_insert_eq. by eapply lookup_lt_Some. }
  assert (Hset : _set_connection self w = (Ok (), w1)).
  { unfold _set_connection, get_node, put_node. unfold_M. rewrite Hx, Hp. simpl.
    rewrite Hpx. unfold w1, with_connection_of. by rewrite Hp. }
  split; [| split; [exact Hself | split]].
  - unfold chain_connect_futures. unfold mbind at 1, M_bind at 1.
    rewrite (cancelled_eq w cft c Hc), Hstate.
    unfold mbind at 1, M_bind at 1.
    rewrite (exception_finished w cft c (Ok v) Hc Hstate).
    unfold mbind at 1, M_bind at 1. by rewrite Hset.
  - intros n Hn. simpl. by apply list_lookup_insert_ne.
  - by rewrite (not_connection_eq w1 self _ Hself).
Qed.

(** X23. With [set_cluster_info], the success callback stores the
    return value in [_cluster_info] when the engine calls it, before the
    loop has given the value to the future, whose state is not touched. *)
Theorem cluster_info_is_stored_at_once (w : world) (self ft : nat) (rc : return_cls)
    (res : pyval) (x : node) :
  nodes w !! self = Some x →
  let retval := retval_of rc res in
  ∃ w', invoke (mk_injected (WCluster true) self ft rc) (InvokeOk res) w = (Ok (), w')
        ∧ node_cluster_info <$> nodes w' !! self = Some retval
        ∧ futures w' = futures w
        ∧ ready w' = ready w ++ [CbSetResult ft retval]
        ∧ native_calls w' = native_calls w.
Proof.
  intros Hx retval.
  eexists. split.
  - unfold invoke, on_ok, _set_cluster_info, call_soon_threadsafe, call_soon, get_node,
      put_node. simpl. unfold_M. rewrite Hx. reflexivity.
  - simpl. rewrite list_lookup_insert_eq by (by eapply lookup_lt_Some). done.
Qed.

(** X24. The success callback of the connection wrapper stores
    the engine's result as the connection of the object and queues
    [ft.set_result(True)]; the object then counts as connected exactly when
    that result is true. *)
Theorem connect_result_becomes_connection (w : world) (self ft : nat) (res : pyval)
    (x : node) :
  nodes w !! self = Some x →
  ∃ w', invoke (mk_injected WConnection self ft RNone) (InvokeOk res) w = (Ok (), w')
        ∧ node_connection <$> nodes w' !! self = Some res
        ∧ futures w' = futures w
        ∧ ready w' = ready w ++ [CbSetResult ft (VBool true)]
        ∧ not_connection self w' = (Ok (negb (truthy res)), w').
Proof.
  intros Hx.
  eexists. split.
  - unfold invoke, on_ok, _set_connection_to, call_soon_threadsafe, call_soon, get_node,
      put_node. simpl. unfold_M. rewrite Hx. reflexivity.
  - assert (Hlookup : ∀ r, nodes (set_ready
                (set_nodes w (<[ self := mk_node (node_name x) (node_bucket_name x) res
                                           (node_parent x) (node_connected x)
                                           (node_cluster_info x) (node_connect_ft x) ]>
                                (nodes w))) r) !! self
              = Some (mk_node (node_name x) (node_bucket_name x) res (node_parent x)
                        (node_connected x) (node_cluster_info x) (node_connect_ft x))).
    { intros r. simpl. apply list_lookup_insert_eq. by eapply lookup_lt_Some. }
    split; [by rewrite Hlookup |]. split; [done |]. split; [done |].
    by rewrite (not_connection_eq _ self _ (Hlookup _)).
Qed.

End Bridge.
End BridgeEdges.

(** *** Concrete runs of the properties above *)

Module BridgeRuns.
Import Loop Wrappers LoopFacts BridgeProps BridgeEdges Samples.
Local Open Scope list_scope.
#[local] Existing Instances sample_exceptions sample_logic.




(** A future that holds a result, and a handle that will try to fail it. *)
Definition late : world :=
  mk_world (nodes connected) [mk_future (FINISHED (Ok (VBool true))) []]
    [CbSetException 0 connect_error] [] [].

Lemma resolved_future_is_final_witness :
  state_of (run 2 late) 0 = Some (FINISHED (Ok (VBool true))).
Proof.
  apply (resolved_future_is_final late 0 (FINISHED (Ok (VBool true))) 2);
    [reflexivity | discriminate].
Defined.

(** The operation future 0 was cancelled by its caller while the bucket's
    connect future 1 was pending; the connect has now succeeded. *)
Definition abandoned : world :=
  mk_world (nodes connected)
    [mk_future CANCELLED []; mk_future (FINISHED (Ok (VBool true))) []] [] [] [].

Lemma cancelled_operation_is_still_invoked_witness :
  ∃ w', chain_futures 0 3 Collection.get_fn get_injected true [VStr "k"] ∅ 1 abandoned
        = (Ok (), w')
        ∧ map nc_function (native_calls w') = ["kv_operation"]
        ∧ state_of w' 0 = Some CANCELLED.
Proof.
  destruct (cancelled_operation_is_still_invoked abandoned 0 3 Collection.get_fn
              get_injected true [VStr "k"] ∅ 1 eq_refl) as (Hok & _).
  edestruct (Hok (VBool true)) as (w' & Hrun & Hcalls & Hstate);
    [reflexivity | vm_compute; reflexivity | vm_compute; reflexivity |].
  exists w'. split; [exact Hrun |]. split; [by rewrite Hcalls | exact Hstate].
Defined.

Lemma connected_object_calls_once_witness :
  ∃ w', inject_cluster_callbacks RTrue false false ping_fn 0 [] ∅ connected = (Ok 0%nat, w')
        ∧ map nc_function (native_calls w') = ["diagnostics_operation"]
        ∧ state_of w' 0 = Some PENDING.
Proof.
  destruct (connected_object_calls_once connected RTrue ping_fn 0 [] ∅
              (mk_node "cluster" "" conn None true VNone None)
              "diagnostics_operation" ∅ eq_refl eq_refl eq_refl)
    as (_ & Hcluster & _ & Hstate).
  eexists. split; [exact (Hcluster false false) |].
  split; [reflexivity | exact (proj1 (Hstate _))].
Defined.

(** The cluster is connected and its connect future 1 holds the result; the
    bucket, object 1, is not connected yet and its open future 0 waits. *)
Definition cluster_up : world :=
  mk_world
    [ mk_node "cluster" "" conn None true VNone (Some 1%nat);
      mk_node "travel-sample" "travel-sample" VNone (Some 0%nat) false VNone (Some 0%nat) ]
    [mk_future PENDING []; mk_future (FINISHED (Ok (VBool true))) []] [] [] [].

Definition bucket_injected : injected := mk_injected WBucketOpen 1 0 RNone.

Lemma bucket_open_takes_cluster_connection_witness :
  ∃ w', chain_connect_futures 0 1 open_bucket_fn bucket_injected [] ∅ 1 cluster_up
        = (Ok (), w')
        ∧ node_connection <$> nodes w' !! 1%nat = Some conn
        ∧ map nc_function (native_calls w') = ["open_or_close_bucket"].
Proof.
  destruct (bucket_open_takes_cluster_connection cluster_up 0 1 open_bucket_fn
              bucket_injected [] ∅ 1 (VBool true)
              (mk_node "travel-sample" "travel-sample" VNone (Some 0%nat) false VNone
                 (Some 0%nat))
              (mk_node "cluster" "" conn None true VNone (Some 1%nat)) 0
              eq_refl eq_refl eq_refl eq_refl) as (Hrun & _).
  eexists. split; [rewrite Hrun; reflexivity |]. split; reflexivity.
Defined.

Lemma cluster_info_is_stored_at_once_witness :
  ∃ w', invoke (mk_injected (WCluster true) 0 0 (RClass "ClusterInfoResult"))
          (InvokeOk first_result) in_flight = (Ok (), w')
        ∧ node_cluster_info <$> nodes w' !! 0%nat
          = Some (VInstance "ClusterInfoResult" first_result)
        ∧ state_of w' 0 = Some PENDING.
Proof.
  destruct (cluster_info_is_stored_at_once in_flight 0 0 (RClass "ClusterInfoResult")
              first_result (mk_node "cluster" "" conn None true VNone None) eq_refl)
    as (w' & Hrun & Hinfo & Hfut & _).
  exists w'. split; [exact Hrun |]. split; [exact Hinfo |].
  unfold state_of. by rewrite Hfut.
Defined.

(** The cluster's connect request in flight. *)
Definition connecting : world :=
  mk_world (nodes disconnected) [mk_future PENDING []] [] [] [].

Lemma connect_result_becomes_connection_witness :
  ∃ w', invoke (mk_injected WConnection 0 0 RNone) (InvokeOk conn) connecting = (Ok (), w')
        ∧ node_connection <$> nodes w' !! 0%nat = Some conn
        ∧ not_connection 0 w' = (Ok false, w').
Proof.
  destruct (connect_result_becomes_connection connecting 0 0 conn
              (mk_node "cluster" "" VNone None false VNone None) eq_refl)
    as (w' & Hrun & Hconn & _ & _ & Hnot).
  exists w'. split; [exact Hrun |]. split; [exact Hconn | exact Hnot].
Defined.

End BridgeRuns.

Module DecodingRun.
Import Loop Wrappers LoopFacts BridgeProps BridgeEdges Samples.

(** A transcoder that refuses a response without a value. *)
#[local] Instance strict_logic : LogicModule := {|
  decode_value := fun _ value _ _ =>
    match value with
    | VNone => Raise (exc ValueError "nothing to decode")
    | v => Ok v
    end;
  handle_mgmt_response := fun _ ret _ cls => VInstance cls ret
|}.
#[local] Existing Instance sample_exceptions.

Definition decoding : injected :=
  mk_injected (WDecode transcoder "get") 3 0 (RClass "GetResult").

Lemma decoding_failure_leaves_future_pending_witness :
  invoke decoding (InvokeOk first_result) in_flight
  = (Raise (exc ValueError "nothing to decode"), in_flight)
  ∧ ∀ n, state_of (run n (snd (invoke decoding (InvokeOk first_result) in_flight))) 0
         = Some PENDING.
Proof.
  destruct (@decoding_failure_leaves_future_pending sample_exceptions strict_logic
              in_flight decoding transcoder "get"
              [("cas", VInt 42)] (exc ValueError "nothing to decode") eq_refl eq_refl)
    as (Hraise & Hrun).
  split; [exact Hraise | intros n; exact (Hrun n eq_refl eq_refl)].
Defined.

End DecodingRun.

(** ** Properties of [CollectionLogic.get] *)

Module CollectionProps.
Import Loop Collection.

(** The keywords [get] passes to [kv_operation] besides the caller's. *)
Definition reserved_keywords : list string :=
  ["conn"; "bucket"; "scope"; "collection_name"; "key"; "op_type"].

Lemma merge_keywords_disjoint (a b : gmap string pyval) :
  (∀ k, is_Some (a !! k) → b !! k = None) →
  merge_keywords a b = Ok (a ∪ b).
Proof.
  intros Hdisj. unfold merge_keywords.
  rewrite bool_decide_eq_true_2; [done |].
  apply set_eq. intros k. split; [| set_solver].
  rewrite elem_of_intersection, !elem_of_dom. intros [Ha Hb].
  rewrite (Hdisj k Ha) in Hb. by destruct Hb.
Qed.

Lemma merge_keywords_clash (a b : gmap string pyval) (k : string) :
  is_Some (a !! k) → is_Some (b !! k) →
  merge_keywords a b = Raise (exc TypeError "got multiple values for keyword argument").
Proof.
  intros Ha Hb. unfold merge_keywords.
  rewrite bool_decide_eq_false_2; [done |].
  intros Hempty.
  assert (Hk : k ∈ dom a ∩ dom b) by (apply elem_of_intersection; by rewrite !elem_of_dom).
  rewrite Hempty in Hk. by apply not_elem_of_empty in Hk.
Qed.

(** X25. A get with at most sixteen projections, or with a [project] option
    that is not a list, on a collection of a scope ends in one
    [kv_operation] call whose keywords are the caller's together with the
    key, the operation type and the four connection arguments. *)
Theorem get_native_arguments (ns : list node) (self : nat) (key : pyval)
    (kwargs : gmap string pyval) (c scope : node) (p : nat) :
  ns !! self = Some c →
  node_parent c = Some p →
  ns !! p = Some scope →
  (∀ l, kwargs !! "project" = Some (VList l) → (length l ≤ 16)%nat) →
  (∀ k, In k reserved_keywords → kwargs !! k = None) →
  ∃ kw, get ns self [key] kwargs = Ok ("kv_operation", kw)
        ∧ kw !! "key" = Some key
        ∧ kw !! "op_type" = Some operations_GET_value
        ∧ kw !! "conn" = Some (node_connection c)
        ∧ kw !! "bucket" = Some (VStr (node_bucket_name scope))
        ∧ kw !! "scope" = Some (VStr (node_name scope))
        ∧ kw !! "collection_name" = Some (VStr (node_name c))
        ∧ (∀ k v, kwargs !! k = Some v → kw !! k = Some v)
        ∧ (∀ k, ¬ In k reserved_keywords → kw !! k = kwargs !! k).
Proof.
  intros Hc Hp Hscope Hproj Hres.
  set (conn_args := <[ "conn" := node_connection c ]>
                    (<[ "bucket" := VStr (node_bucket_name scope) ]>
                    (<[ "scope" := VStr (node_name scope) ]>
                    (<[ "collection_name" := VStr (node_name c) ]> (∅ : gmap string pyval))))).
  set (own := <[ "key" := key ]> (<[ "op_type" := operations_GET_value ]> (∅ : gmap string pyval))).
  assert (Hconn : _get_connection_args ns self = Ok conn_args).
  { unfold _get_connection_args. rewrite Hc, Hp. simpl. by rewrite Hscope. }
  assert (Hin : ∀ k, is_Some (conn_args !! k) → In k reserved_keywords).
  { intros k. unfold conn_args, reserved_keywords.
    rewrite !lookup_insert_is_Some, lookup_empty. simpl.
    intros [-> | [_ [-> | [_ [-> | [_ [-> | [_ Hk]]]]]]]]; auto.
    by destruct Hk. }
  assert (Hown : ∀ k, is_Some (own !! k) → k = "key" ∨ k = "op_type").
  { intros k. unfold own. rewrite !lookup_insert_is_Some, lookup_empty.
    intros [-> | [_ [-> | [_ Hk]]]]; auto. by destruct Hk. }
  assert (Hm1 : merge_keywords conn_args kwargs = Ok (conn_args ∪ kwargs)).
  { apply merge_keywords_disjoint. intros k Hk. by apply Hres, Hin. }
  assert (Hm2 : merge_keywords (conn_args ∪ kwargs) own = Ok ((conn_args ∪ kwargs) ∪ own)).
  { apply merge_keywords_disjoint. intros k Hk.
    destruct (own !! k) as [v |] eqn:Hv; [| done].
    exfalso. destruct (Hown k (mk_is_Some _ _ Hv)) as [-> | ->];
      apply lookup_union_is_Some in Hk as [Hk | Hk];
      first [ by vm_compute in Hk; destruct Hk
            | rewrite Hres in Hk; [by destruct Hk | unfold reserved_keywords; simpl; tauto] ]. }
  exists ((conn_args ∪ kwargs) ∪ own).
  assert (Hget : get ns self [key] kwargs = Ok ("kv_operation", (conn_args ∪ kwargs) ∪ own)).
  { unfold get.
    assert (Hcheck :
      match map_get kwargs "project" VNone with
      | VList l =>
          if bool_decide (16 < length l)%nat
          then Raise (exc InvalidArgumentException
                        ("Maximum of 16 projects allowed. Provided " ++ pretty (length l)))
          else Ok ()
      | _ => Ok ()
      end = Ok ()).
    { unfold map_get. destruct (kwargs !! "project") as [v |] eqn:Hv; [| done].
      destruct v; try done.
      rewrite bool_decide_eq_false_2; [done |]. specialize (Hproj _ eq_refl). lia. }
    rewrite Hcheck. simpl. rewrite Hconn. simpl. rewrite Hm1. simpl.
    fold own. by rewrite Hm2. }
  assert (Hkw : ∀ k v, kwargs !! k = Some v →
            conn_args !! k = None ∧ own !! k = None).
  { intros k v Hk. split.
    - destruct (conn_args !! k) as [u |] eqn:Hu; [| done].
      rewrite (Hres k (Hin k (mk_is_Some _ _ Hu))) in Hk. done.
    - destruct (own !! k) as [u |] eqn:Hu; [| done].
      destruct (Hown k (mk_is_Some _ _ Hu)) as [-> | ->];
        rewrite Hres in Hk; first [done | unfold reserved_keywords; simpl; tauto]. }
  assert (Hreserved : ∀ k v, In k reserved_keywords → (conn_args ∪ own) !! k = Some v →
            ((conn_args ∪ kwargs) ∪ own) !! k = Some v).
  { intros k v Hk Hv. rewrite lookup_union, lookup_union, (Hres k Hk).
    rewrite lookup_union in Hv.
    destruct (conn_args !! k), (own !! k); done. }
  split; [exact Hget |].
  repeat split.
  - apply Hreserved; [unfold reserved_keywords; simpl; tauto | done].
  - apply Hreserved; [unfold reserved_keywords; simpl; tauto | done].
  - apply Hreserved; [unfold reserved_keywords; simpl; tauto | done].
  - apply Hreserved; [unfold reserved_keywords; simpl; tauto | done].
  - apply Hreserved; [unfold reserved_keywords; simpl; tauto | done].
  - apply Hreserved; [unfold reserved_keywords; simpl; tauto | done].
  - intros k v Hk. destruct (Hkw k v Hk) as [Hc' Ho'].
    by rewrite lookup_union, lookup_union, Hc', Ho', Hk.
  - intros k Hk.
    assert (conn_args !! k = None) as Hc'.
    { destruct (conn_args !! k) as [u |] eqn:Hu; [| done].
      by destruct (Hk (Hin k (mk_is_Some _ _ Hu))). }
    assert (own !! k = None) as Ho'.
    { destruct (own !! k) as [u |] eqn:Hu; [| done].
      destruct (Hown k (mk_is_Some _ _ Hu)) as [-> | ->];
        destruct Hk; unfold reserved_keywords; simpl; tauto. }
    rewrite lookup_union, lookup_union, Hc', Ho'. by destruct (kwargs !! k).
Qed.

(** X26. On a collection of a scope, and with no more than sixteen
    projections, a caller's keyword that is also one of the four connection
    arguments makes the call of [kv_operation] a [TypeError]: [get] raises
    and reaches no native call. *)
Theorem get_keyword_clash (ns : list node) (self : nat) (key : pyval)
    (kwargs : gmap string pyval) (c scope : node) (p : nat) (k : string) :
  ns !! self = Some c →
  node_parent c = Some p →
  ns !! p = Some scope →
  (∀ l, kwargs !! "project" = Some (VList l) → (length l ≤ 16)%nat) →
  In k ["conn"; "bucket"; "scope"; "collection_name"] →
  is_Some (kwargs !! k) →
  get ns self [key] kwargs
  = Raise (exc TypeError "got multiple values for keyword argument").
Proof.
  intros Hc Hp Hscope Hproj Hk Hsome.
  unfold get.
  assert (Hcheck :
    match map_get kwargs "project" VNone with
    | VList l =>
        if bool_decide (16 < length l)%nat
        then Raise (exc InvalidArgumentException
                      ("Maximum of 16 projects allowed. Provided " ++ pretty (length l)))
        else Ok ()
    | _ => Ok ()
    end = Ok ()).
  { unfold map_get. destruct (kwargs !! "project") as [v |] eqn:Hv; [| done].
    destruct v; try done.
    rewrite bool_decide_eq_false_2; [done |]. specialize (Hproj _ eq_refl). lia. }
  rewrite Hcheck. simpl.
  unfold _get_connection_args. rewrite Hc, Hp. simpl. rewrite Hscope. simpl.
  rewrite (merge_keywords_clash _ kwargs k); [done | | done].
  simpl in Hk. destruct Hk as [<- | [<- | [<- | [<- | []]]]];
    rewrite !lookup_insert_is_Some; naive_solver.
Qed.

End CollectionProps.

(** ** Properties of [SearchIndex] *)

Module SearchIndexProps.
Import Wrappers SearchIndexLogic DictFacts.

Section Json.
Context `{JsonModule}.

Lemma output_if_set_other output key v k default :
  key ≠ k →
  assoc_get (output_if_set output key v) k default = assoc_get output k default.
Proof.
  intros Hne. unfold output_if_set. destruct (truthy v); [| done].
  by apply assoc_get_set_ne.
Qed.

Lemma output_json_other output key v k default out :
  key ≠ k →
  output_json output key v = Ok out →
  assoc_get out k default = assoc_get output k default.
Proof.
  intros Hne. unfold output_json.
  destruct (py_len v) as [n |]; [| done]. simpl.
  destruct (0 <? n)%nat; [| by intros [= <-]].
  destruct (json_dumps v) as [s |]; [| done]. simpl. intros [= <-].
  by apply assoc_get_set_ne.
Qed.

(** The three fixed entries of [as_dict]. *)
Lemma as_dict_fixed (self : SearchIndex) out k :
  In k ["name"; "type"; "source_type"] →
  as_dict self = Ok out →
  assoc_get out k VNone
  = assoc_get [("name", name self); ("type", idx_type self);
               ("source_type", source_type self)] k VNone.
Proof.
  intros Hk. unfold as_dict.
  destruct (output_json _ "params_json" _) as [o1 |] eqn:H1; [| done]. simpl.
  destruct (output_json _ "source_params_json" _) as [o2 |] eqn:H2; [| done]. simpl.
  intros H3.
  assert (Hne : "uuid" ≠ k ∧ "params_json" ≠ k ∧ "source_uuid" ≠ k ∧ "source_name" ≠ k
                ∧ "source_params_json" ≠ k ∧ "plan_params_json" ≠ k).
  { simpl in Hk. destruct Hk as [<- | [<- | [<- | []]]]; by repeat split. }
  destruct Hne as (N1 & N2 & N3 & N4 & N5 & N6).
  rewrite (output_json_other _ _ _ k VNone out N6 H3).
  rewrite (output_json_other _ _ _ k VNone o2 N5 H2).
  rewrite (output_if_set_other _ _ _ k VNone N4).
  rewrite (output_if_set_other _ _ _ k VNone N3).
  rewrite (output_json_other _ _ _ k VNone o1 N2 H1).
  by rewrite (output_if_set_other _ _ _ k VNone N1).
Qed.

(** X27. An index read with [from_server] has the server's [type] as its
    [source_type] and the server's [source_type] as its [idx_type]: the
    constructor takes [source_type] before [idx_type], and [from_server]
    passes them in the other order.  Written back with [as_dict], the two
    entries are exchanged. *)
Theorem from_server_exchanges_types (json_data : list (string * pyval))
    (index : SearchIndex) :
  from_server json_data = Ok index →
  name index = assoc_get json_data "name" VNone
  ∧ source_type index = assoc_get json_data "type" VNone
  ∧ idx_type index = assoc_get json_data "source_type" VNone
  ∧ ∀ out, as_dict index = Ok out →
      assoc_get out "name" VNone = assoc_get json_data "name" VNone
      ∧ assoc_get out "type" VNone = assoc_get json_data "source_type" VNone
      ∧ assoc_get out "source_type" VNone = assoc_get json_data "type" VNone.
Proof.
  unfold from_server.
  destruct (loads_if_present json_data "params_json") as [p |]; [| done]. simpl.
  destruct (loads_if_present json_data "source_params_json") as [sp |]; [| done]. simpl.
  destruct (loads_if_present json_data "plan_params_json") as [pp |]; [| done]. simpl.
  intros [= <-]. simpl. split; [done |]. split; [done |]. split; [done |].
  intros out Hout.
  assert (Hfixed := fun k Hk => as_dict_fixed _ out k Hk Hout).
  split; [| split].
  - rewrite (Hfixed "name"); [done | simpl; tauto].
  - rewrite (Hfixed "type"); [done | simpl; tauto].
  - rewrite (Hfixed "source_type"); [done | simpl; tauto].
Qed.

Definition no_len : pyexc := exc TypeError "object of type 'NoneType' has no len()".

Lemma as_dict_without_params (self : SearchIndex) :
  params self = VNone → as_dict self = Raise no_len.
Proof. intros Hp. unfold as_dict. by rewrite Hp. Qed.

Lemma as_dict_without_source_params (self : SearchIndex) :
  source_params self = VNone → raises (as_dict self) = true.
Proof.
  intros Hp. unfold as_dict. rewrite Hp.
  by destruct (output_json _ "params_json" _).
Qed.

Lemma as_dict_without_plan_params (self : SearchIndex) :
  plan_params self = VNone → raises (as_dict self) = true.
Proof.
  intros Hp. unfold as_dict. rewrite Hp.
  destruct (output_json _ "params_json" _); [| done]. simpl.
  by destruct (output_json _ "source_params_json" _).
Qed.

Lemma loads_if_present_absent json_data key :
  dict_contains json_data key = false → loads_if_present json_data key = Ok VNone.
Proof. intros Hk. unfold loads_if_present. by rewrite Hk. Qed.

(** X28. An index read with [from_server] from data that lacks one of
    [params_json], [source_params_json] and [plan_params_json] cannot be
    written back: the missing parameters are [None], not an empty dict, and
    [as_dict] raises; when [params_json] is the missing one, the exception
    is the [TypeError] of [len(None)]. *)
Theorem from_server_needs_all_params (json_data : list (string * pyval))
    (index : SearchIndex) :
  from_server json_data = Ok index →
  (dict_contains json_data "params_json"
   && dict_contains json_data "source_params_json"
   && dict_contains json_data "plan_params_json" = false) →
  raises (as_dict index) = true
  ∧ (dict_contains json_data "params_json" = false → as_dict index = Raise no_len).
Proof.
  intros Hfrom Hmissing.
  assert (Hfields : ∀ key (field : SearchIndex → pyval),
            (∀ p sp pp, loads_if_present json_data "params_json" = Ok p →
               loads_if_present json_data "source_params_json" = Ok sp →
               loads_if_present json_data "plan_params_json" = Ok pp →
               loads_if_present json_data key
               = Ok (field (mk_index (assoc_get json_data "name" VNone)
                              (assoc_get json_data "type" VNone)
                              (assoc_get json_data "source_type" VNone)
                              (assoc_get json_data "source_name" VNone)
                              (assoc_get json_data "uuid" VNone) p
                              (assoc_get json_data "source_uuid" VNone) sp pp))) →
            dict_contains json_data key = false → field index = VNone).
  { intros key field Hfield Hkey. revert Hfrom. unfold from_server.
    destruct (loads_if_present json_data "params_json") as [p |] eqn:H1; [| done]. simpl.
    destruct (loads_if_present json_data "source_params_json") as [sp |] eqn:H2; [| done].
    simpl.
    destruct (loads_if_present json_data "plan_params_json") as [pp |] eqn:H3; [| done].
    simpl. intros [= <-].
    specialize (Hfield p sp pp eq_refl eq_refl eq_refl).
    rewrite (loads_if_present_absent _ _ Hkey) in Hfield. by injection Hfield as <-. }
  assert (Hparams : dict_contains json_data "params_json" = false → params index = VNone).
  { apply (Hfields "params_json" params). by intros p sp pp -> _ _. }
  assert (Hsource : dict_contains json_data "source_params_json" = false →
            source_params index = VNone).
  { apply (Hfields "source_params_json" source_params). by intros p sp pp _ -> _. }
  assert (Hplan : dict_contains json_data "plan_params_json" = false →
            plan_params index = VNone).
  { apply (Hfields "plan_params_json" plan_params). by intros p sp pp _ _ ->. }
  split.
  - destruct (dict_contains json_data "params_json");
      [| by rewrite as_dict_without_params; auto].
    destruct (dict_contains json_data "source_params_json");
      [| by apply as_dict_without_source_params; auto].
    destruct (dict_contains json_data "plan_params_json"); [done |].
    by apply as_dict_without_plan_params; auto.
  - intros Hno. by apply as_dict_without_params; auto.
Qed.

End Json.

End SearchIndexProps.

(** *** Concrete runs of the properties above *)

Module CollectionRuns.
Import Loop Collection CollectionProps Samples.

(** Sixteen projection paths, the most [get] accepts. *)
Definition sixteen : gmap string pyval :=
  {[ "project" := VList (replicate 16 (VStr "name")) ]}.

Lemma get_native_arguments_witness :
  ∃ kw, get (nodes connected) 3 [VStr "k"] sixteen = Ok ("kv_operation", kw)
        ∧ kw !! "key" = Some (VStr "k")
        ∧ kw !! "bucket" = Some (VStr "travel-sample")
        ∧ kw !! "project" = Some (VList (replicate 16 (VStr "name"))).
Proof.
  destruct (get_native_arguments (nodes connected) 3 (VStr "k") sixteen
              (mk_node "airline" "travel-sample" conn (Some 2%nat) true VNone None)
              (mk_node "inventory" "travel-sample" conn (Some 1%nat) true VNone None)
              2 eq_refl eq_refl eq_refl)
    as (kw & Hget & Hkey & _ & _ & Hbucket & _ & _ & Hkwargs & _).
  - intros l Hl. vm_compute in Hl. injection Hl as <-. vm_compute. lia.
  - intros k Hk. simpl in Hk.
    destruct Hk as [<- | [<- | [<- | [<- | [<- | [<- | []]]]]]]; reflexivity.
  - exists kw. split; [exact Hget |]. split; [exact Hkey |]. split; [exact Hbucket |].
    apply Hkwargs. reflexivity.
Defined.

Lemma get_keyword_clash_witness :
  get (nodes connected) 3 [VStr "k"] {[ "bucket" := VStr "beer-sample" ]}
  = Raise (exc TypeError "got multiple values for keyword argument").
Proof.
  apply (get_keyword_clash (nodes connected) 3 (VStr "k") {[ "bucket" := VStr "beer-sample" ]}
           (mk_node "airline" "travel-sample" conn (Some 2%nat) true VNone None)
           (mk_node "inventory" "travel-sample" conn (Some 1%nat) true VNone None)
           2 "bucket" eq_refl eq_refl eq_refl).
  - intros l Hl. vm_compute in Hl. discriminate Hl.
  - simpl. tauto.
  - eexists. reflexivity.
Defined.

End CollectionRuns.

Module SearchIndexRuns.
Import SearchIndexLogic SearchIndexProps JsonSamples.
#[local] Existing Instance sample_json.

(** An alias index as the server describes it. *)
Definition server_index : list (string * pyval) :=
  [("name", VStr "hotels"); ("type", VStr "fulltext-alias"); ("source_type", VStr "nil");
   ("params_json", VStr "{}"); ("source_params_json", VStr "{}");
   ("plan_params_json", VStr "{}")].

Definition alias_index : SearchIndex :=
  mk_index (VStr "hotels") (VStr "fulltext-alias") (VStr "nil") VNone VNone (VDict [])
    VNone (VDict []) (VDict []).

Lemma from_server_exchanges_types_witness :
  from_server server_index = Ok alias_index
  ∧ source_type alias_index = VStr "fulltext-alias"
  ∧ idx_type alias_index = VStr "nil"
  ∧ ∃ out, as_dict alias_index = Ok out
           ∧ assoc_get out "type" VNone = VStr "nil"
           ∧ assoc_get out "source_type" VNone = VStr "fulltext-alias".
Proof.
  destruct (@from_server_exchanges_types sample_json server_index alias_index eq_refl)
    as (_ & Hs & Hi & Hout).
  split; [reflexivity |]. split; [exact Hs |]. split; [exact Hi |].
  eexists. split; [reflexivity |]. exact (proj2 (Hout _ eq_refl)).
Defined.

(** What [as_dict] writes for an index built with the defaults: no
    parameters at all. *)
Definition bare_index : list (string * pyval) :=
  [("name", VStr "hotels"); ("type", VStr "fulltext-index");
   ("source_type", VStr "couchbase")].

Definition bare : SearchIndex :=
  mk_index (VStr "hotels") (VStr "fulltext-index") (VStr "couchbase") VNone VNone VNone
    VNone VNone VNone.

Lemma from_server_needs_all_params_witness :
  from_server bare_index = Ok bare ∧ as_dict bare = Raise no_len.
Proof.
  destruct (@from_server_needs_all_params sample_json bare_index bare eq_refl eq_refl) as (_ & Hlen).
  split; [reflexivity | exact (Hlen eq_refl)].
Defined.

End SearchIndexRuns.
